(** * trade5: the technical signal engine

    A shallow embedding of the price validator, the risk calculator, the
    indicator calculator, the protection rules, the signal cascade, the
    entry optimizer and the analysis endpoint of the [backend] package,
    with the properties of the specification stated against it.

    Numbers.  A Python [float] is modelled by [pyfloat]: an exact rational
    for every finite value, plus [+inf], [-inf] and [NaN].  Finite results
    are therefore exact (no binary rounding, no overflow) and there is one
    zero only; comparisons, the propagation of [NaN] and of the infinities,
    and the two divisions of the code (Python's, which raises on a zero
    divisor, and numpy's, which yields an infinity or [NaN]) are as in the
    source.  Finite values are kept in lowest terms, so equal numbers are
    equal terms. *)

From Stdlib Require Import QArith Qround Qabs ZArith List String Ascii Bool Lia Lqa.
From Stdlib Require Import Permutation Sorted.
Import ListNotations.
Local Open Scope Q_scope.

(* ===================================================================== *)
(** * Exceptions *)
(* ===================================================================== *)

Inductive exn : Type :=
| ZeroDivisionError
| ValueError
| TypeError
| IndexError
| OverflowError.

Inductive result (A : Type) : Type :=
| Ok (a : A)
| Raise (e : exn).
Arguments Ok {A} a.
Arguments Raise {A} e.

Definition bind {A B : Type} (m : result A) (k : A -> result B) : result B :=
  match m with
  | Ok a => k a
  | Raise e => Raise e
  end.

Notation "x <- m ;; k" := (bind m (fun x => k))
  (at level 61, m at next level, right associativity).

Definition returns {A : Type} (m : result A) : Prop := exists a, m = Ok a.
Definition raises {A : Type} (m : result A) : Prop := exists e, m = Raise e.

(* ===================================================================== *)
(** * Python floats *)
(* ===================================================================== *)

Module PyFloat.

Inductive pyfloat : Type :=
| Fin (q : Q)
| PInf
| NInf
| NaN.

Definition Qltb (a b : Q) : bool :=
  match a ?= b with Lt => true | _ => false end.
Definition Qleb (a b : Q) : bool :=
  match a ?= b with Gt => false | _ => true end.
Definition Qeqb (a b : Q) : bool :=
  match a ?= b with Eq => true | _ => false end.

(** [x < y] and [x <= y]; every comparison with [NaN] is false. *)
Definition flt (x y : pyfloat) : bool :=
  match x, y with
  | NaN, _ | _, NaN => false
  | Fin a, Fin b => Qltb a b
  | _, NInf => false
  | NInf, _ => true
  | PInf, _ => false
  | Fin _, PInf => true
  end.

Definition fle (x y : pyfloat) : bool :=
  match x, y with
  | NaN, _ | _, NaN => false
  | Fin a, Fin b => Qleb a b
  | NInf, _ => true
  | _, PInf => true
  | _, NInf => false
  | PInf, _ => false
  end.

Definition fgt (x y : pyfloat) : bool := flt y x.
Definition fge (x y : pyfloat) : bool := fle y x.

Definition is_nan (x : pyfloat) : bool :=
  match x with NaN => true | _ => false end.
Definition is_inf (x : pyfloat) : bool :=
  match x with PInf | NInf => true | _ => false end.
Definition is_finite (x : pyfloat) : bool :=
  match x with Fin _ => true | _ => false end.

Definition fneg (x : pyfloat) : pyfloat :=
  match x with
  | Fin a => Fin (Qred (- a))
  | PInf => NInf
  | NInf => PInf
  | NaN => NaN
  end.

Definition fabs (x : pyfloat) : pyfloat :=
  match x with
  | Fin a => Fin (Qred (Qabs a))
  | PInf | NInf => PInf
  | NaN => NaN
  end.

Definition fadd (x y : pyfloat) : pyfloat :=
  match x, y with
  | NaN, _ | _, NaN => NaN
  | Fin a, Fin b => Fin (Qred (a + b))
  | PInf, NInf | NInf, PInf => NaN
  | PInf, _ | _, PInf => PInf
  | NInf, _ | _, NInf => NInf
  end.

Definition fsub (x y : pyfloat) : pyfloat :=
  match x, y with
  | NaN, _ | _, NaN => NaN
  | Fin a, Fin b => Fin (Qred (a - b))
  | PInf, PInf | NInf, NInf => NaN
  | PInf, _ | _, NInf => PInf
  | NInf, _ | _, PInf => NInf
  end.

(** The infinity of the sign of [a], [NaN] for zero. *)
Definition signed_inf (a : Q) : pyfloat :=
  match a ?= 0 with
  | Gt => PInf
  | Lt => NInf
  | Eq => NaN
  end.

Definition fmul (x y : pyfloat) : pyfloat :=
  match x, y with
  | NaN, _ | _, NaN => NaN
  | Fin a, Fin b => Fin (Qred (a * b))
  | Fin a, PInf | PInf, Fin a => signed_inf a
  | Fin a, NInf | NInf, Fin a => signed_inf (- a)
  | PInf, PInf | NInf, NInf => PInf
  | PInf, NInf | NInf, PInf => NaN
  end.

(** Division of numpy scalars and of pandas Series: no exception, a zero
    divisor gives an infinity ([NaN] for [0/0]).  The zero is taken as
    positive. *)
Definition np_div (x y : pyfloat) : pyfloat :=
  match x, y with
  | NaN, _ | _, NaN => NaN
  | Fin a, Fin b => if Qeqb b 0 then signed_inf a else Fin (Qred (a / b))
  | Fin _, (PInf | NInf) => Fin 0
  | (PInf | NInf), (PInf | NInf) => NaN
  | PInf, Fin b => if Qltb b 0 then NInf else PInf
  | NInf, Fin b => if Qltb b 0 then PInf else NInf
  end.

(** Division of Python floats: a zero divisor raises. *)
Definition py_div (x y : pyfloat) : result pyfloat :=
  match y with
  | Fin b => if Qeqb b 0 then Raise ZeroDivisionError else Ok (np_div x y)
  | _ => Ok (np_div x y)
  end.

(** The builtins [max(a, b)] and [min(a, b)]: the first argument is kept
    unless the second is strictly greater (smaller). *)
Definition py_max (a b : pyfloat) : pyfloat := if fgt b a then b else a.
Definition py_min (a b : pyfloat) : pyfloat := if flt b a then b else a.

(** Rounding to the nearest integer, ties to the even one. *)
Definition round_half_even (q : Q) : Z :=
  let f := Qfloor q in
  match ((q - inject_Z f) ?= (1 # 2))%Q with
  | Lt => f
  | Gt => (f + 1)%Z
  | Eq => if Z.even f then f else (f + 1)%Z
  end.

Definition Qround_digits (q : Q) (scale : positive) : Q :=
  Qred (round_half_even (q * inject_Z (Zpos scale)) # scale).

(** [round(x, 2)] and [round(x, 1)]; [NaN] and the infinities are
    returned as they are. *)
Definition py_round (x : pyfloat) (scale : positive) : pyfloat :=
  match x with
  | Fin q => Fin (Qround_digits q scale)
  | _ => x
  end.
Definition round2 (x : pyfloat) : pyfloat := py_round x 100.
Definition round1 (x : pyfloat) : pyfloat := py_round x 10.

(** [int(x)]: truncation towards zero; [NaN] and the infinities raise. *)
Definition py_int (x : pyfloat) : result Z :=
  match x with
  | Fin q => Ok (if Qltb q 0 then (- Qfloor (- q))%Z else Qfloor q)
  | NaN => Raise ValueError
  | PInf | NInf => Raise OverflowError
  end.

(** Decimal literals of the source. *)
Definition FZ (z : Z) : pyfloat := Fin (inject_Z z).
Definition FQ (n : Z) (d : positive) : pyfloat := Fin (Qred (n # d)).

End PyFloat.
Export PyFloat.

Declare Scope pyfloat_scope.
Delimit Scope pyfloat_scope with F.
Bind Scope pyfloat_scope with pyfloat.
Infix "+" := fadd : pyfloat_scope.
Infix "-" := fsub : pyfloat_scope.
Infix "*" := fmul : pyfloat_scope.
Infix "<?" := flt (at level 70, no associativity) : pyfloat_scope.
Infix "<=?" := fle (at level 70, no associativity) : pyfloat_scope.
Infix ">?" := fgt (at level 70, no associativity) : pyfloat_scope.
Infix ">=?" := fge (at level 70, no associativity) : pyfloat_scope.

(* ===================================================================== *)
(** * Python values handed to [float()] *)
(* ===================================================================== *)

Module PyValue.

(** What a caller may pass where a price is expected: [None], a float, or
    a string (the non-numeric case). *)
Inductive pyval : Type :=
| PyNone
| PyFloat (x : pyfloat)
| PyStr (s : string).

Definition is_space (c : ascii) : bool :=
  let n := nat_of_ascii c in
  ((n =? 32) || ((9 <=? n) && (n <=? 13)))%nat.

Definition lower (c : ascii) : ascii :=
  let n := nat_of_ascii c in
  if ((65 <=? n) && (n <=? 90))%nat then ascii_of_nat (n + 32) else c.

Definition digit (c : ascii) : option Z :=
  let n := nat_of_ascii c in
  if ((48 <=? n) && (n <=? 57))%nat then Some (Z.of_nat (n - 48)) else None.

Fixpoint lstrip (l : list ascii) : list ascii :=
  match l with
  | c :: r => if is_space c then lstrip r else l
  | [] => []
  end.

Definition strip (l : list ascii) : list ascii :=
  rev (lstrip (rev (lstrip l))).

(** Reads a run of digits: the accumulated value, how many digits were
    read, and what follows. *)
Fixpoint digits (l : list ascii) (acc : Z) (n : nat) : Z * nat * list ascii :=
  match l with
  | c :: r =>
      match digit c with
      | Some d => digits r (10 * acc + d)%Z (S n)
      | None => (acc, n, l)
      end
  | [] => (acc, n, [])
  end.

Definition sign (l : list ascii) : Z * list ascii :=
  match l with
  | "+"%char :: r => (1%Z, r)
  | "-"%char :: r => ((-1)%Z, r)
  | _ => (1%Z, l)
  end.

Definition is_word (w : string) (l : list ascii) : bool :=
  if list_eq_dec ascii_dec (map lower l) (list_ascii_of_string w)
  then true else false.

Definition scale10 (m e : Z) : Q :=
  if (0 <=? e)%Z then inject_Z (m * 10 ^ e)
  else Qred (m # Z.to_pos (10 ^ (- e))).

(** The decimal part of a float literal: digits, an optional fraction and
    an optional exponent, at least one digit before the exponent. *)
Definition decimal (l : list ascii) : option Q :=
  let '(ip, n1, r1) := digits l 0 0 in
  let '(m, n2, r2) :=
    match r1 with
    | "."%char :: r => digits r ip 0
    | _ => (ip, 0%nat, r1)
    end in
  if (n1 + n2 =? 0)%nat then None else
  match r2 with
  | [] => Some (scale10 m (- Z.of_nat n2))
  | c :: r3 =>
      if Ascii.eqb (lower c) "e" then
        let '(es, r4) := sign r3 in
        let '(ev, n3, r5) := digits r4 0 0 in
        match n3, r5 with
        | S _, [] => Some (scale10 m (es * ev - Z.of_nat n2))
        | _, _ => None
        end
      else None
  end.

(** [float(s)] for a string: surrounding blanks are dropped, then an
    optional sign and either [inf], [infinity], [nan] (in any case) or a
    decimal literal; anything else is a [ValueError].  Digit-group
    underscores are not read, and a literal too large for a double is not
    turned into an infinity. *)
Definition float_of_string (s : string) : result pyfloat :=
  let '(sg, body) := sign (strip (list_ascii_of_string s)) in
  if is_word "inf" body || is_word "infinity" body then
    Ok (if (sg <? 0)%Z then NInf else PInf)
  else if is_word "nan" body then Ok NaN
  else match decimal body with
       | Some q => Ok (Fin (Qred (inject_Z sg * q)))
       | None => Raise ValueError
       end.

(** [pd.isna(v)] on a scalar. *)
Definition pd_isna (v : pyval) : bool :=
  match v with
  | PyNone => true
  | PyFloat x => is_nan x
  | PyStr _ => false
  end.

Definition is_none (v : pyval) : bool :=
  match v with PyNone => true | _ => false end.

(** [float(v)]. *)
Definition py_float (v : pyval) : result pyfloat :=
  match v with
  | PyFloat x => Ok x
  | PyStr s => float_of_string s
  | PyNone => Raise TypeError
  end.

End PyValue.
Export PyValue.

(* ===================================================================== *)
(** * Messages *)
(* ===================================================================== *)

(** The texts of the source are f-strings over the numbers at hand; a
    message is modelled by its template and the numbers it is built from. *)
Inductive Note : Type :=
(* price_validator.py *)
| MassiveDropWarning (abs_drop : pyfloat)      (* 'Scadere Masiva Detectata: ..% intr-o sesiune' *)
| WaitForStabilization                         (* 'WAIT 24-48h pentru stabilizare inainte de orice intrare' *)
| RRUnrealistic (rr max_rr : pyfloat)
| TakeProfitTooAggressive
(* overbought_protector.py, high_risk_optimizer.py *)
| SellTriggerMessage (rsi k vr : pyfloat)
| SellTakeProfitNow
| EntryBlockedMessage (rr : pyfloat)
| DoNotBuyWaitSetup
| VolumeDivergenceMessage (vr pc : pyfloat)
| DoNotBuyWaitVolume
| FinancialHealthMessage (fcf dte : pyfloat)
| BlockBuyHold
| EarningsAlertMessage (days : Z)
| ReduceExposure
(* technical_analysis.py, generate_signal *)
| DailyCrashBlock (pcp penalty : pyfloat)
| DailyCrashWarning (pcp : pyfloat)
| DteCriticalBlock (dte ratio : pyfloat)
| DteExtremeRiskWarning (ratio : pyfloat)
| DteHighWarning (ratio : pyfloat)
| DteLegacyBlock (dte : pyfloat)
| DteLegacyWarning (dte : pyfloat)
| DtePercentBlock (dte : pyfloat)
| DtePercentWarning (dte : pyfloat)
| MassiveDropOverride (drop : pyfloat)
| SellTriggerOverride
| FinancialHealthOverride
| EarningsOverride
| RRBelowOneBlock (rr : pyfloat)
| UnfavourableSetup
| RRForcedNeutral
| VolumeCriticalBlock (vr : pyfloat)
| NoVolumeConfirmation
| VolumeForcedNeutral
| RangingMarketWarning
| TrendBullishReason
| TrendBearishReason
| RsiOversoldReason
| RsiOverboughtWarning
| StochExtremeWarning (k : pyfloat)
| StochOversoldReason
| MacdBullishReason
| VixWarning
| PriceAtResistance (r : pyfloat)
| PriceAtSupport (s : pyfloat).

(* ===================================================================== *)
(** * pandas Series *)
(* ===================================================================== *)

Module Pandas.

Definition Series := list pyfloat.

(** [s.iloc[-1]] and [s.iloc[-2]]: out of range raises. *)
Definition iloc_last (s : Series) : result pyfloat :=
  match rev s with
  | x :: _ => Ok x
  | [] => Raise IndexError
  end.

Definition iloc_last2 (s : Series) : result pyfloat :=
  match rev s with
  | _ :: x :: _ => Ok x
  | _ => Raise IndexError
  end.

(** [s.shift()]: the previous value, [NaN] at the first index. *)
Definition shift (s : Series) : Series :=
  match s with
  | [] => []
  | _ => NaN :: removelast s
  end.

(** Element-wise operations on Series of the same index. *)
Fixpoint zip_with (f : pyfloat -> pyfloat -> pyfloat) (a b : Series) : Series :=
  match a, b with
  | x :: a', y :: b' => f x y :: zip_with f a' b'
  | _, _ => []
  end.

(** [s.diff()]. *)
Definition diff (s : Series) : Series := zip_with fsub s (shift s).

(** The values of a rolling window, when it is complete and free of
    [NaN]; the rolling operations of pandas turn the infinities into
    [NaN] before anything else. *)
Fixpoint finite_values (l : list pyfloat) : option (list Q) :=
  match l with
  | [] => Some []
  | Fin q :: r =>
      match finite_values r with
      | Some qs => Some (q :: qs)
      | None => None
      end
  | _ :: _ => None
  end.

Definition window (w : nat) (s : Series) (i : nat) : option (list Q) :=
  if (w <=? i + 1)%nat
  then finite_values (firstn w (skipn (i + 1 - w) s))
  else None.

(** [s.rolling(window=w).agg()]: [NaN] until the window is complete
    ([min_periods] defaults to the window) and wherever it holds a
    missing value. *)
Definition rolling (w : nat) (agg : list Q -> Q) (s : Series) : Series :=
  map (fun i => match window w s i with
                | Some qs => Fin (Qred (agg qs))
                | None => NaN
                end)
      (seq 0 (List.length s)).

Definition Qsum (l : list Q) : Q := fold_right Qplus 0 l.
Definition Qmean (l : list Q) : Q := Qsum l / inject_Z (Z.of_nat (List.length l)).
Definition Qmin2 (a b : Q) : Q := if Qleb a b then a else b.
Definition Qmax2 (a b : Q) : Q := if Qleb a b then b else a.
Definition Qminimum (l : list Q) : Q :=
  match l with
  | [] => 0
  | x :: r => fold_left Qmin2 r x
  end.
Definition Qmaximum (l : list Q) : Q :=
  match l with
  | [] => 0
  | x :: r => fold_left Qmax2 r x
  end.

Definition rolling_mean (w : nat) : Series -> Series := rolling w Qmean.
Definition rolling_min (w : nat) : Series -> Series := rolling w Qminimum.
Definition rolling_max (w : nat) : Series -> Series := rolling w Qmaximum.

(** [s.where(cond, 0)] with the condition computed from the value. *)
Definition where_else0 (cond : pyfloat -> bool) (s : Series) : Series :=
  map (fun x => if cond x then x else FZ 0) s.

End Pandas.
Export Pandas.

(* ===================================================================== *)
(** * Bars *)
(* ===================================================================== *)

(** One row of the OHLCV frame (the date column carries no arithmetic and
    is left out). *)
Record Bar : Type := mkBar {
  bar_open : pyfloat;
  bar_high : pyfloat;
  bar_low : pyfloat;
  bar_close : pyfloat;
  bar_volume : pyfloat
}.

Definition DataFrame := list Bar.
Definition col (f : Bar -> pyfloat) (df : DataFrame) : Series := map f df.

(* ===================================================================== *)
(** * price_validator.py *)
(* ===================================================================== *)

Module PriceValidator.

Definition default_min_price : pyfloat := FQ 1 100.

(** [validate_price(price, min_price=0.01)]. *)
Definition validate_price (price : pyval) (min_price : pyfloat) : result pyfloat :=
  if pd_isna price || is_none price then Ok min_price
  else x <- py_float price ;; Ok (py_max min_price x).

(** [validate_stop_loss(stop_loss, current_price, atr)]. *)
Definition validate_stop_loss (stop_loss current_price atr : pyfloat) : result pyfloat :=
  stop_loss <- validate_price (PyFloat stop_loss) default_min_price ;;
  let stop_loss :=
    if (stop_loss >=? current_price * FQ 99 100)%F
    then (current_price - atr * FQ 3 2)%F
    else stop_loss in
  validate_price (PyFloat stop_loss) default_min_price.

(** [validate_take_profit(take_profit, current_price, atr)]. *)
Definition validate_take_profit (take_profit current_price atr : pyfloat) : result pyfloat :=
  take_profit <- validate_price (PyFloat take_profit) default_min_price ;;
  Ok (if (take_profit <=? current_price * FQ 102 100)%F
      then (current_price + atr * FZ 2)%F
      else take_profit).

Record MassiveDrop : Type := mkMassiveDrop {
  drop_detected : bool;
  drop_percent : pyfloat;
  previous_close : pyfloat;
  current_close : pyfloat;
  volume_spike : bool;
  md_volume_ratio : pyfloat;
  md_warning : Note;
  md_action : Note
}.

(** [detect_massive_drop(df, threshold=8.0)].  The frame columns hold
    numpy floats: the divisions do not raise. *)
Definition detect_massive_drop (df : DataFrame) (threshold : pyfloat)
  : result (option MassiveDrop) :=
  if (List.length df <? 2)%nat then Ok None else
  last_close <- iloc_last2 (col bar_close df) ;;
  current_close <- iloc_last (col bar_close df) ;;
  let drop_percent := (np_div (current_close - last_close) last_close * FZ 100)%F in
  if (drop_percent <? fneg threshold)%F then
    volume_ratio <-
      (if (20 <=? List.length df)%nat then
         v <- iloc_last (col bar_volume df) ;;
         m <- iloc_last (rolling_mean 20 (col bar_volume df)) ;;
         Ok (np_div v m)
       else Ok (FZ 1)) ;;
    Ok (Some {| drop_detected := true;
                drop_percent := round2 drop_percent;
                previous_close := round2 last_close;
                current_close := round2 current_close;
                volume_spike := (volume_ratio >? FQ 3 2)%F;
                md_volume_ratio := round2 volume_ratio;
                md_warning := MassiveDropWarning (fabs drop_percent);
                md_action := WaitForStabilization |})
  else Ok None.

Record RRDisplay : Type := mkRRDisplay {
  rr_ratio : pyfloat;
  actual_rr : pyfloat;
  capped : bool;
  rr_message : option Note;
  rr_warning : option Note
}.

(** [cap_risk_reward_ratio(rr_ratio, max_rr=10.0)]. *)
Definition cap_risk_reward_ratio (rr max_rr : pyfloat) : RRDisplay :=
  if (rr >? max_rr)%F then
    {| rr_ratio := max_rr;
       actual_rr := round2 rr;
       capped := true;
       rr_message := Some (RRUnrealistic rr max_rr);
       rr_warning := Some TakeProfitTooAggressive |}
  else
    {| rr_ratio := round2 rr;
       actual_rr := round2 rr;
       capped := false;
       rr_message := None;
       rr_warning := None |}.

(** The gap reversal. *)

Inductive GapNote : Type :=
| GapReversalMessage (abs_gap recovery : pyfloat)
    (* 'Gap Reversal Detectat: Gap ..% recuperat ..% pe volum mare' *)
| GapReversalAction.
    (* 'Acesta este un setup favorabil de tip "Falling Knife" recuperat. ...' *)

Inductive GapSignal : Type := POTENTIAL_REVERSAL.

Record GapReversal : Type := mkGapReversal {
  gap_reversal_detected : bool;
  gap_percent : pyfloat;
  recovery_percent : pyfloat;
  gr_volume_ratio : pyfloat;
  gr_signal : GapSignal;
  gr_message : GapNote;
  gr_action : GapNote
}.

(** [detect_gap_reversal(df)]: a gap down of more than 3% at the open,
    more than half of the fall to the low recovered at the close, on a
    volume above 1.2 times the 20-bar mean. *)
Definition detect_gap_reversal (df : DataFrame) : result (option GapReversal) :=
  if (List.length df <? 2)%nat then Ok None else
  prev_close <- iloc_last2 (col bar_close df) ;;
  current_open <- iloc_last (col bar_open df) ;;
  current_close <- iloc_last (col bar_close df) ;;
  current_high <- iloc_last (col bar_high df) ;;
  current_low <- iloc_last (col bar_low df) ;;
  let gap_percent := (np_div (current_open - prev_close) prev_close * FZ 100)%F in
  if (gap_percent <? FZ (-3))%F then
    let red_candle_size := fabs (prev_close - current_low) in
    let recovery_size := (current_close - current_low)%F in
    let recovery_percent :=
      if (red_candle_size >? FZ 0)%F
      then (np_div recovery_size red_candle_size * FZ 100)%F
      else FZ 0 in
    volume_ratio <-
      (if (20 <=? List.length df)%nat then
         v <- iloc_last (col bar_volume df) ;;
         m <- iloc_last (rolling_mean 20 (col bar_volume df)) ;;
         Ok (np_div v m)
       else Ok (FZ 1)) ;;
    if (recovery_percent >? FZ 50)%F && (volume_ratio >? FQ 12 10)%F then
      Ok (Some {| gap_reversal_detected := true;
                  gap_percent := round2 gap_percent;
                  recovery_percent := round2 recovery_percent;
                  gr_volume_ratio := round2 volume_ratio;
                  gr_signal := POTENTIAL_REVERSAL;
                  gr_message := GapReversalMessage (fabs gap_percent) recovery_percent;
                  gr_action := GapReversalAction |})
    else Ok None
  else Ok None.

End PriceValidator.

(* ===================================================================== *)
(** * The indicator snapshot *)
(* ===================================================================== *)

Inductive Zone : Type := Overbought | Oversold | NeutralZone.
Inductive Regime : Type := TRENDING | RANGING | NEUTRAL_REGIME.
Inductive Trend : Type := BULLISH | BEARISH.
Inductive Cross : Type := BullishCross | BearishCross.

(** The entries of the [indicators] dict that the risk calculator and the
    signal cascade read, and those the range properties are about. *)
Record Indicators : Type := mkIndicators {
  price_current : pyfloat;
  rsi_value : pyfloat;
  rsi_signal : Zone;
  stoch_rsi_k : pyfloat;
  stoch_rsi_d : pyfloat;
  stoch_rsi_signal : Zone;
  adx_value : pyfloat;
  adx_regime : Regime;
  atr_value : pyfloat;
  atr_percent : pyfloat;
  macd_cross : Cross;
  volume_ratio : pyfloat;
  pivots_support : pyfloat;
  pivots_resistance : pyfloat;
  donchian_upper : pyfloat;
  donchian_lower : pyfloat;
  trend_direction : Trend
}.

(* ===================================================================== *)
(** * risk_calculator.py *)
(* ===================================================================== *)

Module RiskCalculator.
Import PriceValidator.

Inductive RiskAssessment : Type :=
| RiskLow            (* 'SCAZUT - Setup favorabil' *)
| RiskModerate       (* 'MODERAT - Acceptabil' *)
| RiskHighRR         (* 'RIDICAT - Raport R/R nefavorabil, recomand WAIT' *)
| RiskHighSL.        (* 'RIDICAT - Stop Loss prea larg' *)

Definition _assess_risk (rr_ratio sl_percent : pyfloat) : RiskAssessment :=
  if (rr_ratio >=? FQ 5 2)%F && (sl_percent <=? FZ 5)%F then RiskLow
  else if (rr_ratio >=? FQ 3 2)%F && (sl_percent <=? FZ 7)%F then RiskModerate
  else if (rr_ratio <? FQ 3 2)%F then RiskHighRR
  else RiskHighSL.

Record RiskProfile : Type := mkRiskProfile {
  entry_price : pyfloat;
  stop_loss : pyfloat;
  take_profit : pyfloat;
  stop_loss_percent : pyfloat;
  risk_reward_ratio : pyfloat;
  actual_rr_ratio : pyfloat;
  rr_capped : bool;
  position_size_suggestion : pyfloat;
  trailing_stop : pyfloat;
  rp_atr_value : pyfloat;
  favorable : bool;
  risk_assessment : RiskAssessment;
  rp_support : pyfloat;
  rp_resistance : pyfloat;
  rp_rr_warning : option Note
}.

(** [calculate_risk_reward]: every number read from the snapshot is a
    Python float, so each [/] raises on a zero divisor; the [except]
    clause logs and re-raises. *)
Definition calculate_risk_reward (indicators : Indicators) : result RiskProfile :=
  let current_price := price_current indicators in
  let atr := atr_value indicators in
  let support := pivots_support indicators in
  let resistance := pivots_resistance indicators in
  let sl_atr_based := (current_price - atr * FQ 3 2)%F in
  let sl_support_based := (support - atr * FQ 1 2)%F in
  let stop_loss := py_max sl_atr_based sl_support_based in
  stop_loss <- validate_stop_loss stop_loss current_price atr ;;
  q <- py_div (current_price - stop_loss)%F current_price ;;
  let sl_percent := (q * FZ 100)%F in
  let '(stop_loss, sl_percent) :=
    if (sl_percent >? FZ 10)%F
    then ((current_price * FQ 9 10)%F, FZ 10)
    else (stop_loss, sl_percent) in
  let take_profit :=
    if (current_price >=? resistance * FQ 98 100)%F
    then (current_price + atr * FZ 3)%F
    else (resistance - resistance * FQ 2 1000)%F in
  take_profit <- validate_take_profit take_profit current_price atr ;;
  let risk := (current_price - stop_loss)%F in
  let reward := (take_profit - current_price)%F in
  let risk := if (risk <=? FZ 0)%F then (atr * FQ 3 2)%F else risk in
  rr_ratio <- (if (risk >? FZ 0)%F then py_div reward risk else Ok (FZ 0)) ;;
  let rr_display_data := cap_risk_reward_ratio rr_ratio (FZ 10) in
  let account_risk_percent := FZ 1 in
  q <- py_div account_risk_percent sl_percent ;;
  let position_size_percent := (q * FZ 100)%F in
  trailing_stop <-
    validate_price (PyFloat (current_price - atr * FZ 2)%F) default_min_price ;;
  Ok {| entry_price := round2 current_price;
        stop_loss := round2 stop_loss;
        take_profit := round2 take_profit;
        stop_loss_percent := round2 sl_percent;
        risk_reward_ratio := PriceValidator.rr_ratio rr_display_data;
        actual_rr_ratio := actual_rr rr_display_data;
        rr_capped := capped rr_display_data;
        position_size_suggestion := round2 (py_min position_size_percent (FZ 100));
        trailing_stop := round2 trailing_stop;
        rp_atr_value := round2 atr;
        favorable := (rr_ratio >=? FQ 3 2)%F;
        risk_assessment := _assess_risk rr_ratio sl_percent;
        rp_support := round2 support;
        rp_resistance := round2 resistance;
        rp_rr_warning := if capped rr_display_data
                         then rr_warning rr_display_data else None |}.

(** Position sizing. *)

Record PositionSizing : Type := mkPositionSizing {
  shares : Z;
  total_cost : pyfloat;
  risk_amount : pyfloat
}.

(** [calculate_position_sizing(account_size, risk_percent=1.0)]: the
    stop distance is read back from the (rounded) Risk Profile. *)
Definition calculate_position_sizing (indicators : Indicators)
    (account_size risk_percent : pyfloat) : result PositionSizing :=
  let current_price := price_current indicators in
  rp <- calculate_risk_reward indicators ;;
  let sl_percent := stop_loss_percent rp in
  q <- py_div risk_percent (FZ 100) ;;
  let risk_amount := (account_size * q)%F in
  q <- py_div sl_percent (FZ 100) ;;
  shares <- py_div risk_amount (current_price * q)%F ;;
  n <- py_int shares ;;
  Ok {| shares := n;
        total_cost := round2 (shares * current_price)%F;
        risk_amount := round2 risk_amount |}.

End RiskCalculator.

(* ===================================================================== *)
(** * technical_analysis.py: the indicator calculator *)
(* ===================================================================== *)

Module Indicator.
Import PriceValidator.

Definition smap (f : pyfloat -> pyfloat) (s : Series) : Series := map f s.

(** [s.ewm(span=period, adjust=False).mean()] on a series without missing
    values: seeded with the first value, smoothing factor 2/(period+1). *)
Fixpoint ewm_from (alpha : Q) (prev : pyfloat) (s : Series) : Series :=
  match s with
  | [] => []
  | x :: r =>
      let y := (Fin (Qred (1 - alpha)) * prev + Fin (Qred alpha) * x)%F in
      y :: ewm_from alpha y r
  end.

Definition ewm_mean (span : positive) (s : Series) : Series :=
  match s with
  | [] => []
  | x :: r => x :: ewm_from (2 # (span + 1)) x r
  end.

Definition calculate_ema (df : DataFrame) (period : positive) : Series :=
  ewm_mean period (col bar_close df).

(** [calculate_rsi(period=14)]. *)
Definition calculate_rsi (df : DataFrame) (period : nat) : Series :=
  let delta := diff (col bar_close df) in
  let gain := rolling_mean period (where_else0 (fun d => (d >? FZ 0)%F) delta) in
  let loss := rolling_mean period
                (smap fneg (where_else0 (fun d => (d <? FZ 0)%F) delta)) in
  let rs := zip_with np_div gain loss in
  smap (fun rs => (FZ 100 - np_div (FZ 100) (FZ 1 + rs))%F) rs.

Record StochRSI : Type := mkStochRSI {
  stoch_k : Series;
  stoch_d : Series;
  stoch_rsi : Series
}.

(** [calculate_stoch_rsi(period=14, smooth_k=3, smooth_d=3)]. *)
Definition calculate_stoch_rsi (df : DataFrame) (period smooth_k smooth_d : nat)
  : StochRSI :=
  let rsi := calculate_rsi df period in
  let lo := rolling_min period rsi in
  let hi := rolling_max period rsi in
  let stoch :=
    smap (fun x => (x * FZ 100)%F)
         (zip_with np_div (zip_with fsub rsi lo) (zip_with fsub hi lo)) in
  let k := rolling_mean smooth_k stoch in
  let d := rolling_mean smooth_d k in
  {| stoch_k := k; stoch_d := d; stoch_rsi := stoch |}.

(** The row maximum of [pd.concat([...], axis=1).max(axis=1)]: missing
    values are skipped. *)
Definition nanmax (x y : pyfloat) : pyfloat :=
  match x, y with
  | NaN, _ => y
  | _, NaN => x
  | _, _ => if (y >? x)%F then y else x
  end.

Definition nanmin (x y : pyfloat) : pyfloat :=
  match x, y with
  | NaN, _ => y
  | _, NaN => x
  | _, _ => if (y <? x)%F then y else x
  end.

Definition true_range (df : DataFrame) : Series :=
  let high := col bar_high df in
  let low := col bar_low df in
  let prev_close := shift (col bar_close df) in
  let tr1 := zip_with fsub high low in
  let tr2 := smap fabs (zip_with fsub high prev_close) in
  let tr3 := smap fabs (zip_with fsub low prev_close) in
  zip_with nanmax (zip_with nanmax tr1 tr2) tr3.

(** [calculate_atr(period=14)]. *)
Definition calculate_atr (df : DataFrame) (period : nat) : Series :=
  rolling_mean period (true_range df).

Record ADX : Type := mkADX {
  adx : Series;
  pos_di : Series;
  neg_di : Series
}.

(** [a.where((a > b) & (a > 0), 0)]. *)
Definition directional (a b : Series) : Series :=
  zip_with (fun x y => if (x >? y)%F && (x >? FZ 0)%F then x else FZ 0) a b.

(** [calculate_adx(period=14)]. *)
Definition calculate_adx (df : DataFrame) (period : nat) : ADX :=
  let high := col bar_high df in
  let low := col bar_low df in
  let atr := rolling_mean period (true_range df) in
  let up_move := zip_with fsub high (shift high) in
  let down_move := zip_with fsub (shift low) low in
  let pos_dm := directional up_move down_move in
  let neg_dm := directional down_move up_move in
  let di dm := smap (fun x => (FZ 100 * x)%F)
                    (zip_with np_div (rolling_mean period dm) atr) in
  let pos_di := di pos_dm in
  let neg_di := di neg_dm in
  let dx := zip_with np_div
              (smap (fun x => (FZ 100 * fabs x)%F) (zip_with fsub pos_di neg_di))
              (zip_with fadd pos_di neg_di) in
  {| adx := rolling_mean period dx; pos_di := pos_di; neg_di := neg_di |}.

Record MACD : Type := mkMACD {
  macd_line : Series;
  signal_line : Series;
  histogram : Series
}.

(** [calculate_macd(fast=12, slow=26, signal=9)]. *)
Definition calculate_macd (df : DataFrame) (fast slow signal : positive) : MACD :=
  let line := zip_with fsub (calculate_ema df fast) (calculate_ema df slow) in
  let sig := ewm_mean signal line in
  {| macd_line := line; signal_line := sig; histogram := zip_with fsub line sig |}.

(** [Series.max()] and [Series.min()]: missing values are skipped. *)
Definition series_max (s : Series) : pyfloat := fold_left nanmax s NaN.
Definition series_min (s : Series) : pyfloat := fold_left nanmin s NaN.

(** [df.tail(n)]. *)
Definition tail {A : Type} (n : nat) (l : list A) : list A :=
  skipn (List.length l - n) l.

Record Pivots : Type := mkPivots {
  pv_support : pyfloat;
  pv_support2 : pyfloat;
  pv_resistance : pyfloat;
  pv_resistance2 : pyfloat;
  pv_pivot : pyfloat
}.

(** [calculate_pivot_points(lookback=20)]. *)
Definition calculate_pivot_points (df : DataFrame) (lookback : nat) : result Pivots :=
  let recent_data := tail lookback df in
  let high := series_max (col bar_high recent_data) in
  let low := series_min (col bar_low recent_data) in
  close <- iloc_last (col bar_close recent_data) ;;
  let pivot := np_div (high + low + close)%F (FZ 3) in
  let s1 := (FZ 2 * pivot - high)%F in
  let s2 := (pivot - (high - low))%F in
  let r1 := (FZ 2 * pivot - low)%F in
  let r2 := (pivot + (high - low))%F in
  Ok {| pv_support := round2 s1;
        pv_support2 := round2 s2;
        pv_resistance := round2 r1;
        pv_resistance2 := round2 r2;
        pv_pivot := round2 pivot |}.

Fixpoint map_result {A B : Type} (f : A -> result B) (l : list A) : result (list B) :=
  match l with
  | [] => Ok []
  | x :: r => y <- f x ;; ys <- map_result f r ;; Ok (y :: ys)
  end.

Record Donchian : Type := mkDonchian {
  dc_upper : pyfloat;
  dc_lower : pyfloat;
  dc_middle : pyfloat
}.

(** [calculate_donchian_channel(period=20)] (the chart overlay
    [channel_data] is left out). *)
Definition calculate_donchian_channel (df : DataFrame) (period : nat) : result Donchian :=
  let high_channel := rolling_max period (col bar_high df) in
  let low_channel := rolling_min period (col bar_low df) in
  low_channel <-
    map_result (fun x => validate_price (PyFloat x) default_min_price) low_channel ;;
  high_channel <-
    map_result (fun x => validate_price (PyFloat x) default_min_price) high_channel ;;
  let middle_channel :=
    smap (fun x => np_div x (FZ 2)) (zip_with fadd high_channel low_channel) in
  u <- iloc_last high_channel ;;
  l <- iloc_last low_channel ;;
  m <- iloc_last middle_channel ;;
  Ok {| dc_upper := round2 u; dc_lower := round2 l; dc_middle := round2 m |}.

(** [analyze_volume]: the ratio entry. *)
Definition analyze_volume_ratio (df : DataFrame) : result pyfloat :=
  let volume_ma20 := rolling_mean 20 (col bar_volume df) in
  current_volume <- iloc_last (col bar_volume df) ;;
  avg_volume <- iloc_last volume_ma20 ;;
  let volume_ratio :=
    if (avg_volume >? FZ 0)%F then np_div current_volume avg_volume else FZ 1 in
  Ok (round2 volume_ratio).

(** [calculate_all_indicators], for the entries of [Indicators].  The
    Heikin-Ashi candles, the gaps, the fractals and the trend alignment
    are computed by the source in between and are not read by the risk
    calculator or by the signal cascade. *)
Definition calculate_all_indicators (df : DataFrame) : result Indicators :=
  let ema_50 := calculate_ema df 50 in
  let rsi := calculate_rsi df 14 in
  let stoch := calculate_stoch_rsi df 14 3 3 in
  let adx_data := calculate_adx df 14 in
  let atr := calculate_atr df 14 in
  let macd_data := calculate_macd df 12 26 9 in
  volume_ratio <- analyze_volume_ratio df ;;
  pivots <- calculate_pivot_points df 20 ;;
  donchian <- calculate_donchian_channel df 20 ;;
  current_price <- iloc_last (col bar_close df) ;;
  ema_50_last <- iloc_last ema_50 ;;
  let trend := if (current_price >? ema_50_last)%F then BULLISH else BEARISH in
  rsi_last <- iloc_last rsi ;;
  k_last <- iloc_last (stoch_k stoch) ;;
  d_last <- iloc_last (stoch_d stoch) ;;
  adx_last <- iloc_last (adx adx_data) ;;
  atr_last <- iloc_last atr ;;
  atr_ratio <- py_div atr_last current_price ;;
  hist_last <- iloc_last (histogram macd_data) ;;
  Ok {| price_current := round2 current_price;
        rsi_value := round2 rsi_last;
        rsi_signal := if (rsi_last >? FZ 70)%F then Overbought
                      else if (rsi_last <? FZ 30)%F then Oversold
                      else NeutralZone;
        stoch_rsi_k := round2 k_last;
        stoch_rsi_d := round2 d_last;
        stoch_rsi_signal := if (k_last >? FZ 80)%F then Overbought
                            else if (k_last <? FZ 20)%F then Oversold
                            else NeutralZone;
        adx_value := round2 adx_last;
        adx_regime := if (adx_last >? FZ 25)%F then TRENDING
                      else if (adx_last <? FZ 20)%F then RANGING
                      else NEUTRAL_REGIME;
        atr_value := round2 atr_last;
        atr_percent := round2 (atr_ratio * FZ 100)%F;
        macd_cross := if (hist_last >? FZ 0)%F then BullishCross else BearishCross;
        volume_ratio := volume_ratio;
        pivots_support := pv_support pivots;
        pivots_resistance := pv_resistance pivots;
        donchian_upper := dc_upper donchian;
        donchian_lower := dc_lower donchian;
        trend_direction := trend |}.

(** The entries of the snapshot that neither the risk calculator nor the
    signal cascade reads: candles, gaps, fractals, trend alignment and
    the volume entry in full. *)

(** The Heikin-Ashi frame, by columns. *)
Record HeikinAshi : Type := mkHeikinAshi {
  ha_open : Series;
  ha_high : Series;
  ha_low : Series;
  ha_close : Series
}.

(** The loop over the rows after the first: each open is the mean of the
    previous Heikin-Ashi open and close. *)
Fixpoint ha_open_from (prev_open prev_close : pyfloat) (ha_closes : Series)
  : Series :=
  match ha_closes with
  | [] => []
  | c :: r =>
      let o := np_div (prev_open + prev_close)%F (FZ 2) in
      o :: ha_open_from o c r
  end.

(** [calculate_heikin_ashi()]; the frame carries the default index
    0, 1, ..., which [df.loc[i, ...]] addresses.  High and low are taken
    over the columns of the source frame. *)
Definition calculate_heikin_ashi (df : DataFrame) : HeikinAshi :=
  let close :=
    map (fun b => np_div (bar_open b + bar_high b + bar_low b + bar_close b)%F
                         (FZ 4)) df in
  let open :=
    match df, close with
    | b :: _, c0 :: r =>
        let o0 := np_div (bar_open b + bar_close b)%F (FZ 2) in
        o0 :: ha_open_from o0 c0 r
    | _, _ => []
    end in
  {| ha_open := open;
     ha_high := map (fun b => nanmax (nanmax (bar_high b) (bar_open b)) (bar_close b)) df;
     ha_low := map (fun b => nanmin (nanmin (bar_low b) (bar_open b)) (bar_close b)) df;
     ha_close := close |}.

Inductive GapType : Type := GapUp | GapDown.

(** One entry of the gap list; [gap_index] is the row, whose date the
    entry carries as well. *)
Record Gap : Type := mkGap {
  gap_index : nat;
  gap_size : pyfloat;
  gap_price : pyfloat;
  gap_type : GapType
}.

(** The loop of [detect_gaps] from row [i] on, [prev] being row [i-1]. *)
Fixpoint gaps_from (i : nat) (prev : Bar) (rows : DataFrame) : list Gap :=
  match rows with
  | [] => []
  | b :: r =>
      let prev_close := bar_close prev in
      let curr_open := bar_open b in
      let gap_size := (np_div (curr_open - prev_close) prev_close * FZ 100)%F in
      (if (fabs gap_size >? FZ 2)%F
       then [ {| gap_index := i;
                 gap_size := round2 gap_size;
                 gap_price := round2 prev_close;
                 gap_type := if (gap_size >? FZ 0)%F then GapUp else GapDown |} ]
       else [])
      ++ gaps_from (S i) b r
  end.

(** [detect_gaps()]: the last five gaps of more than 2%. *)
Definition detect_gaps (df : DataFrame) : list Gap :=
  let gaps := match df with
              | [] => []
              | b :: r => gaps_from 1 b r
              end in
  if (5 <? List.length gaps)%nat then tail 5 gaps else gaps.

Inductive FractalType : Type := BullishFractal | BearishFractal.

(** One entry of the fractal list; [fractal_index] is the row whose date
    the entry carries as ['time']. *)
Record Fractal : Type := mkFractal {
  fractal_index : nat;
  fractal_type : FractalType;
  fractal_price : pyfloat
}.

(** [df.iloc[j][column]] for a row in range. *)
Definition at_row (s : Series) (j : nat) : pyfloat := nth j s NaN.

(** The inner loops: no other row of the window has a low at or below
    (a high at or above) the one of row [i]. *)
Definition lowest_in_window (low : Series) (half i : nat) : bool :=
  forallb (fun j => (j =? i)%nat || negb (at_row low j <=? at_row low i)%F)
          (seq (i - half) (half + half + 1)).

Definition highest_in_window (high : Series) (half i : nat) : bool :=
  forallb (fun j => (j =? i)%nat || negb (at_row high j >=? at_row high i)%F)
          (seq (i - half) (half + half + 1)).

Definition fractal_at (df : DataFrame) (half i : nat) : list Fractal :=
  let is_bullish := lowest_in_window (col bar_low df) half i in
  let is_bearish := highest_in_window (col bar_high df) half i in
  if is_bullish || is_bearish then
    [ {| fractal_index := i;
         fractal_type := if is_bullish then BullishFractal else BearishFractal;
         fractal_price := round2 (if is_bullish then at_row (col bar_low df) i
                                  else at_row (col bar_high df) i) |} ]
  else [].

(** [calculate_williams_fractals(period=5)]: the last twenty. *)
Definition calculate_williams_fractals (df : DataFrame) (period : nat)
  : list Fractal :=
  let half_period := (period / 2)%nat in
  let fractals :=
    flat_map (fractal_at df half_period)
             (seq half_period (List.length df - half_period - half_period)) in
  if (20 <? List.length fractals)%nat then tail 20 fractals else fractals.

Inductive Strength : Type := strong_buy | strong_sell | neutral.

Inductive AlignmentNote : Type :=
| TrendsAligned         (* 'Trenduri Aliniate - Semnal Mai Puternic (Confluenta Bullish)' *)
| BearishConfluence     (* 'Confluenta Bearish - Evitati intrarea ...' *)
| TimeframeDivergence.  (* 'Divergenta Timeframe - Asteptati alinierea ...' *)

Record TrendAlignment : Type := mkTrendAlignment {
  daily_trend : Trend;
  daily_ema_value : pyfloat;
  weekly_trend : Trend;
  weekly_ema_value : pyfloat;
  aligned : bool;
  signal_strength : Strength;
  alignment_message : AlignmentNote
}.

Definition trend_eqb (a b : Trend) : bool :=
  match a, b with
  | BULLISH, BULLISH | BEARISH, BEARISH => true
  | _, _ => false
  end.

(** [calculate_trend_alignment()]. *)
Definition calculate_trend_alignment (df : DataFrame) : result TrendAlignment :=
  let ema_20 := calculate_ema df 20 in
  let ema_50 := calculate_ema df 50 in
  current_price <- iloc_last (col bar_close df) ;;
  e20 <- iloc_last ema_20 ;;
  let daily_trend := if (current_price >? e20)%F then BULLISH else BEARISH in
  e50 <- iloc_last ema_50 ;;
  let weekly_trend := if (current_price >? e50)%F then BULLISH else BEARISH in
  let aligned := trend_eqb daily_trend weekly_trend in
  let '(message, signal_strength) :=
    if aligned && trend_eqb daily_trend BULLISH then (TrendsAligned, strong_buy)
    else if aligned && trend_eqb daily_trend BEARISH then (BearishConfluence, strong_sell)
    else (TimeframeDivergence, neutral) in
  Ok {| daily_trend := daily_trend;
        daily_ema_value := round2 e20;
        weekly_trend := weekly_trend;
        weekly_ema_value := round2 e50;
        aligned := aligned;
        signal_strength := signal_strength;
        alignment_message := message |}.

Inductive VolumeTrend : Type := Rising | Falling | Mixed.
  (* 'crescator', 'descrescator', 'mixt' *)

(** [Series.is_monotonic_increasing] and [is_monotonic_decreasing]: not
    strict; false as soon as a value is missing, true on the empty
    series. *)
Fixpoint monotonic_from (le : pyfloat -> pyfloat -> bool) (prev : pyfloat)
    (s : Series) : bool :=
  match s with
  | [] => true
  | cur :: r => le prev cur && monotonic_from le cur r
  end.

Definition is_monotonic (le : pyfloat -> pyfloat -> bool) (s : Series) : bool :=
  match s with
  | [] => true
  | x :: r => negb (is_nan x) && monotonic_from le x r
  end.

Definition is_monotonic_increasing : Series -> bool := is_monotonic fle.
Definition is_monotonic_decreasing : Series -> bool := is_monotonic fge.

Record Volume : Type := mkVolume {
  vol_current : pyfloat;
  vol_average : pyfloat;
  vol_ratio : pyfloat;
  vol_trend : VolumeTrend;
  vol_exhaustion : bool
}.

(** [analyze_volume()]. *)
Definition analyze_volume (df : DataFrame) : result Volume :=
  let volume_ma20 := rolling_mean 20 (col bar_volume df) in
  current_volume <- iloc_last (col bar_volume df) ;;
  avg_volume <- iloc_last volume_ma20 ;;
  let volume_ratio :=
    if (avg_volume >? FZ 0)%F then np_div current_volume avg_volume else FZ 1 in
  let recent_volumes := tail 5 (col bar_volume df) in
  let volume_trend :=
    if is_monotonic_increasing recent_volumes then Rising
    else if is_monotonic_decreasing recent_volumes then Falling
    else Mixed in
  Ok {| vol_current := current_volume;
        vol_average := avg_volume;
        vol_ratio := round2 volume_ratio;
        vol_trend := volume_trend;
        vol_exhaustion := (volume_ratio <? FQ 7 10)%F |}.

End Indicator.

(* ===================================================================== *)
(** * Signals and protection alerts *)
(* ===================================================================== *)

Inductive Signal : Type := BUY | SELL | HOLD | WAIT | NEUTRAL | LIQUIDATE.

(** The alert dicts of the protection modules, one constructor per
    [type] tag, with the values they record; the constant entries are the
    functions below. *)
Inductive Alert : Type :=
| SELL_TRIGGER (rsi stoch_k vol_ratio : pyfloat)
| ENTRY_BLOCK (rr : pyfloat)
| VOLUME_DIVERGENCE (vol_ratio price_change : pyfloat)
| FINANCIAL_HEALTH_BLOCK (fcf dte : pyfloat) (forced : Signal)
| EARNINGS_WARNING (days_until : Z).

Definition alert_message (a : Alert) : Note :=
  match a with
  | SELL_TRIGGER r k v => SellTriggerMessage r k v
  | ENTRY_BLOCK rr => EntryBlockedMessage rr
  | VOLUME_DIVERGENCE v p => VolumeDivergenceMessage v p
  | FINANCIAL_HEALTH_BLOCK f d _ => FinancialHealthMessage f d
  | EARNINGS_WARNING d => EarningsAlertMessage d
  end.

Definition alert_action (a : Alert) : Note :=
  match a with
  | SELL_TRIGGER _ _ _ => SellTakeProfitNow
  | ENTRY_BLOCK _ => DoNotBuyWaitSetup
  | VOLUME_DIVERGENCE _ _ => DoNotBuyWaitVolume
  | FINANCIAL_HEALTH_BLOCK _ _ _ => BlockBuyHold
  | EARNINGS_WARNING _ => ReduceExposure
  end.

(** The ['forced_signal'] entry of the alerts that carry one. *)
Definition forced_signal (a : Alert) : Signal :=
  match a with
  | SELL_TRIGGER _ _ _ => SELL
  | FINANCIAL_HEALTH_BLOCK _ _ s => s
  | _ => WAIT
  end.

(** The ['forced_confidence'] entry (sell trigger 85, earnings 20). *)
Definition forced_confidence (a : Alert) : Z :=
  match a with
  | SELL_TRIGGER _ _ _ => 85
  | _ => 20
  end.

(** The ['confidence_penalty'] entry of the volume divergence. *)
Definition confidence_penalty (a : Alert) : pyfloat := FZ 30.

Definition is_volume_divergence (a : Alert) : bool :=
  match a with VOLUME_DIVERGENCE _ _ => true | _ => false end.

Record Fundamentals : Type := mkFundamentals {
  debt_to_equity : option pyfloat;
  free_cash_flow : option pyfloat
}.

(** Truth value of [d.get(key)]: a missing key, [None] and zero are false
    ([NaN] is true). *)
Definition truthy (v : option pyfloat) : bool :=
  match v with
  | Some (Fin q) => negb (Qeqb q 0)
  | Some _ => true
  | None => false
  end.

(** [float(v) if v else 0]. *)
Definition float_or_zero (v : option pyfloat) : pyfloat :=
  match v with
  | Some x => if truthy v then x else FZ 0
  | None => FZ 0
  end.

(* ===================================================================== *)
(** * overbought_protector.py *)
(* ===================================================================== *)

Module OverboughtProtector.

Definition rsi_threshold : pyfloat := FZ 70.
Definition stoch_rsi_threshold : pyfloat := FZ 90.
Definition volume_ratio_min : pyfloat := FQ 1 2.
Definition min_rr_ratio : pyfloat := FZ 1.

Definition check_sell_trigger (rsi stoch_rsi_k volume_ratio : pyfloat) : option Alert :=
  let trigger_active :=
    (rsi >? rsi_threshold)%F
    && (stoch_rsi_k >? stoch_rsi_threshold)%F
    && (volume_ratio <? volume_ratio_min)%F in
  if trigger_active then Some (SELL_TRIGGER rsi stoch_rsi_k volume_ratio) else None.

Definition check_entry_block (risk_reward_ratio : pyfloat) : option Alert :=
  if (risk_reward_ratio <? min_rr_ratio)%F
  then Some (ENTRY_BLOCK risk_reward_ratio) else None.

(** Earnings protection and the final risk level. *)

Definition earnings_protect_days : Z := 5.

Inductive ProtectNote : Type :=
| EarningsProtectMessage (days : Z) (profit entry : pyfloat)
| StopMovedToBreakeven (entry : pyfloat)   (* 'SL mutat automat la $.. (breakeven)' *)
| TakeHalfOff.                             (* 'Scoateti 50% din pozitie pentru siguranta' *)

Record EarningsProtect : Type := mkEarningsProtect {
  ep_days_until : Z;
  ep_breakeven_sl : pyfloat;
  ep_current_profit_percent : pyfloat;
  ep_message : ProtectNote;
  ep_action_auto : ProtectNote;
  ep_action_manual : ProtectNote;
  ep_new_stop_loss : pyfloat;
  ep_auto_adjusted : bool
}.

(** [earnings_auto_protect(days_until_earnings, entry_price, current_price)]. *)
Definition earnings_auto_protect (days_until_earnings : option Z)
    (entry_price current_price : pyfloat) : result (option EarningsProtect) :=
  match days_until_earnings with
  | None => Ok None
  | Some days =>
      if (days >? earnings_protect_days)%Z then Ok None else
      let is_profitable := (current_price >? entry_price)%F in
      if negb is_profitable then Ok None else
      q <- py_div (current_price - entry_price)%F entry_price ;;
      let profit := (q * FZ 100)%F in
      Ok (Some {| ep_days_until := days;
                  ep_breakeven_sl := entry_price;
                  ep_current_profit_percent := profit;
                  ep_message := EarningsProtectMessage days profit entry_price;
                  ep_action_auto := StopMovedToBreakeven entry_price;
                  ep_action_manual := TakeHalfOff;
                  ep_new_stop_loss := entry_price;
                  ep_auto_adjusted := true |})
  end.

Inductive RiskLevel : Type := EXTREM_DE_RIDICAT | RIDICAT | MODERAT.

Inductive RiskFactor : Type :=
| OverboughtExtrem | EarningsRisk | VolumScazut   (* joined by ', ' *)
| OverboughtSauEarnings | Earnings | Normal.

(** The ['level'] and ['factors'] entries; ['message'], ['color'] and
    ['severity'] are fixed by them. *)
Record FinalRisk : Type := mkFinalRisk {
  fr_level : RiskLevel;
  fr_factors : list RiskFactor
}.

(** [assess_final_risk(rsi, stoch_rsi_k, volume_ratio, days_until_earnings)]. *)
Definition assess_final_risk (rsi stoch_rsi_k volume_ratio : pyfloat)
    (days_until_earnings : option Z) : FinalRisk :=
  let is_overbought :=
    (rsi >? rsi_threshold)%F && (stoch_rsi_k >? stoch_rsi_threshold)%F in
  let earnings_risk :=
    match days_until_earnings with
    | Some d => (d <=? 7)%Z
    | None => false
    end in
  let volume_weak := (volume_ratio <? volume_ratio_min)%F in
  if is_overbought && (earnings_risk || volume_weak) then
    {| fr_level := EXTREM_DE_RIDICAT;
       fr_factors := (if is_overbought then [OverboughtExtrem] else [])
                  ++ (if earnings_risk then [EarningsRisk] else [])
                  ++ (if volume_weak then [VolumScazut] else []) |}
  else if is_overbought || earnings_risk then
    {| fr_level := RIDICAT;
       fr_factors := [if is_overbought then OverboughtSauEarnings else Earnings] |}
  else
    {| fr_level := MODERAT; fr_factors := [Normal] |}.

End OverboughtProtector.

(* ===================================================================== *)
(** * high_risk_optimizer.py *)
(* ===================================================================== *)

Module HighRiskOptimizer.

Definition volume_threshold : pyfloat := FQ 8 10.
Definition debt_to_equity_max : pyfloat := FZ 200.
Definition earnings_warning_days : Z := 7.

Definition check_volume_divergence (volume_ratio price_change_percent : pyfloat)
  : option Alert :=
  if (volume_ratio <? volume_threshold)%F && (price_change_percent >? FZ 0)%F
  then Some (VOLUME_DIVERGENCE volume_ratio price_change_percent) else None.

Definition check_financial_health_block (fundamentals : option Fundamentals)
  : option Alert :=
  match fundamentals with
  | None => None
  | Some f =>
      let fcf := float_or_zero (free_cash_flow f) in
      let dte := float_or_zero (debt_to_equity f) in
      if (fcf <? FZ 0)%F && (dte >? debt_to_equity_max)%F then
        Some (FINANCIAL_HEALTH_BLOCK fcf dte
                (if (fcf <? FZ (-1000000000))%F then LIQUIDATE else NEUTRAL))
      else None
  end.

Definition check_earnings_proximity (days_until_earnings : option Z) : option Alert :=
  match days_until_earnings with
  | Some d => if (d <=? earnings_warning_days)%Z then Some (EARNINGS_WARNING d) else None
  | None => None
  end.

(** The ATR stop and the smart exit. *)

Inductive ExitNote : Type :=
| StopTooTightMessage (sl_atr support recommended : pyfloat)
| AtrStopReason (sl_atr : pyfloat)
| SmartExitMessage (profit : pyfloat) (confidence : Z)
| SellSeventyPercent.     (* 'SELL 70% din pozitie la pret curent' *)

Record StopLossWarning : Type := mkStopLossWarning {
  slw_sl_atr_based : pyfloat;
  slw_support_level : pyfloat;
  slw_message : ExitNote;
  slw_recommended_sl : pyfloat
}.

Record AtrStopLoss : Type := mkAtrStopLoss {
  asl_stop_loss : pyfloat;
  asl_warning : option StopLossWarning;
  asl_adjusted : bool;
  asl_reason : option ExitNote
}.

(** [calculate_atr_based_stop_loss(current_price, atr, support)]. *)
Definition calculate_atr_based_stop_loss (current_price atr support : pyfloat)
  : AtrStopLoss :=
  let sl_atr := (current_price - FQ 3 2 * atr)%F in
  if (sl_atr >? support)%F then
    let recommended := (support * FQ 98 100)%F in
    let warning :=
      {| slw_sl_atr_based := sl_atr;
         slw_support_level := support;
         slw_message := StopTooTightMessage sl_atr support recommended;
         slw_recommended_sl := recommended |} in
    {| asl_stop_loss := slw_recommended_sl warning;
       asl_warning := Some warning;
       asl_adjusted := true;
       asl_reason := None |}
  else
    {| asl_stop_loss := sl_atr;
       asl_warning := None;
       asl_adjusted := false;
       asl_reason := Some (AtrStopReason sl_atr) |}.

Record SmartExit : Type := mkSmartExit {
  se_profit_percent : pyfloat;
  se_confidence_score : Z;
  se_message : ExitNote;
  se_action : ExitNote;
  se_sell_price : pyfloat;
  se_keep_percentage : Z;
  se_recommended_signal : Signal
}.

(** [calculate_smart_exit(entry_price, current_price, confidence_score)]. *)
Definition calculate_smart_exit (entry_price current_price : pyfloat)
    (confidence_score : Z) : result (option SmartExit) :=
  if (entry_price <=? FZ 0)%F then Ok None else
  q <- py_div (current_price - entry_price)%F entry_price ;;
  let profit_percent := (q * FZ 100)%F in
  if (profit_percent >? FZ 80)%F && (confidence_score <? 30)%Z then
    Ok (Some {| se_profit_percent := profit_percent;
                se_confidence_score := confidence_score;
                se_message := SmartExitMessage profit_percent confidence_score;
                se_action := SellSeventyPercent;
                se_sell_price := current_price;
                se_keep_percentage := 30;
                se_recommended_signal := SELL |})
  else Ok None.

End HighRiskOptimizer.

(* ===================================================================== *)
(** * technical_analysis.py: generate_signal *)
(* ===================================================================== *)

Module TechnicalAnalyzer.
Import PriceValidator RiskCalculator OverboughtProtector HighRiskOptimizer.

Record MarketContext : Type := mkMarketContext {
  vix_high_volatility : bool      (* market_context['vix']['high_volatility'] *)
}.

Record Decision : Type := mkDecision {
  signal : Signal;
  confidence : Z;
  reasons : list Note;
  warnings : list Note;
  override_reason : option Note;
  advanced_alerts : list Alert;
  massive_drop : option MassiveDrop
}.

(** The locals the rules accumulate into. *)
Record Acc : Type := mkAcc {
  score : pyfloat;
  acc_reasons : list Note;
  acc_warnings : list Note;
  critical_blocks : list Note;
  acc_alerts : list Alert
}.

Definition acc0 : Acc :=
  {| score := FZ 0; acc_reasons := []; acc_warnings := [];
     critical_blocks := []; acc_alerts := [] |}.

Definition add_score (d : pyfloat) (a : Acc) : Acc :=
  {| score := (score a + d)%F; acc_reasons := acc_reasons a;
     acc_warnings := acc_warnings a; critical_blocks := critical_blocks a;
     acc_alerts := acc_alerts a |}.
Definition sub_score (d : pyfloat) (a : Acc) : Acc :=
  {| score := (score a - d)%F; acc_reasons := acc_reasons a;
     acc_warnings := acc_warnings a; critical_blocks := critical_blocks a;
     acc_alerts := acc_alerts a |}.
Definition add_reason (n : Note) (a : Acc) : Acc :=
  {| score := score a; acc_reasons := acc_reasons a ++ [n];
     acc_warnings := acc_warnings a; critical_blocks := critical_blocks a;
     acc_alerts := acc_alerts a |}.
Definition add_warning (n : Note) (a : Acc) : Acc :=
  {| score := score a; acc_reasons := acc_reasons a;
     acc_warnings := acc_warnings a ++ [n]; critical_blocks := critical_blocks a;
     acc_alerts := acc_alerts a |}.
Definition add_block (n : Note) (a : Acc) : Acc :=
  {| score := score a; acc_reasons := acc_reasons a;
     acc_warnings := acc_warnings a; critical_blocks := critical_blocks a ++ [n];
     acc_alerts := acc_alerts a |}.
Definition add_alert (x : Alert) (a : Acc) : Acc :=
  {| score := score a; acc_reasons := acc_reasons a;
     acc_warnings := acc_warnings a; critical_blocks := critical_blocks a;
     acc_alerts := acc_alerts a ++ [x] |}.

(** The raw debt/equity when [fundamentals and fundamentals.get('debt_to_equity')]
    holds. *)
Definition dte_of (fundamentals : option Fundamentals) : option pyfloat :=
  match fundamentals with
  | Some f => if truthy (debt_to_equity f) then debt_to_equity f else None
  | None => None
  end.

(** CHECK #-1: daily price drop penalty. *)
Definition daily_drop_penalty (price_change_percent : pyfloat) (a : Acc) : Acc :=
  if (price_change_percent <? FZ (-8))%F then
    let drop_penalty := py_min (fabs price_change_percent * FZ 5)%F (FZ 60) in
    add_warning (DailyCrashWarning price_change_percent)
      (add_block (DailyCrashBlock price_change_percent drop_penalty)
         (sub_score drop_penalty a))
  else a.

Definition dte_ratio_of (dte : pyfloat) : pyfloat :=
  if (dte >? FZ 100)%F then np_div dte (FZ 100) else dte.

(** CHECK #-0.5: debt/equity penalty on the normalized ratio. *)
Definition debt_equity_penalty (fundamentals : option Fundamentals) (a : Acc) : Acc :=
  match dte_of fundamentals with
  | Some dte =>
      let dte_ratio := dte_ratio_of dte in
      if (dte_ratio >? FZ 10)%F then
        add_warning (DteExtremeRiskWarning dte_ratio)
          (add_block (DteCriticalBlock dte dte_ratio) (sub_score (FZ 30) a))
      else if (dte_ratio >? FZ 3)%F then
        add_warning (DteHighWarning dte_ratio) (sub_score (FZ 20) a)
      else a
  | None => a
  end.

(** The additional check "kept for backward compatibility". *)
Definition debt_equity_legacy (fundamentals : option Fundamentals) (a : Acc) : Acc :=
  match dte_of fundamentals with
  | Some dte_check =>
      if (dte_check >? FZ 300)%F then
        add_warning (DteLegacyWarning dte_check)
          (sub_score (FZ 30) (add_block (DteLegacyBlock dte_check) a))
      else a
  | None => a
  end.

(** The additional check next to the financial-health block. *)
Definition debt_equity_percent (fundamentals : option Fundamentals) (a : Acc) : Acc :=
  match dte_of fundamentals with
  | Some dte =>
      if (dte >? FZ 300)%F then
        add_warning (DtePercentWarning dte)
          (sub_score (FZ 50) (add_block (DtePercentBlock dte) a))
      else a
  | None => a
  end.

(** The accumulator when the massive-drop check is reached. *)
Definition penalties (fundamentals : option Fundamentals)
    (price_change_percent : pyfloat) : Acc :=
  debt_equity_legacy fundamentals
    (debt_equity_penalty fundamentals
       (daily_drop_penalty price_change_percent acc0)).

Definition override (s : Signal) (c : Z) (r w : list Note) (why : Note)
    (al : list Alert) (md : option MassiveDrop) : Decision :=
  {| signal := s; confidence := c; reasons := r; warnings := w;
     override_reason := Some why; advanced_alerts := al; massive_drop := md |}.

(** The rule cascade up to the scoring pass: either an override is
    returned ([inl]) or the accumulator goes on to the scoring ([inr]). *)
Definition cascade
    (indicators : Indicators) (risk_data : RiskProfile)
    (earnings_days : option Z) (fundamentals : option Fundamentals)
    (massive_drop_detected : option MassiveDrop) (price_change_percent : pyfloat)
  : Decision + Acc :=
  let a := penalties fundamentals price_change_percent in
  match massive_drop_detected with
  | Some md =>
      inl (override WAIT 10 [md_warning md] [md_action md]
             (MassiveDropOverride (drop_percent md)) [] (Some md))
  | None =>
  let rsi_value := rsi_value indicators in
  let stoch_rsi_k := stoch_rsi_k indicators in
  let volume_ratio := volume_ratio indicators in
  match check_sell_trigger rsi_value stoch_rsi_k volume_ratio with
  | Some sell_trigger =>
      inl (override (forced_signal sell_trigger) (forced_confidence sell_trigger)
             [alert_message sell_trigger] [alert_action sell_trigger]
             SellTriggerOverride [sell_trigger] None)
  | None =>
  let rr_ratio := risk_reward_ratio risk_data in
  let entry_block := check_entry_block rr_ratio in
  let a := match entry_block with
           | Some eb => add_alert eb (add_block (alert_message eb) a)
           | None => a
           end in
  (* the parameter is overwritten before the divergence check *)
  let price_change_percent := FZ 0 in
  let volume_divergence := check_volume_divergence volume_ratio price_change_percent in
  let a := match volume_divergence with
           | Some vd => add_alert vd (sub_score (confidence_penalty vd)
                                        (add_warning (alert_message vd) a))
           | None => a
           end in
  let financial_block := check_financial_health_block fundamentals in
  let a := debt_equity_percent fundamentals a in
  match financial_block with
  | Some fb =>
      inl (override (forced_signal fb) 15 [alert_message fb] [alert_action fb]
             FinancialHealthOverride [fb] None)
  | None =>
  match check_earnings_proximity earnings_days with
  | Some ea =>
      inl (override (forced_signal ea) (forced_confidence ea)
             [alert_message ea] [alert_action ea] EarningsOverride [ea] None)
  | None =>
  if (rr_ratio <? FZ 1)%F && (match entry_block with None => true | Some _ => false end) then
    inl (override NEUTRAL 20 [UnfavourableSetup]
           (critical_blocks a ++ [RRBelowOneBlock rr_ratio]) RRForcedNeutral [] None)
  else
  if (volume_ratio <? FQ 1 2)%F
     && (match volume_divergence with None => true | Some _ => false end) then
    inl (override NEUTRAL 20 [NoVolumeConfirmation]
           (critical_blocks a ++ [VolumeCriticalBlock volume_ratio])
           VolumeForcedNeutral [] None)
  else inr a
  end end end end.

(** The scoring pass, rule by rule. *)

(** Market regime: ranging markets lose 15. *)
Definition score_regime (indicators : Indicators) (a : Acc) : Acc :=
  match adx_regime indicators with
  | RANGING => sub_score (FZ 15) (add_warning RangingMarketWarning a)
  | _ => a
  end.

(** Trend on EMA 50: +20 bullish, -20 otherwise. *)
Definition score_trend (indicators : Indicators) (a : Acc) : Acc :=
  match trend_direction indicators with
  | BULLISH => add_reason TrendBullishReason (add_score (FZ 20) a)
  | BEARISH => add_reason TrendBearishReason (sub_score (FZ 20) a)
  end.

(** RSI zone: +15 oversold, -15 overbought. *)
Definition score_rsi (indicators : Indicators) (a : Acc) : Acc :=
  match rsi_signal indicators with
  | Oversold => add_reason RsiOversoldReason (add_score (FZ 15) a)
  | Overbought => add_warning RsiOverboughtWarning (sub_score (FZ 15) a)
  | NeutralZone => a
  end.

(** Stochastic RSI: -30 above 85, else +15 when oversold. *)
Definition score_stoch (indicators : Indicators) (a : Acc) : Acc :=
  if (stoch_rsi_k indicators >? FZ 85)%F then
    add_warning (StochExtremeWarning (stoch_rsi_k indicators))
      (sub_score (FZ 30) a)
  else match stoch_rsi_signal indicators with
       | Oversold => add_reason StochOversoldReason (add_score (FZ 15) a)
       | _ => a
       end.

(** MACD: +10 on a bullish cross, -10 otherwise. *)
Definition score_macd (indicators : Indicators) (a : Acc) : Acc :=
  match macd_cross indicators with
  | BullishCross => add_reason MacdBullishReason (add_score (FZ 10) a)
  | BearishCross => sub_score (FZ 10) a
  end.

(** VIX context: -15 under high volatility. *)
Definition score_vix (market_context : MarketContext) (a : Acc) : Acc :=
  if vix_high_volatility market_context
  then sub_score (FZ 15) (add_warning VixWarning a) else a.

(** Price against the pivot levels: warnings only. *)
Definition level_warnings (indicators : Indicators) (a : Acc) : Acc :=
  let current_price := price_current indicators in
  let resistance := pivots_resistance indicators in
  let support := pivots_support indicators in
  let a := if (current_price >? resistance * FQ 98 100)%F
           then add_warning (PriceAtResistance resistance) a else a in
  if (current_price <? support * FQ 102 100)%F
  then add_warning (PriceAtSupport support) a else a.

Definition scoring (indicators : Indicators) (market_context : MarketContext)
    (a : Acc) : Acc :=
  level_warnings indicators
    (score_vix market_context
       (score_macd indicators
          (score_stoch indicators
             (score_rsi indicators
                (score_trend indicators
                   (score_regime indicators a)))))).

(** [max(0, min(100, 50 + score))]. *)
Definition clamp_confidence (score : pyfloat) : pyfloat :=
  py_max (FZ 0) (py_min (FZ 100) (FZ 50 + score)%F).

(** The "conservative logic" mapping. *)
Definition final_signal (confidence : pyfloat) (regime : Regime) : Signal :=
  if (confidence >=? FZ 70)%F
     && (match regime with TRENDING => true | _ => false end) then BUY
  else if (confidence <=? FZ 30)%F then SELL
  else if (confidence >=? FZ 50)%F then HOLD
  else WAIT.

Definition generate_signal
    (indicators : Indicators) (market_context : MarketContext)
    (risk_data : RiskProfile)
    (earnings_days : option Z) (fundamentals : option Fundamentals)
    (massive_drop_detected : option MassiveDrop) (price_change_percent : pyfloat)
  : result Decision :=
  match cascade indicators risk_data earnings_days fundamentals
          massive_drop_detected price_change_percent with
  | inl d => Ok d
  | inr a =>
      let a := scoring indicators market_context a in
      let confidence := clamp_confidence (score a) in
      let signal := final_signal confidence (adx_regime indicators) in
      c <- py_int confidence ;;
      Ok {| signal := signal; confidence := c;
            reasons := acc_reasons a; warnings := acc_warnings a;
            override_reason := None; advanced_alerts := acc_alerts a;
            massive_drop := None |}
  end.

End TechnicalAnalyzer.

(* ===================================================================== *)
(** * optimize_entry.py *)
(* ===================================================================== *)

Module EntryOptimizer.

Inductive Level : Type := EMA20 | EMA50 | SupportPivot.

(** An element of [potential_entries]. *)
Record Candidate : Type := mkCandidate {
  level : Level;
  price : pyfloat;
  distance_percent : pyfloat
}.

(** [best_entry]. *)
Record Best : Type := mkBest {
  best_level : Level;
  best_price : pyfloat;
  best_distance : pyfloat;
  best_sl : pyfloat;
  best_tp : pyfloat;
  best_rr : pyfloat
}.

(** Which of the four result dicts is returned. *)
Inductive Outcome : Type :=
| AlreadyFavourable      (* no optimization needed *)
| AtSupport              (* no candidate: wait for stabilization *)
| BelowTarget            (* closest candidate, R/R still under the target *)
| Success.

Record EntryResult : Type := mkEntryResult {
  outcome : Outcome;
  optimized : bool;
  current_rr_out : pyfloat;
  ideal_entry : pyfloat;
  ideal_sl : pyfloat;
  ideal_tp : pyfloat;
  ideal_rr : pyfloat;
  entry_level : option Level;
  pullback_distance : option pyfloat
}.

(** One of the three [if ... : potential_entries.append(...)] blocks; the
    distance is a division of Python floats. *)
Definition candidate (lv : Level) (p current_price factor : pyfloat)
  : result (list Candidate) :=
  if (p <? current_price * factor)%F then
    q <- py_div (current_price - p)%F current_price ;;
    Ok [ {| level := lv; price := p; distance_percent := (q * FZ 100)%F |} ]
  else Ok [].

Definition potential_entries (current_price ema_20 ema_50 support : pyfloat)
  : result (list Candidate) :=
  c1 <- candidate EMA20 ema_20 current_price (FQ 98 100) ;;
  c2 <- candidate EMA50 ema_50 current_price (FQ 95 100) ;;
  c3 <- candidate SupportPivot support current_price (FQ 97 100) ;;
  Ok (c1 ++ c2 ++ c3).

(** [list.sort(key=...)]: stable, ascending in the key. *)
Fixpoint insert_by_distance (c : Candidate) (l : list Candidate) : list Candidate :=
  match l with
  | [] => [c]
  | d :: r =>
      if (distance_percent d <? distance_percent c)%F
      then d :: insert_by_distance c r
      else c :: l
  end.

Definition sort_by_distance (l : list Candidate) : list Candidate :=
  fold_right insert_by_distance [] l.

(** The body of the [for] loop: the entry built from one candidate when
    its risk is positive and its R/R reaches the target. *)
Definition try_entry (target_rr resistance atr : pyfloat) (c : Candidate)
  : result (option Best) :=
  let ideal_entry := price c in
  let ideal_sl := (ideal_entry - atr * FQ 3 2)%F in
  let ideal_tp := resistance in
  let ideal_sl := if (ideal_sl <=? FQ 1 100)%F
                  then (ideal_entry * FQ 97 100)%F else ideal_sl in
  let risk := (ideal_entry - ideal_sl)%F in
  let reward := (ideal_tp - ideal_entry)%F in
  if (risk >? FZ 0)%F then
    ideal_rr <- py_div reward risk ;;
    if (ideal_rr >=? target_rr)%F then
      Ok (Some {| best_level := level c; best_price := ideal_entry;
                  best_distance := distance_percent c;
                  best_sl := ideal_sl; best_tp := ideal_tp; best_rr := ideal_rr |})
    else Ok None
  else Ok None.

(** The loop with its [break]. *)
Fixpoint first_entry (target_rr resistance atr : pyfloat) (l : list Candidate)
  : result (option Best) :=
  match l with
  | [] => Ok None
  | c :: r =>
      b <- try_entry target_rr resistance atr c ;;
      match b with
      | Some _ => Ok b
      | None => first_entry target_rr resistance atr r
      end
  end.

Definition optimize_entry (target_rr : pyfloat)
    (current_price ema_20 ema_50 support resistance atr current_rr : pyfloat)
  : result EntryResult :=
  if (current_rr >=? target_rr)%F then
    Ok {| outcome := AlreadyFavourable; optimized := false;
          current_rr_out := round2 current_rr;
          ideal_entry := current_price;
          ideal_sl := (current_price - atr * FQ 3 2)%F;
          ideal_tp := resistance; ideal_rr := current_rr;
          entry_level := None; pullback_distance := None |}
  else
  entries <- potential_entries current_price ema_20 ema_50 support ;;
  match sort_by_distance entries with
  | [] =>
      Ok {| outcome := AtSupport; optimized := false;
            current_rr_out := round2 current_rr;
            ideal_entry := current_price;
            ideal_sl := (support - atr * FQ 1 2)%F;
            ideal_tp := resistance; ideal_rr := current_rr;
            entry_level := None; pullback_distance := None |}
  | (closest :: _) as sorted =>
      best_entry <- first_entry target_rr resistance atr sorted ;;
      match best_entry with
      | None =>
          let ideal_entry := price closest in
          let ideal_sl := (ideal_entry - atr * FQ 3 2)%F in
          let ideal_tp := resistance in
          let risk := (ideal_entry - ideal_sl)%F in
          let reward := (ideal_tp - ideal_entry)%F in
          ideal_rr <- (if (risk >? FZ 0)%F then py_div reward risk else Ok (FZ 0)) ;;
          Ok {| outcome := BelowTarget; optimized := true;
                current_rr_out := round2 current_rr;
                ideal_entry := round2 ideal_entry;
                ideal_sl := round2 ideal_sl;
                ideal_tp := round2 ideal_tp;
                ideal_rr := round2 ideal_rr;
                entry_level := Some (level closest);
                pullback_distance := Some (round1 (distance_percent closest)) |}
      | Some b =>
          Ok {| outcome := Success; optimized := true;
                current_rr_out := round2 current_rr;
                ideal_entry := round2 (best_price b);
                ideal_sl := round2 (best_sl b);
                ideal_tp := round2 (best_tp b);
                ideal_rr := round2 (best_rr b);
                entry_level := Some (best_level b);
                pullback_distance := Some (round1 (best_distance b)) |}
      end
  end.

Definition default_target_rr : pyfloat := FZ 2.

End EntryOptimizer.

(* ===================================================================== *)
(** * server.py: formatting and the analysis endpoint *)
(* ===================================================================== *)

Module Server.
Import PriceValidator RiskCalculator Indicator TechnicalAnalyzer.

(** [format_price(value)] and [format_percentage(value)]: the
    [ValueError] and [TypeError] of [float()] are caught. *)
Definition format_price (value : pyval) : result pyfloat :=
  match py_float value with
  | Ok x => Ok (round2 x)
  | Raise ValueError | Raise TypeError => Ok (FZ 0)
  | Raise e => Raise e
  end.

Definition format_percentage : pyval -> result pyfloat := format_price.

(** What steps 4 to 7 of [analyze_symbol] compute from the fetched bars,
    market context and fundamentals. *)
Record Analysis : Type := mkAnalysis {
  an_indicators : Indicators;
  an_massive_drop : option MassiveDrop;
  an_gap_reversal : option GapReversal;
  an_risk_data : RiskProfile;
  an_price_change : pyfloat;
  an_signal_data : Decision
}.

Definition analysis_steps (data : DataFrame) (context_data : MarketContext)
    (fundamentals : option Fundamentals) : result Analysis :=
  (* Step 4: technical analysis *)
  indicators <- calculate_all_indicators data ;;
  (* Step 4.5: massive drop and gap reversal; the alerts built from them
     are replaced by those of step 8 *)
  massive_drop <- detect_massive_drop data (FZ 8) ;;
  gap_reversal <- detect_gap_reversal data ;;
  (* Step 5: risk calculation *)
  risk_data <- calculate_risk_reward indicators ;;
  (* Step 6.9: price change, a division of Python floats *)
  current_price <- iloc_last (col bar_close data) ;;
  prev_price <- iloc_last2 (col bar_close data) ;;
  q <- py_div (current_price - prev_price)%F prev_price ;;
  let price_change := (q * FZ 100)%F in
  (* Step 7: the signal; no earnings distance and no massive-drop alert
     are passed *)
  signal_data <-
    generate_signal indicators context_data risk_data None fundamentals None
      price_change ;;
  Ok {| an_indicators := indicators;
        an_massive_drop := massive_drop;
        an_gap_reversal := gap_reversal;
        an_risk_data := risk_data;
        an_price_change := price_change;
        an_signal_data := signal_data |}.

(** The [HTTPException]s of the endpoint. *)
Inductive HTTPException : Type :=
| Status404                 (* 'Simbol inexistent sau date insuficiente' *)
| Status500 (e : exn).      (* 'Eroare de analiza: ...' *)

(** [analyze_symbol], up to step 7: fewer than 20 bars are refused, and
    every other exception becomes a 500. *)
Definition analyze_symbol (data : DataFrame) (context_data : MarketContext)
    (fundamentals : option Fundamentals) : HTTPException + Analysis :=
  if (List.length data <? 20)%nat then inl Status404
  else match analysis_steps data context_data fundamentals with
       | Ok a => inr a
       | Raise e => inl (Status500 e)
       end.

End Server.

(* ===================================================================== *)
(** * Inputs and predicates used by the statements *)
(* ===================================================================== *)

(** [None] or a float: what the annotation [price: float] admits. *)
Definition is_numeric (v : pyval) : bool :=
  match v with PyStr _ => false | _ => true end.

(** A frame of [n] equal bars at price [p]: no price movement at all. *)
Definition flat_bars (p : Q) (n : nat) : DataFrame :=
  repeat (mkBar (Fin p) (Fin p) (Fin p) (Fin p) (Fin 1000)) n.

(** Twenty bars of a stock quoted at two cents: open, low and close 0.02,
    high 0.03. *)
Definition penny_bars : DataFrame :=
  repeat (mkBar (Fin (2 # 100)) (Fin (3 # 100)) (Fin (2 # 100)) (Fin (2 # 100))
                (Fin 1000)) 20.

(** A snapshot with the given price, ATR and pivot levels, every other
    entry neutral. *)
Definition snapshot (price atr support resistance : pyfloat) : Indicators :=
  {| price_current := price;
     rsi_value := FZ 50; rsi_signal := NeutralZone;
     stoch_rsi_k := FZ 50; stoch_rsi_d := FZ 50; stoch_rsi_signal := NeutralZone;
     adx_value := FZ 22; adx_regime := NEUTRAL_REGIME;
     atr_value := atr; atr_percent := FZ 1;
     macd_cross := BullishCross;
     volume_ratio := FZ 1;
     pivots_support := support; pivots_resistance := resistance;
     donchian_upper := resistance; donchian_lower := support;
     trend_direction := BULLISH |}.

(** The stop-loss handed to the validator and what it returns. *)
Definition validated_stop_loss (ind : Indicators) : result pyfloat :=
  let current_price := price_current ind in
  let atr := atr_value ind in
  PriceValidator.validate_stop_loss
    (py_max (current_price - atr * FQ 3 2)%F
            (pivots_support ind - atr * FQ 1 2)%F)
    current_price atr.

(** The volume of the last bar over the mean volume of the last twenty
    bars ([NaN] when one of those is missing), and 1.0 for a frame of
    fewer than twenty bars. *)
Definition volume_ratio_20 (df : DataFrame) : pyfloat :=
  if (List.length df <? 20)%nat then FZ 1
  else
    np_div (last (col bar_volume df) NaN)
           (match finite_values (col bar_volume (Indicator.tail 20 df)) with
            | Some qs => Fin (Qred (Qmean qs))
            | None => NaN
            end).

(** Two bars closing at 100 and then at 90, on the given volumes. *)
Definition bar_at (close volume : pyfloat) : Bar :=
  mkBar close close close close volume.

(** A risk profile read for its risk/reward ratio only. *)
Definition risk_with_rr (rr : pyfloat) : RiskCalculator.RiskProfile :=
  {| RiskCalculator.entry_price := FZ 100;
     RiskCalculator.stop_loss := FZ 95;
     RiskCalculator.take_profit := (FZ 100 + FZ 5 * rr)%F;
     RiskCalculator.stop_loss_percent := FZ 5;
     RiskCalculator.risk_reward_ratio := rr;
     RiskCalculator.actual_rr_ratio := rr;
     RiskCalculator.rr_capped := false;
     RiskCalculator.position_size_suggestion := FZ 20;
     RiskCalculator.trailing_stop := FZ 96;
     RiskCalculator.rp_atr_value := FZ 2;
     RiskCalculator.favorable := true;
     RiskCalculator.risk_assessment := RiskCalculator.RiskModerate;
     RiskCalculator.rp_support := FZ 90;
     RiskCalculator.rp_resistance := FZ 120;
     RiskCalculator.rp_rr_warning := None |}.

(** The snapshot [snapshot 100 2 90 120] with other oscillator readings. *)
Definition with_readings (rsi : pyfloat) (rsi_zone : Zone) (k : pyfloat)
    (k_zone : Zone) (cross : Cross) (vol_ratio : pyfloat) : Indicators :=
  {| price_current := FZ 100;
     rsi_value := rsi; rsi_signal := rsi_zone;
     stoch_rsi_k := k; stoch_rsi_d := k; stoch_rsi_signal := k_zone;
     adx_value := FZ 22; adx_regime := NEUTRAL_REGIME;
     atr_value := FZ 2; atr_percent := FZ 2;
     macd_cross := cross;
     volume_ratio := vol_ratio;
     pivots_support := FZ 90; pivots_resistance := FZ 120;
     donchian_upper := FZ 120; donchian_lower := FZ 90;
     trend_direction := BULLISH |}.

Definition calm_market : TechnicalAnalyzer.MarketContext :=
  {| TechnicalAnalyzer.vix_high_volatility := false |}.

(** An alert as [detect_massive_drop] builds it for a 12% fall. *)
Definition drop_alert : PriceValidator.MassiveDrop :=
  {| PriceValidator.drop_detected := true;
     PriceValidator.drop_percent := FZ (-12);
     PriceValidator.previous_close := FZ 100;
     PriceValidator.current_close := FZ 88;
     PriceValidator.volume_spike := true;
     PriceValidator.md_volume_ratio := FZ 2;
     PriceValidator.md_warning := MassiveDropWarning (FZ 12);
     PriceValidator.md_action := WaitForStabilization |}.

(** Fundamentals with the given debt/equity and a positive cash flow. *)
Definition leveraged (dte : pyfloat) : Fundamentals :=
  {| debt_to_equity := Some dte; free_cash_flow := Some (FZ 1000000) |}.

(** The debt/equity penalties in points, on the raw value [d]: by the
    normalized ratio, by the legacy check, and by the check next to the
    financial-health block. *)
Definition ratio_penalty (d : Q) : Q :=
  let r := if Qltb 100 d then d / 100 else d in
  if Qltb 10 r then 30 else if Qltb 3 r then 20 else 0.
Definition legacy_penalty (d : Q) : Q := if Qltb 300 d then 30 else 0.
Definition percent_penalty (d : Q) : Q := if Qltb 300 d then 50 else 0.

(** The running score is a finite number. *)
Definition finite_score (a : TechnicalAnalyzer.Acc) : Prop :=
  exists q, TechnicalAnalyzer.score a = Fin q.

(** [n] bars of a steadily rising market: the close goes up by one each
    bar from 100, high and low one above and one below it. *)
Definition rising_bars (n : nat) : DataFrame :=
  map (fun i => let c := inject_Z (100 + Z.of_nat i) in
                mkBar (Fin c) (Fin (Qred (c + 1))) (Fin (Qred (c - 1))) (Fin c)
                      (Fin 1000))
      (seq 0 n).

(** A candidate at a finite distance from the price. *)
Definition finite_distance (c : EntryOptimizer.Candidate) : Prop :=
  exists q, EntryOptimizer.distance_percent c = Fin q.

(** [c] is at most as far from the price as [d]. *)
Definition closer (c d : EntryOptimizer.Candidate) : Prop :=
  (EntryOptimizer.distance_percent c <=? EntryOptimizer.distance_percent d)%F = true.

(** Ranges of indicator values: missing, or a number in the range. *)
Definition nonneg_or_nan (x : pyfloat) : Prop :=
  x = NaN \/ exists q, x = Fin q /\ 0 <= q.

Definition percent_or_nan (x : pyfloat) : Prop :=
  x = NaN \/ exists q, x = Fin q /\ 0 <= q <= 100.

(** [+inf] besides: the values a quotient of such numbers can take. *)
Definition nonneg_ext (x : pyfloat) : Prop :=
  x = PInf \/ nonneg_or_nan x.

(** Every number of the series satisfies [P]. *)
Definition numbers (P : Q -> Prop) (s : Series) : Prop :=
  forall q, In (Fin q) s -> P q.

(** A bar with finite high and low, the low not above the high. *)
Definition well_formed_bar (b : Bar) : Prop :=
  exists h l, bar_high b = Fin h /\ bar_low b = Fin l /\ l <= h.

(** Twenty bars whose lows are all negative (synthetic data). *)
Definition negative_low_bars : DataFrame :=
  repeat (mkBar (FZ 1) (FZ 2) (FZ (-3)) (FZ 1) (FZ 10)) 20.

(** A snapshot with every reading in favour of a BUY: bullish trend,
    both oscillators oversold, bullish MACD, trending regime. *)
Definition favourable_readings : Indicators :=
  {| price_current := FZ 100;
     rsi_value := FZ 25; rsi_signal := Oversold;
     stoch_rsi_k := FZ 10; stoch_rsi_d := FZ 10; stoch_rsi_signal := Oversold;
     adx_value := FZ 30; adx_regime := TRENDING;
     atr_value := FZ 2; atr_percent := FZ 2;
     macd_cross := BullishCross;
     volume_ratio := FZ 1;
     pivots_support := FZ 90; pivots_resistance := FZ 120;
     donchian_upper := FZ 120; donchian_lower := FZ 90;
     trend_direction := BULLISH |}.

(** Two accumulators that agree on what a scored decision is built from,
    apart from the alerts: the score, the reasons and the warnings. *)
Definition same_verdict (a b : TechnicalAnalyzer.Acc) : Prop :=
  TechnicalAnalyzer.score a = TechnicalAnalyzer.score b
  /\ TechnicalAnalyzer.acc_reasons a = TechnicalAnalyzer.acc_reasons b
  /\ TechnicalAnalyzer.acc_warnings a = TechnicalAnalyzer.acc_warnings b.

(** A number between two bounds. *)
Definition in_range (lo hi : Q) (x : pyfloat) : Prop :=
  exists q, x = Fin q /\ lo <= q <= hi.

(** A snapshot of a quiet, high-priced stock: price 1000, ATR 0.01. *)
Definition quiet_snapshot : Indicators :=
  snapshot (FZ 1000) (FQ 1 100) (FZ 900) (FZ 1100).

(** Nineteen quiet bars at 100 on a volume of 1000, then a bar that opens
    at 95, falls to 90 and closes at 97 on the given volume. *)
Definition gap_down_bars (volume : pyfloat) : DataFrame :=
  repeat (bar_at (FZ 100) (FZ 1000)) 19
  ++ [mkBar (FZ 95) (FZ 98) (FZ 90) (FZ 97) volume].

(** A finite value that satisfies [P]. *)
Definition number (P : Q -> Prop) (x : pyfloat) : Prop :=
  exists q, x = Fin q /\ P q.

(** A bar with finite high, low and close, the close between low and
    high. *)
Definition consistent_bar (b : Bar) : Prop :=
  exists h l c,
    bar_high b = Fin h /\ bar_low b = Fin l /\ bar_close b = Fin c
    /\ l <= c <= h.

(** A bar with finite prices, open and close between low and high. *)
Definition regular_bar (b : Bar) : Prop :=
  exists o h l c,
    bar_open b = Fin o /\ bar_high b = Fin h /\ bar_low b = Fin l
    /\ bar_close b = Fin c /\ l <= o <= h /\ l <= c <= h.

(** The bar lies within the band from [lo] to [hi]. *)
Definition within_band (lo hi : Q) (b : Bar) : Prop :=
  exists h l, bar_high b = Fin h /\ bar_low b = Fin l /\ lo <= l /\ h <= hi.

(** Thirty-nine bars of the rising market, then a bar that opens at the
    last close and closes 10% lower. *)
Definition crash_bars : DataFrame :=
  rising_bars 39
  ++ [mkBar (FZ 138) (FZ 138) (FQ 1240 10) (FQ 1242 10) (FZ 5000)].

(** Eight bars whose prices go 5, 4, 3, 4, 5, 6, 5, 4: a low at row 2 and
    a high at row 5. *)
Definition zigzag_bars : DataFrame :=
  map (fun c => bar_at (FZ c) (FZ 1)) [5; 4; 3; 4; 5; 6; 5; 4]%Z.

(* ===================================================================== *)
(** * Properties *)
(* ===================================================================== *)

(** ** Comparisons of rationals *)

Lemma Qltb_true (a b : Q) : Qltb a b = true <-> a < b.
Proof.
  unfold Qltb. rewrite Qlt_alt.
  destruct (a ?= b); split; intro H; congruence.
Qed.

Lemma Qltb_false (a b : Q) : Qltb a b = false <-> b <= a.
Proof.
  split; intro H.
  - apply Qnot_lt_le. intro L. apply Qltb_true in L. congruence.
  - destruct (Qltb a b) eqn:E; [| reflexivity].
    apply Qltb_true in E. exfalso. apply (Qlt_not_le _ _ E H).
Qed.

Lemma Qleb_true (a b : Q) : Qleb a b = true <-> a <= b.
Proof.
  unfold Qleb. rewrite Qle_alt.
  destruct (a ?= b); split; intro H; congruence.
Qed.

Lemma Qleb_false (a b : Q) : Qleb a b = false <-> b < a.
Proof.
  split; intro H.
  - apply Qnot_le_lt. intro L. apply Qleb_true in L. congruence.
  - destruct (Qleb a b) eqn:E; [| reflexivity].
    apply Qleb_true in E. exfalso. apply (Qlt_not_le _ _ H E).
Qed.

Lemma Qeqb_true (a b : Q) : Qeqb a b = true <-> a == b.
Proof.
  unfold Qeqb. rewrite Qeq_alt.
  destruct (a ?= b); split; intro H; congruence.
Qed.

Lemma Qeqb_false (a b : Q) : Qeqb a b = false <-> ~ a == b.
Proof.
  rewrite <- Qeqb_true. destruct (Qeqb a b); split; intro H; congruence.
Qed.

(** Boolean tests in the context become propositions over [Q], the
    literals and the reductions to lowest terms are unfolded. *)
Ltac qprops :=
  repeat match goal with
  | H : Qltb _ _ = true |- _ => apply Qltb_true in H
  | H : Qltb _ _ = false |- _ => apply Qltb_false in H
  | H : Qleb _ _ = true |- _ => apply Qleb_true in H
  | H : Qleb _ _ = false |- _ => apply Qleb_false in H
  | H : Qeqb _ _ = true |- _ => apply Qeqb_true in H
  | H : Qeqb _ _ = false |- _ => apply Qeqb_false in H
  end.

Ltac qnorm :=
  unfold FZ, FQ, inject_Z in *;
  repeat match goal with
  | H : context [Qred _] |- _ => rewrite Qred_correct in H
  end;
  rewrite ?Qred_correct.

Ltac qcase :=
  repeat match goal with
  | |- context [Qltb ?a ?b] => destruct (Qltb a b) eqn:?
  | |- context [Qleb ?a ?b] => destruct (Qleb a b) eqn:?
  | |- context [Qeqb ?a ?b] => destruct (Qeqb a b) eqn:?
  end.

Ltac qsolve := qprops; qnorm; try lra.

(** Unfolds the float operations, and nothing of the rationals below. *)
Ltac fsimpl :=
  unfold py_max, py_min, fgt, fge;
  cbn [fadd fsub fmul fneg fabs flt fle fgt fge py_max py_min
       is_nan is_finite is_inf bind FZ FQ].
Tactic Notation "fsimpl" "in" hyp(H) :=
  unfold py_max, py_min, fgt, fge in H;
  cbn [fadd fsub fmul fneg fabs flt fle fgt fge py_max py_min
       is_nan is_finite is_inf bind FZ FQ] in H.

(** ** C7: validate_price *)

Import PriceValidator.


(** C7, the claim as stated fails: a non-numeric string reaches [float()],
    which raises, and [+inf] is returned as it is, which is not finite. *)
Lemma C7_validate_price_counterexample :
  validate_price (PyStr "abc") default_min_price = Raise ValueError
  /\ validate_price (PyStr "N/A") default_min_price = Raise ValueError
  /\ validate_price (PyFloat PInf) default_min_price = Ok PInf.
Proof. repeat split; reflexivity. Qed.

(** C7, amended: on [None] and on every float, [NaN] and the infinities
    included, [validate_price] does not raise; [None], [NaN], [-inf] and
    every value at or under the minimum give the minimum, every other
    value is returned as it is; so the result is at least the minimum,
    positive for a positive minimum, and finite unless the input is
    [+inf]. *)
Theorem C7_validate_price_numeric (v : pyval) (m : Q) :
  is_numeric v = true ->
  exists r,
    validate_price v (Fin m) = Ok r
    /\ fge r (Fin m) = true
    /\ (pd_isna v = true \/ v = PyFloat NInf
        \/ (exists p, v = PyFloat (Fin p) /\ p <= m) -> r = Fin m)
    /\ (forall p, v = PyFloat (Fin p) -> m < p -> r = Fin p)
    /\ (v = PyFloat PInf -> r = PInf)
    /\ (0 < m -> fgt r (FZ 0) = true)
    /\ (v <> PyFloat PInf -> is_finite r = true).
Proof.
  intros Hnum.
  assert (Hmm : fge (Fin m) (Fin m) = true)
    by (apply Qleb_true; apply Qle_refl).
  assert (Hpos : 0 < m -> fgt (Fin m) (FZ 0) = true)
    by (intro; apply Qltb_true; qsolve).
  destruct v as [| x | s]; [| | discriminate Hnum].
  - exists (Fin m). repeat split; auto; intros; try congruence.
  - destruct x as [p | | |]; unfold validate_price, py_max, fgt; simpl.
    + destruct (Qltb m p) eqn:E.
      * exists (Fin p). qprops. repeat split.
        -- apply Qleb_true. lra.
        -- intros [H | [H | [p' [H Hle]]]]; try discriminate.
           injection H as ->. lra.
        -- intros p' H _. congruence.
        -- discriminate.
        -- intro. apply Qltb_true. qsolve.
      * exists (Fin m). qprops. repeat split; auto.
        -- intros p' H Hlt. injection H as ->. lra.
        -- discriminate.
    + exists PInf. repeat split; auto; try congruence.
      intros [H | [H | [p' [H _]]]]; discriminate.
    + exists (Fin m). repeat split; auto; intros; congruence.
    + exists (Fin m). repeat split; auto; intros; congruence.
Qed.

(** The amended C7 at a negative price and at a price above the minimum. *)
Lemma C7_validate_price_numeric_witness :
  (exists r, validate_price (PyFloat (Fin (-5))) (Fin (1 # 100)) = Ok r
             /\ r = Fin (1 # 100))
  /\ (exists r, validate_price (PyFloat (Fin 42)) (Fin (1 # 100)) = Ok r
                /\ r = Fin 42).
Proof.
  split.
  - destruct (C7_validate_price_numeric (PyFloat (Fin (-5))) (1 # 100) eq_refl)
      as [r [H [_ [Hmin _]]]].
    exists r. split; [exact H |].
    apply Hmin. right. right. exists (-5). split; [reflexivity | lra].
  - destruct (C7_validate_price_numeric (PyFloat (Fin 42)) (1 # 100) eq_refl)
      as [r [H [_ [_ [Hid _]]]]].
    exists r. split; [exact H |].
    apply (Hid 42); [reflexivity | lra].
Defined.

(** ** The validators do not raise on floats *)

Lemma validate_price_float (x m : pyfloat) :
  validate_price (PyFloat x) m = Ok (if is_nan x then m else py_max m x).
Proof. destruct x; reflexivity. Qed.

Lemma validate_stop_loss_returns (sl p a : pyfloat) :
  exists r, validate_stop_loss sl p a = Ok r.
Proof.
  unfold validate_stop_loss. rewrite validate_price_float. cbn [bind].
  rewrite validate_price_float. eexists. reflexivity.
Qed.

Lemma validate_take_profit_returns (tp p a : pyfloat) :
  exists r, validate_take_profit tp p a = Ok r.
Proof.
  unfold validate_take_profit. rewrite validate_price_float. cbn [bind].
  eexists. reflexivity.
Qed.

Lemma py_div_positive_divisor (x y : pyfloat) :
  fgt y (FZ 0) = true -> exists r, py_div x y = Ok r.
Proof.
  intro H. destruct y as [b | | |]; try discriminate H;
    unfold py_div; [| eexists; reflexivity].
  unfold fgt, flt, FZ in H. destruct (Qeqb b 0) eqn:E.
  - qprops. unfold inject_Z in H. lra.
  - eexists. reflexivity.
Qed.

Lemma py_div_zero_divisor (x : pyfloat) (b : Q) :
  b == 0 -> py_div x (Fin b) = Raise ZeroDivisionError.
Proof.
  intro H. unfold py_div. apply Qeqb_true in H. rewrite H. reflexivity.
Qed.

(** ** C10: the unguarded position-sizing division *)

Import RiskCalculator.

(** C10: when the validated stop-loss equals the entry price the stop
    distance [sl_percent] is zero, and the call ends in the
    [ZeroDivisionError] of the position sizing instead of a Risk Profile. *)
Theorem C10_zero_stop_distance_raises (ind : Indicators) (p s : Q) :
  price_current ind = Fin p ->
  validated_stop_loss ind = Ok (Fin s) ->
  s == p ->
  calculate_risk_reward ind = Raise ZeroDivisionError.
Proof.
  intros Hp Hv Hs.
  unfold validated_stop_loss in Hv. cbv zeta in Hv.
  unfold calculate_risk_reward. cbv zeta.
  rewrite Hv. cbn [bind]. rewrite Hp in *.
  change (Fin p - Fin s)%F with (Fin (Qred (p - s))).
  unfold py_div at 1.
  destruct (Qeqb p 0) eqn:Ep0; [reflexivity |]. cbn [bind].
  change (np_div (Fin (Qred (p - s))) (Fin p))
    with (if Qeqb p 0 then signed_inf (Qred (p - s))
          else Fin (Qred (Qred (p - s) / p))).
  rewrite Ep0.
  change (Fin (Qred (Qred (p - s) / p)) * FZ 100)%F
    with (Fin (Qred (Qred (Qred (p - s) / p) * inject_Z 100))).
  set (slp := Qred (Qred (Qred (p - s) / p) * inject_Z 100)).
  assert (Hslp : slp == 0).
  { unfold slp. rewrite !Qred_correct. rewrite Hs.
    qprops. unfold inject_Z. field. exact Ep0. }
  assert (Hgt : (Fin slp >? FZ 10)%F = false).
  { apply Qltb_false. rewrite Hslp. unfold inject_Z. lra. }
  rewrite Hgt.
  match goal with
  | |- bind (validate_take_profit ?t ?c ?a) _ = _ =>
      destruct (validate_take_profit_returns t c a) as [tp ->]
  end.
  cbn [bind].
  match goal with
  | |- bind (if ?c then py_div ?x ?y else _) _ = _ =>
      destruct c eqn:Hrisk;
      [ destruct (py_div_positive_divisor x y Hrisk) as [rr ->] | ]
  end; cbn [bind]; rewrite (py_div_zero_divisor _ slp Hslp); reflexivity.
Qed.

(** C10 at the snapshot of a flat market: price 100, ATR 0. *)
Lemma C10_zero_stop_distance_raises_witness :
  calculate_risk_reward (snapshot (FZ 100) (FZ 0) (FZ 100) (FZ 100))
  = Raise ZeroDivisionError.
Proof.
  apply (C10_zero_stop_distance_raises
           (snapshot (FZ 100) (FZ 0) (FZ 100) (FZ 100)) 100 100);
    reflexivity.
Defined.

(** X9: with a zero ATR and a price of at least one cent the
    validated stop-loss is the entry price, whatever the support level
    is. *)
Lemma stop_is_entry_when_atr_is_zero (ind : Indicators) (p a : Q) :
  price_current ind = Fin p ->
  atr_value ind = Fin a ->
  a == 0 ->
  1 # 100 <= p ->
  exists s, validated_stop_loss ind = Ok (Fin s) /\ s == p.
Proof.
  intros Hp Ha Ha0 Hmin.
  unfold validated_stop_loss, validate_stop_loss. cbv zeta.
  rewrite Hp, Ha. rewrite !validate_price_float. cbn [bind].
  rewrite validate_price_float.
  destruct (pivots_support ind) as [q | | |]; unfold default_min_price;
    fsimpl; qcase; fsimpl; qcase; fsimpl; qcase; fsimpl;
    (eexists; split; [reflexivity |]); qsolve.
Qed.

(** The same through the pipeline: the snapshot of twenty equal bars has
    ATR 0 and the risk calculation on it raises. *)
Lemma flat_market_risk_raises :
  (i <- Indicator.calculate_all_indicators (flat_bars 100 20) ;;
   calculate_risk_reward i) = Raise ZeroDivisionError.
Proof. vm_compute. reflexivity. Qed.

(** ** C2: stop-loss below and take-profit above the entry *)

(** C2 fails on the code.  For the two-cent stock the 10% cap puts the
    stop at 0.018, which the result rounds to 0.02, the entry itself; for
    a price under one cent the validator's floor of 0.01 puts the stop
    above the entry.  Both calls return a Risk Profile. *)
Theorem C2_stop_loss_not_below_entry :
  (exists rp,
      (i <- Indicator.calculate_all_indicators penny_bars ;;
       calculate_risk_reward i) = Ok rp
      /\ entry_price rp = FQ 2 100
      /\ stop_loss rp = FQ 2 100
      /\ flt (stop_loss rp) (entry_price rp) = false)
  /\ (exists rp,
      calculate_risk_reward
        (snapshot (FQ 4 1000) (FZ 0) (FQ 3 1000) (FQ 5 1000)) = Ok rp
      /\ entry_price rp = FZ 0
      /\ stop_loss rp = FQ 1 100
      /\ flt (stop_loss rp) (entry_price rp) = false).
Proof.
  split; eexists; (split; [vm_compute; reflexivity |]);
    repeat split; vm_compute; reflexivity.
Qed.

(** What the validator alone guarantees: the stop it returns is at least
    the floor of 0.01 (or missing), below the entry only when the entry
    is above that floor. *)
Lemma validate_stop_loss_floor (sl p a : pyfloat) (r : Q) :
  validate_stop_loss sl p a = Ok (Fin r) -> 1 # 100 <= r.
Proof.
  unfold validate_stop_loss. rewrite !validate_price_float. cbn [bind].
  rewrite validate_price_float.
  match goal with
  | |- Ok (if is_nan ?x then _ else _) = _ -> _ => destruct x as [q | | |]
  end; unfold default_min_price; fsimpl; qcase; intro H;
    try discriminate H; injection H as <-; qsolve.
Qed.

(** ** Positional access and rolling windows *)

Lemma iloc_last_app (s : Series) (x : pyfloat) : iloc_last (s ++ [x]) = Ok x.
Proof. unfold iloc_last. rewrite rev_app_distr. reflexivity. Qed.

Lemma iloc_last2_app (s : Series) (x y : pyfloat) :
  iloc_last2 (s ++ [x; y]) = Ok x.
Proof. unfold iloc_last2. rewrite rev_app_distr. reflexivity. Qed.

Lemma iloc_last_last (s : Series) :
  s <> [] -> iloc_last s = Ok (last s NaN).
Proof.
  intro H. destruct (exists_last H) as [l [x ->]].
  rewrite iloc_last_app, last_last. reflexivity.
Qed.

Lemma rolling_length (w : nat) (agg : list Q -> Q) (s : Series) :
  List.length (rolling w agg s) = List.length s.
Proof. unfold rolling. rewrite length_map, length_seq. reflexivity. Qed.

(** The last value of a rolling aggregate is the aggregate of the last
    [w] values. *)
Lemma iloc_last_rolling (w : nat) (agg : list Q -> Q) (s : Series) :
  (0 < w <= List.length s)%nat ->
  iloc_last (rolling w agg s)
  = Ok (match finite_values (Indicator.tail w s) with
        | Some qs => Fin (Qred (agg qs))
        | None => NaN
        end).
Proof.
  intros [Hw Hlen]. unfold rolling.
  destruct (List.length s) as [| n] eqn:En; [lia |].
  rewrite seq_S, map_app. cbn [map]. rewrite iloc_last_app.
  unfold window, Indicator.tail. cbn [Nat.add].
  destruct (Nat.leb_spec w (n + 1)) as [_ | Hc]; [| lia].
  rewrite En.
  replace (n + 1 - w)%nat with (S n - w)%nat by lia.
  rewrite firstn_all2; [reflexivity |].
  rewrite length_skipn. lia.
Qed.

(** ** C8: detect_massive_drop *)

(** C8: fewer than two bars give [None]; a frame ending on the closes
    100 and 90 gives, at the threshold 8.0, an alert with a drop of
    -10.0, the mandatory wait action, and the volume-spike flag "last
    volume over its 20-bar mean above 1.5". *)
Theorem C8_detect_massive_drop :
  (forall df th, (List.length df < 2)%nat -> detect_massive_drop df th = Ok None)
  /\ (forall pre b1 b2,
        bar_close b1 = FZ 100 -> bar_close b2 = FZ 90 ->
        exists md,
          detect_massive_drop (pre ++ [b1; b2]) (FZ 8) = Ok (Some md)
          /\ drop_detected md = true
          /\ drop_percent md = FZ (-10)
          /\ md_action md = WaitForStabilization
          /\ volume_spike md = fgt (volume_ratio_20 (pre ++ [b1; b2])) (FQ 3 2)).
Proof.
  split.
  - intros df th H. unfold detect_massive_drop.
    destruct (Nat.ltb_spec (List.length df) 2) as [_ | Hc]; [reflexivity | lia].
  - intros pre b1 b2 H1 H2. unfold detect_massive_drop.
    set (df := pre ++ [b1; b2]).
    assert (Hlen : List.length df = (List.length pre + 2)%nat)
      by (unfold df; rewrite length_app; reflexivity).
    destruct (Nat.ltb_spec (List.length df) 2) as [Hc | _]; [lia |].
    assert (Hclose : col bar_close df = col bar_close pre ++ [FZ 100; FZ 90]).
    { unfold df, col. rewrite map_app. cbn [map]. rewrite H1, H2. reflexivity. }
    rewrite Hclose, iloc_last2_app. cbn [bind].
    change (col bar_close pre ++ [FZ 100; FZ 90])
      with (col bar_close pre ++ [FZ 100] ++ [FZ 90]).
    rewrite app_assoc, iloc_last_app. cbn [bind].
    change ((np_div (FZ 90 - FZ 100) (FZ 100) * FZ 100 <? fneg (FZ 8))%F)
      with true.
    cbv iota.
    assert (Hvol : col bar_volume df <> []).
    { unfold df, col. rewrite map_app. intro E.
      apply app_eq_nil in E. destruct E as [_ E]. discriminate E. }
    unfold volume_ratio_20.
    destruct (Nat.leb_spec 20 (List.length df)) as [H20 | H20].
    + destruct (Nat.ltb_spec (List.length df) 20) as [Hc | _]; [lia |].
      rewrite (iloc_last_last _ Hvol). cbn [bind].
      unfold rolling_mean. rewrite iloc_last_rolling
        by (unfold col; rewrite length_map; lia).
      cbn [bind].
      replace (Indicator.tail 20 (col bar_volume df))
        with (col bar_volume (Indicator.tail 20 df))
        by (unfold Indicator.tail, col; rewrite length_map, skipn_map; reflexivity).
      eexists. split; [reflexivity |]. repeat split.
    + destruct (Nat.ltb_spec (List.length df) 20) as [_ | Hc]; [| lia].
      cbn [bind]. eexists. split; [reflexivity |]. repeat split.
Qed.

(** C8 on a one-bar frame and on the two-bar frame closing at 100, 90. *)
Lemma C8_detect_massive_drop_witness :
  detect_massive_drop [bar_at (FZ 100) (FZ 1000)] (FZ 8) = Ok None
  /\ exists md,
       detect_massive_drop [bar_at (FZ 100) (FZ 1000); bar_at (FZ 90) (FZ 2000)]
         (FZ 8) = Ok (Some md)
       /\ drop_percent md = FZ (-10)
       /\ md_action md = WaitForStabilization
       /\ volume_spike md = false.
Proof.
  split.
  - apply (proj1 C8_detect_massive_drop). simpl. lia.
  - destruct (proj2 C8_detect_massive_drop []
                (bar_at (FZ 100) (FZ 1000)) (bar_at (FZ 90) (FZ 2000))
                eq_refl eq_refl) as [md [H [_ [Hd [Ha Hv]]]]].
    exists md. repeat split; assumption.
Defined.

(** ** C1: the massive-drop override comes first *)

Import OverboughtProtector HighRiskOptimizer TechnicalAnalyzer.

(** C1: whenever a massive-drop alert is passed, [generate_signal]
    returns WAIT with confidence 10 and the massive-drop override reason,
    whatever the indicators, the risk data, the fundamentals, the
    earnings distance and the price change are; no sell-trigger alert is
    attached. *)
Theorem C1_massive_drop_wins
    (ind : Indicators) (mc : MarketContext) (risk : RiskProfile)
    (ed : option Z) (f : option Fundamentals) (md : MassiveDrop) (pcp : pyfloat) :
  exists d,
    generate_signal ind mc risk ed f (Some md) pcp = Ok d
    /\ signal d = WAIT
    /\ confidence d = 10%Z
    /\ reasons d = [md_warning md]
    /\ warnings d = [md_action md]
    /\ override_reason d = Some (MassiveDropOverride (drop_percent md))
    /\ advanced_alerts d = []
    /\ massive_drop d = Some md.
Proof.
  eexists. split; [reflexivity |]. repeat split.
Qed.

(** The same snapshot with and without the alert: RSI 80, Stochastic-RSI
    K 95 and volume ratio 0.3 arm the sell trigger, which decides only
    when no massive drop is passed. *)
Lemma sell_trigger_yields_to_massive_drop :
  let ind := with_readings (FZ 80) Overbought (FZ 95) Overbought BullishCross
               (FQ 3 10) in
  check_sell_trigger (rsi_value ind) (stoch_rsi_k ind) (volume_ratio ind)
    = Some (SELL_TRIGGER (FZ 80) (FZ 95) (FQ 3 10))
  /\ (exists d, generate_signal ind calm_market (risk_with_rr (FZ 2)) None None
                  None (FZ 2) = Ok d
                /\ signal d = SELL /\ confidence d = 85%Z)
  /\ (exists d, generate_signal ind calm_market (risk_with_rr (FZ 2)) None None
                  (Some drop_alert) (FZ 2) = Ok d
                /\ signal d = WAIT /\ confidence d = 10%Z).
Proof.
  cbv zeta. split; [reflexivity |].
  split; eexists; (split; [vm_compute; reflexivity |]); split; reflexivity.
Qed.

(** ** C6: the volume-divergence rule inside generate_signal *)

Lemma no_divergence_without_price_change (vr : pyfloat) :
  check_volume_divergence vr (FZ 0) = None.
Proof.
  unfold check_volume_divergence.
  replace (FZ 0 >? FZ 0)%F with false by reflexivity.
  rewrite andb_false_r. reflexivity.
Qed.

(** X4: the price change passed by the caller reaches the daily-drop
    penalty only: a change that is not below -8% leaves no trace in the
    result. *)
Lemma generate_signal_ignores_price_rise
    (ind : Indicators) (mc : MarketContext) (risk : RiskProfile)
    (ed : option Z) (f : option Fundamentals) (md : option MassiveDrop)
    (pcp : pyfloat) :
  (pcp <? FZ (-8))%F = false ->
  generate_signal ind mc risk ed f md pcp
  = generate_signal ind mc risk ed f md (FZ 0).
Proof.
  intro H. unfold generate_signal, cascade, penalties, daily_drop_penalty.
  rewrite H. reflexivity.
Qed.

(** C6 fails on the code: with volume ratio 0.6 and a price up 2% the
    rule itself fires, yet [generate_signal], which reaches the check
    (no override returns), carries no divergence warning or alert and
    takes no 30 points off: the confidence is that of the same call
    without any price change, 50 + 20 + 10. *)
Theorem C6_volume_divergence_not_applied :
  let ind := with_readings (FZ 50) NeutralZone (FZ 50) NeutralZone BullishCross
               (FQ 6 10) in
  check_volume_divergence (volume_ratio ind) (FZ 2)
    = Some (VOLUME_DIVERGENCE (FQ 6 10) (FZ 2))
  /\ exists a d,
       cascade ind (risk_with_rr (FZ 2)) None None None (FZ 2) = inr a
       /\ score a = FZ 0
       /\ generate_signal ind calm_market (risk_with_rr (FZ 2)) None None None
            (FZ 2) = Ok d
       /\ warnings d = []
       /\ advanced_alerts d = []
       /\ confidence d = 80%Z
       /\ signal d = HOLD.
Proof.
  cbv zeta. split; [reflexivity |].
  eexists. eexists. split; [vm_compute; reflexivity |].
  split; [reflexivity |].
  split; [vm_compute; reflexivity |]. repeat split.
Qed.

(** ** The running score *)

Lemma finite_sub_score (z : Z) (a : Acc) :
  finite_score a -> finite_score (sub_score (FZ z) a).
Proof. intros [q H]. unfold finite_score. cbn. rewrite H. eexists. reflexivity. Qed.

Lemma finite_add_score (z : Z) (a : Acc) :
  finite_score a -> finite_score (add_score (FZ z) a).
Proof. intros [q H]. unfold finite_score. cbn. rewrite H. eexists. reflexivity. Qed.

Lemma finite_add_reason (n : Note) (a : Acc) :
  finite_score a -> finite_score (add_reason n a).
Proof. exact (fun H => H). Qed.

Lemma finite_add_warning (n : Note) (a : Acc) :
  finite_score a -> finite_score (add_warning n a).
Proof. exact (fun H => H). Qed.

Lemma finite_add_block (n : Note) (a : Acc) :
  finite_score a -> finite_score (add_block n a).
Proof. exact (fun H => H). Qed.

Lemma finite_add_alert (x : Alert) (a : Acc) :
  finite_score a -> finite_score (add_alert x a).
Proof. exact (fun H => H). Qed.

Create HintDb score discriminated.
#[local] Hint Resolve finite_sub_score finite_add_score finite_add_reason
  finite_add_warning finite_add_block finite_add_alert : score.

(** The daily-drop penalty is a finite number of points, 60 at most, also
    for a change of [-inf]. *)
Lemma daily_drop_penalty_finite (pcp : pyfloat) (a : Acc) :
  finite_score a -> finite_score (daily_drop_penalty pcp a).
Proof.
  intros [q H]. unfold daily_drop_penalty.
  destruct (pcp <? FZ (-8))%F eqn:E; [| exists q; exact H].
  unfold finite_score. cbn [score add_warning add_block sub_score]. rewrite H.
  destruct pcp as [p | | |]; try discriminate E.
  - fsimpl. destruct (Qltb _ _); eexists; reflexivity.
  - eexists. reflexivity.
Qed.

Lemma debt_equity_penalty_finite (f : option Fundamentals) (a : Acc) :
  finite_score a -> finite_score (debt_equity_penalty f a).
Proof.
  intro H. unfold debt_equity_penalty.
  destruct (dte_of f) as [dte |]; [| exact H].
  destruct (dte_ratio_of dte >? FZ 10)%F; auto with score.
  destruct (dte_ratio_of dte >? FZ 3)%F; auto with score.
Qed.

Lemma debt_equity_legacy_finite (f : option Fundamentals) (a : Acc) :
  finite_score a -> finite_score (debt_equity_legacy f a).
Proof.
  intro H. unfold debt_equity_legacy.
  destruct (dte_of f) as [dte |]; [| exact H].
  destruct (dte >? FZ 300)%F; auto with score.
Qed.

Lemma debt_equity_percent_finite (f : option Fundamentals) (a : Acc) :
  finite_score a -> finite_score (debt_equity_percent f a).
Proof.
  intro H. unfold debt_equity_percent.
  destruct (dte_of f) as [dte |]; [| exact H].
  destruct (dte >? FZ 300)%F; auto with score.
Qed.

Lemma penalties_finite (f : option Fundamentals) (pcp : pyfloat) :
  finite_score (penalties f pcp).
Proof.
  unfold penalties.
  apply debt_equity_legacy_finite, debt_equity_penalty_finite,
    daily_drop_penalty_finite.
  exists 0. reflexivity.
Qed.

(** The third debt/equity check acts on the score alone. *)
Lemma debt_equity_percent_score (f : option Fundamentals) (a b : Acc) :
  score a = score b ->
  score (debt_equity_percent f a) = score (debt_equity_percent f b).
Proof.
  intro H. unfold debt_equity_percent.
  destruct (dte_of f) as [dte |]; [| exact H].
  destruct (dte >? FZ 300)%F; [| exact H].
  cbn. rewrite H. reflexivity.
Qed.

(** When the cascade falls through to the scoring pass, the score it
    hands over is the one of the three penalty stages and of the third
    debt/equity check: the entry block adds an alert only, and the
    volume divergence never fires. *)
Lemma cascade_score
    (ind : Indicators) (risk : RiskProfile) (ed : option Z)
    (f : option Fundamentals) (md : option MassiveDrop) (pcp : pyfloat) (a : Acc) :
  cascade ind risk ed f md pcp = inr a ->
  score a = score (debt_equity_percent f (penalties f pcp)).
Proof.
  unfold cascade. destruct md; [discriminate |].
  destruct (check_sell_trigger _ _ _); [discriminate |].
  rewrite no_divergence_without_price_change.
  destruct (check_financial_health_block f); [discriminate |].
  destruct (check_earnings_proximity ed); [discriminate |].
  destruct (check_entry_block (risk_reward_ratio risk)) eqn:Eb;
    destruct (risk_reward_ratio risk <? FZ 1)%F;
    destruct (volume_ratio ind <? FQ 1 2)%F; cbn [andb];
    try discriminate; intro H; injection H as <-;
    apply debt_equity_percent_score; reflexivity.
Qed.

Lemma cascade_finite
    (ind : Indicators) (risk : RiskProfile) (ed : option Z)
    (f : option Fundamentals) (md : option MassiveDrop) (pcp : pyfloat) (a : Acc) :
  cascade ind risk ed f md pcp = inr a -> finite_score a.
Proof.
  intro H. apply cascade_score in H.
  destruct (debt_equity_percent_finite f _ (penalties_finite f pcp)) as [q Hq].
  exists q. congruence.
Qed.

Lemma scoring_finite (ind : Indicators) (mc : MarketContext) (a : Acc) :
  finite_score a -> finite_score (scoring ind mc a).
Proof.
  intro H. unfold scoring.
  assert (H1 : finite_score (score_regime ind a))
    by (unfold score_regime; destruct (adx_regime ind); auto with score).
  assert (H2 : finite_score (score_trend ind (score_regime ind a)))
    by (unfold score_trend; destruct (trend_direction ind); auto with score).
  set (a2 := score_trend ind (score_regime ind a)) in *.
  assert (H3 : finite_score (score_rsi ind a2))
    by (unfold score_rsi; destruct (rsi_signal ind); auto with score).
  set (a3 := score_rsi ind a2) in *.
  assert (H4 : finite_score (score_stoch ind a3)).
  { unfold score_stoch. destruct (stoch_rsi_k ind >? FZ 85)%F; auto with score.
    destruct (stoch_rsi_signal ind); auto with score. }
  set (a4 := score_stoch ind a3) in *.
  assert (H5 : finite_score (score_macd ind a4))
    by (unfold score_macd; destruct (macd_cross ind); auto with score).
  set (a5 := score_macd ind a4) in *.
  assert (H6 : finite_score (score_vix mc a5))
    by (unfold score_vix; destruct (vix_high_volatility mc); auto with score).
  set (a6 := score_vix mc a5) in *.
  unfold level_warnings. cbv zeta.
  destruct (price_current ind >? _)%F; destruct (price_current ind <? _)%F;
    auto with score.
Qed.

(** ** C5: the debt/equity penalties *)

Lemma dte_of_finite (f : Fundamentals) (d : Q) :
  debt_to_equity f = Some (Fin d) ->
  dte_of (Some f) = if Qeqb d 0 then None else Some (Fin d).
Proof.
  intro H. unfold dte_of, truthy. rewrite H.
  destruct (Qeqb d 0); reflexivity.
Qed.

Ltac points :=
  cbn [score add_warning add_block sub_score add_score];
  match goal with H : score _ = Fin _ |- _ => rewrite H end;
  fsimpl; eexists; split; [reflexivity | qsolve].

Lemma debt_equity_penalty_points (f : Fundamentals) (d q0 : Q) (a : Acc) :
  debt_to_equity f = Some (Fin d) ->
  score a = Fin q0 ->
  exists q, score (debt_equity_penalty (Some f) a) = Fin q
            /\ q == q0 - ratio_penalty d.
Proof.
  intros Hf Ha. unfold debt_equity_penalty, ratio_penalty.
  rewrite (dte_of_finite f d Hf).
  destruct (Qeqb d 0) eqn:E0.
  - exists q0. split; [exact Ha |].
    destruct (Qltb 100 d) eqn:E100; qcase; qsolve.
  - unfold dte_ratio_of, FZ, inject_Z. fsimpl.
    destruct (Qltb 100 d) eqn:E100;
      [change (np_div (Fin d) (Fin 100)) with (Fin (Qred (d / 100))) |];
      fsimpl; unfold inject_Z; qcase; try points;
      exists q0; (split; [exact Ha | qsolve]).
Qed.

Lemma debt_equity_legacy_points (f : Fundamentals) (d q0 : Q) (a : Acc) :
  debt_to_equity f = Some (Fin d) ->
  score a = Fin q0 ->
  exists q, score (debt_equity_legacy (Some f) a) = Fin q
            /\ q == q0 - legacy_penalty d.
Proof.
  intros Hf Ha. unfold debt_equity_legacy, legacy_penalty.
  rewrite (dte_of_finite f d Hf).
  destruct (Qeqb d 0) eqn:E0.
  - exists q0. split; [exact Ha |]. qcase; qsolve.
  - fsimpl. unfold inject_Z. qcase; try points;
      exists q0; (split; [exact Ha | qsolve]).
Qed.

Lemma debt_equity_percent_points (f : Fundamentals) (d q0 : Q) (a : Acc) :
  debt_to_equity f = Some (Fin d) ->
  score a = Fin q0 ->
  exists q, score (debt_equity_percent (Some f) a) = Fin q
            /\ q == q0 - percent_penalty d.
Proof.
  intros Hf Ha. unfold debt_equity_percent, percent_penalty.
  rewrite (dte_of_finite f d Hf).
  destruct (Qeqb d 0) eqn:E0.
  - exists q0. split; [exact Ha |]. qcase; qsolve.
  - fsimpl. unfold inject_Z. qcase; try points;
      exists q0; (split; [exact Ha | qsolve]).
Qed.

(** C5, the claim as stated fails: for a raw debt/equity of 1120 the
    score that reaches the scoring pass has lost 110 points, not the
    60 of the two checks the claim counts; the third check, next to the
    financial-health block, takes 50 more, and the result shows it:
    confidence 0 (SELL) where 50 + 30 - 60 would give 20. *)
Lemma C5_debt_equity_counterexample :
  let ind := with_readings (FZ 50) NeutralZone (FZ 50) NeutralZone BullishCross
               (FZ 1) in
  let f := Some (leveraged (FZ 1120)) in
  score (penalties f (FZ 0)) = FZ (-60)
  /\ exists a d,
       cascade ind (risk_with_rr (FZ 2)) None f None (FZ 0) = inr a
       /\ score a = FZ (-110)
       /\ In (DtePercentWarning (FZ 1120)) (acc_warnings a)
       /\ generate_signal ind calm_market (risk_with_rr (FZ 2)) None f None (FZ 0)
          = Ok d
       /\ confidence d = 0%Z
       /\ signal d = SELL.
Proof.
  cbv zeta. split; [vm_compute; reflexivity |].
  eexists. eexists. split; [vm_compute; reflexivity |].
  split; [reflexivity |].
  split; [cbn; auto |].
  split; [vm_compute; reflexivity |]. split; reflexivity.
Qed.

(** C5, amended: 1120 and 11.2 both normalize to the ratio 11.2 and both
    lose exactly 30 points to the check on the ratio; the legacy check
    takes a further 30 for a raw value above 300, so that the score at
    the massive-drop check is the daily-drop score less these two; and
    when the cascade goes on to the scoring pass a third check has taken
    a further 50 for a raw value above 300, and nothing else. *)
Theorem C5_debt_equity_penalties :
  (dte_ratio_of (FZ 1120) = FQ 112 10 /\ dte_ratio_of (FQ 112 10) = FQ 112 10)
  /\ (score (debt_equity_penalty (Some (leveraged (FZ 1120))) acc0) = FZ (-30)
      /\ score (debt_equity_penalty (Some (leveraged (FQ 112 10))) acc0) = FZ (-30))
  /\ (forall (f : Fundamentals) (d : Q) (pcp : pyfloat),
        debt_to_equity f = Some (Fin d) ->
        exists q0 q,
          score (daily_drop_penalty pcp acc0) = Fin q0
          /\ score (penalties (Some f) pcp) = Fin q
          /\ q == q0 - ratio_penalty d - legacy_penalty d)
  /\ (forall ind risk ed (f : Fundamentals) (d : Q) pcp a,
        debt_to_equity f = Some (Fin d) ->
        cascade ind risk ed (Some f) None pcp = inr a ->
        exists q0 q,
          score (daily_drop_penalty pcp acc0) = Fin q0
          /\ score a = Fin q
          /\ q == q0 - ratio_penalty d - legacy_penalty d - percent_penalty d).
Proof.
  assert (Hpen : forall (f : Fundamentals) (d : Q) (pcp : pyfloat),
             debt_to_equity f = Some (Fin d) ->
             exists q0 q,
               score (daily_drop_penalty pcp acc0) = Fin q0
               /\ score (penalties (Some f) pcp) = Fin q
               /\ q == q0 - ratio_penalty d - legacy_penalty d).
  { intros f d pcp Hf.
    destruct (daily_drop_penalty_finite pcp acc0) as [q0 H0];
      [exists 0; reflexivity |].
    destruct (debt_equity_penalty_points f d q0 _ Hf H0) as [q1 [H1 E1]].
    destruct (debt_equity_legacy_points f d q1 _ Hf H1) as [q2 [H2 E2]].
    exists q0, q2. split; [exact H0 |]. split; [exact H2 |].
    rewrite E2, E1. reflexivity. }
  split; [split; vm_compute; reflexivity |].
  split; [split; vm_compute; reflexivity |].
  split; [exact Hpen |].
  intros ind risk ed f d pcp a Hf Hc.
  apply cascade_score in Hc.
  destruct (Hpen f d pcp Hf) as [q0 [q2 [H0 [H2 E2]]]].
  destruct (debt_equity_percent_points f d q2 _ Hf H2) as [q3 [H3 E3]].
  exists q0, q3. split; [exact H0 |]. split; [congruence |].
  rewrite E3, E2. reflexivity.
Qed.

(** The amended C5 at a raw debt/equity of 1120 on a quiet day: 30, 30
    and 50 points. *)
Lemma C5_debt_equity_penalties_witness :
  exists q,
    (forall a,
        cascade (with_readings (FZ 50) NeutralZone (FZ 50) NeutralZone
                   BullishCross (FZ 1))
          (risk_with_rr (FZ 2)) None (Some (leveraged (FZ 1120))) None (FZ 0)
        = inr a -> score a = Fin q)
    /\ q == 0 - 30 - 30 - 50.
Proof.
  destruct (proj2 (proj2 (proj2 C5_debt_equity_penalties))
              (with_readings (FZ 50) NeutralZone (FZ 50) NeutralZone
                 BullishCross (FZ 1))
              (risk_with_rr (FZ 2)) None (leveraged (FZ 1120)) 1120 (FZ 0)
              _ eq_refl eq_refl) as [q0 [q [H0 [H E]]]].
  exists q. split.
  - intros a Ha. vm_compute in Ha. injection Ha as <-. exact H.
  - injection H0 as <-. exact E.
Defined.

(** ** C4: confidence and final mapping *)

Lemma clamp_confidence_spec (s : Q) :
  exists q,
    clamp_confidence (Fin s) = Fin q
    /\ 0 <= q <= 100
    /\ (50 + s <= 0 -> q == 0)
    /\ (100 <= 50 + s -> q == 100)
    /\ (0 <= 50 + s <= 100 -> q == 50 + s).
Proof.
  unfold clamp_confidence. fsimpl. unfold inject_Z.
  qcase; fsimpl; unfold inject_Z; qcase;
    eexists; (split; [reflexivity |]); qsolve; repeat split; intros; lra.
Qed.

Lemma py_int_nonnegative (q : Q) : 0 <= q -> py_int (Fin q) = Ok (Qfloor q).
Proof.
  intro H. unfold py_int.
  destruct (Qltb q 0) eqn:E; [| reflexivity]. qprops. lra.
Qed.

Lemma final_signal_spec (q : Q) (regime : Regime) :
  (70 <= q -> regime = TRENDING -> final_signal (Fin q) regime = BUY)
  /\ (q <= 30 -> final_signal (Fin q) regime = SELL)
  /\ (50 <= q -> q < 70 \/ regime <> TRENDING ->
      final_signal (Fin q) regime = HOLD)
  /\ (30 < q -> q < 50 -> final_signal (Fin q) regime = WAIT).
Proof.
  unfold final_signal. fsimpl. unfold inject_Z.
  repeat split; intros; qcase; qprops;
    destruct regime; cbn [andb]; try reflexivity; try lra;
    try congruence;
    match goal with H : _ \/ _ |- _ => destruct H; [lra | congruence] end.
Qed.

(** C4, the claim as stated fails: after a daily fall of 8.9% (penalty
    44.5) with a bullish trend, an oversold RSI and a bearish MACD the
    clamped value is 30.5; the returned confidence is its integer part
    30, and the returned signal is WAIT although the mapping applied to
    the returned confidence gives SELL. *)
Lemma C4_confidence_counterexample :
  let ind := with_readings (FZ 25) Oversold (FZ 50) NeutralZone BearishCross
               (FZ 1) in
  exists a d,
    cascade ind (risk_with_rr (FZ 2)) None None None (FQ (-89) 10) = inr a
    /\ clamp_confidence (score (scoring ind calm_market a)) = FQ 61 2
    /\ generate_signal ind calm_market (risk_with_rr (FZ 2)) None None None
         (FQ (-89) 10) = Ok d
    /\ confidence d = 30%Z
    /\ FZ (confidence d) <> clamp_confidence (score (scoring ind calm_market a))
    /\ signal d = WAIT
    /\ final_signal (FZ (confidence d)) (adx_regime ind) = SELL.
Proof.
  cbv zeta. eexists. eexists.
  split; [vm_compute; reflexivity |].
  split; [vm_compute; reflexivity |].
  split; [vm_compute; reflexivity |].
  split; [reflexivity |].
  split; [vm_compute; discriminate |].
  split; [reflexivity | vm_compute; reflexivity].
Qed.

(** C4, amended: when the cascade falls through to the scoring pass the
    call returns; with [c] the final score plus 50 clamped to [0, 100],
    the returned confidence is the integer part of [c], and the signal
    is BUY if [c >= 70] in a TRENDING regime, otherwise SELL if
    [c <= 30], otherwise HOLD if [c >= 50], otherwise WAIT: the mapping
    reads [c] itself, before the truncation. *)
Theorem C4_confidence_and_signal
    (ind : Indicators) (mc : MarketContext) (risk : RiskProfile)
    (ed : option Z) (f : option Fundamentals) (md : option MassiveDrop)
    (pcp : pyfloat) (a : Acc) :
  cascade ind risk ed f md pcp = inr a ->
  exists s c d,
    score (scoring ind mc a) = Fin s
    /\ 0 <= c <= 100
    /\ (50 + s <= 0 -> c == 0)
    /\ (100 <= 50 + s -> c == 100)
    /\ (0 <= 50 + s <= 100 -> c == 50 + s)
    /\ generate_signal ind mc risk ed f md pcp = Ok d
    /\ confidence d = Qfloor c
    /\ (70 <= c -> adx_regime ind = TRENDING -> signal d = BUY)
    /\ (c <= 30 -> signal d = SELL)
    /\ (50 <= c -> c < 70 \/ adx_regime ind <> TRENDING -> signal d = HOLD)
    /\ (30 < c -> c < 50 -> signal d = WAIT).
Proof.
  intro Hc.
  destruct (scoring_finite ind mc a (cascade_finite _ _ _ _ _ _ _ Hc)) as [s Hs].
  destruct (clamp_confidence_spec s) as [c [Hcl [Hr [H0 [H100 Hmid]]]]].
  unfold generate_signal. rewrite Hc. cbv zeta. rewrite Hs, Hcl.
  rewrite (py_int_nonnegative c (proj1 Hr)). cbn [bind].
  exists s, c. eexists.
  split; [reflexivity |]. split; [exact Hr |].
  split; [exact H0 |]. split; [exact H100 |]. split; [exact Hmid |].
  split; [reflexivity |]. split; [reflexivity |].
  cbn [signal]. apply final_signal_spec.
Qed.

(** The amended C4 at the input of the counterexample: [c] is 30.5, the
    confidence 30 and the signal WAIT. *)
Lemma C4_confidence_and_signal_witness :
  exists c d,
    c == 61 # 2
    /\ generate_signal
         (with_readings (FZ 25) Oversold (FZ 50) NeutralZone BearishCross (FZ 1))
         calm_market (risk_with_rr (FZ 2)) None None None (FQ (-89) 10) = Ok d
    /\ confidence d = Qfloor c
    /\ signal d = WAIT.
Proof.
  destruct (C4_confidence_and_signal
              (with_readings (FZ 25) Oversold (FZ 50) NeutralZone BearishCross
                 (FZ 1))
              calm_market (risk_with_rr (FZ 2)) None None None (FQ (-89) 10)
              _ eq_refl)
    as [s [c [d [Hs [Hr [_ [_ [Hmid [Hg [Hconf [_ [_ [_ Hwait]]]]]]]]]]]]].
  vm_compute in Hs. injection Hs as <-.
  assert (Hc : c == 61 # 2) by (apply Hmid; split; lra).
  exists c, d. split; [exact Hc |]. split; [exact Hg |].
  split; [exact Hconf |]. apply Hwait; rewrite Hc; reflexivity.
Defined.

(** ** C3: ranges of the indicator values *)

Import Indicator.

(** C3 fails on the code.  On forty equal bars (no price movement) the
    average gain and loss are both zero and so is the true range: RSI,
    Stochastic-RSI K and D and ADX come out as [NaN], which lies in no
    range, and the ATR is 0, not above it.  On twenty bars of a rising
    market the RSI is 100 and the ATR 2, yet the ADX and the
    Stochastic-RSI, whose second window needs 27 bars and more, are
    [NaN] again.  The Donchian lower bound is at least 0.01 in each. *)
Theorem C3_indicator_ranges_fail :
  (exists ind,
      calculate_all_indicators (flat_bars 100 40) = Ok ind
      /\ rsi_value ind = NaN /\ stoch_rsi_k ind = NaN /\ stoch_rsi_d ind = NaN
      /\ adx_value ind = NaN /\ atr_value ind = FZ 0
      /\ (FZ 0 <=? rsi_value ind)%F = false
      /\ (FZ 0 <=? stoch_rsi_k ind)%F = false
      /\ (FZ 0 <=? stoch_rsi_d ind)%F = false
      /\ (adx_value ind >=? FZ 0)%F = false
      /\ (atr_value ind >? FZ 0)%F = false
      /\ (donchian_lower ind >=? FQ 1 100)%F = true)
  /\ (exists ind,
      calculate_all_indicators (rising_bars 20) = Ok ind
      /\ rsi_value ind = FZ 100 /\ atr_value ind = FZ 2
      /\ stoch_rsi_k ind = NaN /\ stoch_rsi_d ind = NaN
      /\ adx_value ind = NaN
      /\ (adx_value ind >=? FZ 0)%F = false
      /\ (donchian_lower ind >=? FQ 1 100)%F = true).
Proof.
  split; eexists; (split; [vm_compute; reflexivity |]); repeat split.
Qed.

(** ** C9: optimize_entry *)

Import EntryOptimizer.

(** C9 fails on the code at the 2% boundary.  With the price at 100 and
    EMA 20 at 98, exactly 2% below, the test [ema_20 < current_price *
    0.98] is false: no candidate is collected and the call returns the
    unoptimized "already at support" result, although the EMA 20 entry
    the claim expects would pass the loop with SL 95, TP 110 and
    R/R 4. *)
Theorem C9_boundary_candidate_rejected :
  potential_entries (FZ 100) (FZ 98) (FZ 200) (FZ 99) = Ok []
  /\ (exists r,
        optimize_entry default_target_rr
          (FZ 100) (FZ 98) (FZ 200) (FZ 99) (FZ 110) (FZ 2) (FZ 1) = Ok r
        /\ outcome r = AtSupport
        /\ optimized r = false
        /\ entry_level r = None
        /\ ideal_entry r = FZ 100)
  /\ (exists b,
        try_entry default_target_rr (FZ 110) (FZ 2)
          {| level := EMA20; price := FZ 98; distance_percent := FZ 2 |}
        = Ok (Some b)
        /\ best_sl b = FZ 95 /\ best_tp b = FZ 110 /\ best_rr b = FZ 4).
Proof.
  split; [vm_compute; reflexivity |].
  split; eexists; (split; [vm_compute; reflexivity |]); repeat split.
Qed.

(** The worked example of the specification holds, whatever EMA 50 is:
    price 100, EMA 20 at 95, support 90, resistance 110, ATR 2 and a
    current R/R of 1 select EMA 20 with R/R (110-95)/(95-92) = 5. *)
Lemma optimize_entry_worked_example (ema_50 : pyfloat) :
  exists r,
    optimize_entry default_target_rr
      (FZ 100) (FZ 95) ema_50 (FZ 90) (FZ 110) (FZ 2) (FZ 1) = Ok r
    /\ outcome r = Success
    /\ entry_level r = Some EMA20
    /\ ideal_entry r = FZ 95
    /\ ideal_sl r = FZ 92
    /\ ideal_tp r = FZ 110
    /\ ideal_rr r = FZ 5.
Proof.
  unfold optimize_entry.
  change (FZ 1 >=? default_target_rr)%F with false. cbv iota.
  unfold potential_entries.
  change (candidate EMA20 (FZ 95) (FZ 100) (FQ 98 100))
    with (Ok [ {| level := EMA20; price := FZ 95; distance_percent := FZ 5 |} ]).
  change (candidate SupportPivot (FZ 90) (FZ 100) (FQ 97 100))
    with (Ok [ {| level := SupportPivot; price := FZ 90;
                  distance_percent := FZ 10 |} ]).
  cbn [bind].
  assert (H50 : candidate EMA50 ema_50 (FZ 100) (FQ 95 100) = Ok []
                \/ exists d, candidate EMA50 ema_50 (FZ 100) (FQ 95 100)
                             = Ok [ {| level := EMA50; price := ema_50;
                                       distance_percent := d |} ]
                             /\ (d <? FZ 5)%F = false).
  { unfold candidate.
    destruct (ema_50 <? FZ 100 * FQ 95 100)%F eqn:E; [| left; reflexivity].
    right. destruct ema_50 as [e | | |]; try discriminate E.
    - eexists. split; [reflexivity |].
      change (FZ 100 * FQ 95 100)%F with (FZ 95) in E.
      fsimpl in E. cbn [fsub FZ np_div].
      change (Qeqb (inject_Z 100) 0) with false. cbv iota.
      fsimpl. unfold inject_Z in *. apply Qltb_false. qsolve.
      assert (Hx : (100 - e) / 100 * 100 == 100 - e) by field.
      rewrite Hx. lra.
    - eexists. split; reflexivity. }
  destruct H50 as [-> | [d [-> Hd]]]; cbn [bind app].
  - eexists. split; [vm_compute; reflexivity |]. repeat split.
  - unfold sort_by_distance. cbn [fold_right insert_by_distance distance_percent].
    destruct (FZ 10 <? d)%F; cbn [insert_by_distance distance_percent];
      rewrite Hd;
      (eexists; split; [vm_compute; reflexivity |]); repeat split.
Qed.

(** ** Rounding keeps a value on its side of a grid point *)

Lemma round_half_even_lower (z : Z) (q : Q) :
  inject_Z z <= q -> (z <= round_half_even q)%Z.
Proof.
  intro H. unfold round_half_even.
  assert (Hf : (z <= Qfloor q)%Z).
  { rewrite <- (Qfloor_Z z). apply Qfloor_resp_le. exact H. }
  destruct (q - inject_Z (Qfloor q) ?= 1 # 2); [destruct (Z.even _) | |]; lia.
Qed.

Lemma round_half_even_upper (z : Z) (q : Q) :
  q <= inject_Z z -> (round_half_even q <= z)%Z.
Proof.
  intro H. unfold round_half_even.
  pose proof (Qfloor_le q) as Hfl.
  assert (Hf : (Qfloor q <= z)%Z).
  { rewrite <- (Qfloor_Z z). apply Qfloor_resp_le. exact H. }
  assert (Hstep : inject_Z (Qfloor q) < q -> (Qfloor q + 1 <= z)%Z).
  { intro Hlt. assert (Hz : inject_Z (Qfloor q) < inject_Z z) by lra.
    rewrite <- Zlt_Qlt in Hz. lia. }
  destruct (q - inject_Z (Qfloor q) ?= 1 # 2) eqn:E.
  - apply Qeq_alt in E. destruct (Z.even _); [lia | apply Hstep; lra].
  - exact Hf.
  - apply Qgt_alt in E. apply Hstep. lra.
Qed.

Lemma Qround_digits_lower (z : Z) (scale : positive) (q : Q) :
  z # scale <= q -> z # scale <= Qround_digits q scale.
Proof.
  intro H. unfold Qround_digits. rewrite Qred_correct.
  assert (Hs : inject_Z z <= q * inject_Z (Zpos scale)).
  { unfold Qle in *. cbn in *. nia. }
  apply round_half_even_lower in Hs.
  unfold Qle. cbn. nia.
Qed.

Lemma Qround_digits_upper (z : Z) (scale : positive) (q : Q) :
  q <= z # scale -> Qround_digits q scale <= z # scale.
Proof.
  intro H. unfold Qround_digits. rewrite Qred_correct.
  assert (Hs : q * inject_Z (Zpos scale) <= inject_Z z).
  { unfold Qle in *. cbn in *. nia. }
  apply round_half_even_upper in Hs.
  unfold Qle. cbn. nia.
Qed.

(** ** The floor of the Donchian channel *)

Lemma iloc_last_In (s : Series) (x : pyfloat) : iloc_last s = Ok x -> In x s.
Proof.
  unfold iloc_last. destruct (rev s) as [| y r] eqn:E; [discriminate |].
  intro H. injection H as <-. apply in_rev. rewrite E. left. reflexivity.
Qed.

Lemma map_result_validate_price (m : pyfloat) (s : Series) :
  map_result (fun x => validate_price (PyFloat x) m) s
  = Ok (map (fun x => if is_nan x then m else py_max m x) s).
Proof.
  induction s as [| x r IH]; [reflexivity |].
  cbn [map_result map]. rewrite validate_price_float, IH. reflexivity.
Qed.

(** A validated price is at least the (finite) minimum. *)
Lemma validated_at_least_min (m : Q) (x : pyfloat) :
  ((if is_nan x then Fin m else py_max (Fin m) x) >=? Fin m)%F = true.
Proof.
  destruct x as [q | | |]; fsimpl; try reflexivity;
    try (destruct (Qltb m q) eqn:E; fsimpl);
    apply Qleb_true; qsolve.
Qed.

Lemma round2_at_least_cent (x : pyfloat) :
  (x >=? FQ 1 100)%F = true -> (round2 x >=? FQ 1 100)%F = true.
Proof.
  destruct x as [q | | |]; try discriminate; [| reflexivity].
  unfold round2, py_round. change (FQ 1 100) with (Fin (1 # 100)).
  fsimpl. intro H. qprops. apply Qleb_true.
  apply Qround_digits_lower. exact H.
Qed.

(** The lower bound of the channel is at least 0.01 whenever the channel
    is returned, whatever the lows are. *)
Lemma donchian_channel_floor (df : DataFrame) (period : nat) (dc : Donchian) :
  calculate_donchian_channel df period = Ok dc ->
  (dc_lower dc >=? FQ 1 100)%F = true.
Proof.
  unfold calculate_donchian_channel.
  rewrite !map_result_validate_price. cbn [bind].
  destruct (iloc_last (map _ (rolling_max period (col bar_high df))))
    as [u |]; [| discriminate]. cbn [bind].
  destruct (iloc_last (map _ (rolling_min period (col bar_low df))))
    as [l |] eqn:El; [| discriminate]. cbn [bind].
  match goal with
  | |- bind ?x _ = _ -> _ => destruct x as [m |]; [| discriminate]
  end. cbn [bind].
  intro H. injection H as <-. cbn [dc_lower].
  apply round2_at_least_cent.
  apply iloc_last_In, in_map_iff in El. destruct El as [y [<- _]].
  apply (validated_at_least_min (1 # 100)).
Qed.

(** ** generate_signal is total *)

Lemma check_sell_trigger_alert (r k v : pyfloat) (x : Alert) :
  check_sell_trigger r k v = Some x -> x = SELL_TRIGGER r k v.
Proof.
  unfold check_sell_trigger. destruct (_ && _); congruence.
Qed.

Lemma check_earnings_proximity_alert (ed : option Z) (x : Alert) :
  check_earnings_proximity ed = Some x -> exists d, x = EARNINGS_WARNING d.
Proof.
  unfold check_earnings_proximity. destruct ed as [d |]; [| discriminate].
  destruct (d <=? _)%Z; [| discriminate].
  intro H. injection H as <-. exists d. reflexivity.
Qed.

(** Every override carries one of the fixed confidences 10, 85, 15, 20. *)
Lemma cascade_override_confidence
    (ind : Indicators) (risk : RiskProfile) (ed : option Z)
    (f : option Fundamentals) (md : option MassiveDrop) (pcp : pyfloat)
    (d : Decision) :
  cascade ind risk ed f md pcp = inl d ->
  In (confidence d) [10; 85; 15; 20]%Z.
Proof.
  unfold cascade. destruct md; [intro H; injection H as <-; cbn; auto |].
  destruct (check_sell_trigger _ _ _) as [st |] eqn:Es.
  { apply check_sell_trigger_alert in Es. subst st.
    intro H. injection H as <-. cbn. auto. }
  rewrite no_divergence_without_price_change.
  destruct (check_financial_health_block f);
    [intro H; injection H as <-; cbn; auto |].
  destruct (check_earnings_proximity ed) as [ea |] eqn:Ee.
  { apply check_earnings_proximity_alert in Ee. destruct Ee as [n ->].
    intro H. injection H as <-. cbn. auto. }
  destruct (check_entry_block (risk_reward_ratio risk));
    destruct (risk_reward_ratio risk <? FZ 1)%F;
    destruct (volume_ratio ind <? FQ 1 2)%F; cbn [andb];
    intro H; try discriminate H; injection H as <-; cbn; auto 6.
Qed.

(** X3: [generate_signal] returns a decision on every input, [NaN] and
    infinite readings included, and its confidence lies in [0, 100]. *)
Theorem generate_signal_total
    (ind : Indicators) (mc : MarketContext) (risk : RiskProfile)
    (ed : option Z) (f : option Fundamentals) (md : option MassiveDrop)
    (pcp : pyfloat) :
  exists d,
    generate_signal ind mc risk ed f md pcp = Ok d
    /\ (0 <= confidence d <= 100)%Z.
Proof.
  unfold generate_signal.
  destruct (cascade ind risk ed f md pcp) as [d | a] eqn:Hc.
  - exists d. split; [reflexivity |].
    apply cascade_override_confidence in Hc. cbn in Hc.
    intuition lia.
  - destruct (scoring_finite ind mc a (cascade_finite _ _ _ _ _ _ _ Hc)) as [s Hs].
    destruct (clamp_confidence_spec s) as [c [Hcl [[Hlo Hhi] _]]].
    cbv zeta. rewrite Hs, Hcl, (py_int_nonnegative c Hlo). cbn [bind].
    eexists. split; [reflexivity |]. cbn [confidence].
    split.
    + rewrite <- (Qfloor_Z 0). apply Qfloor_resp_le. exact Hlo.
    + rewrite <- (Qfloor_Z 100). apply Qfloor_resp_le. exact Hhi.
Qed.

(** ** What the level validators guarantee *)

Lemma Ok_inj {A : Type} (a b : A) : Ok a = Ok b -> a = b.
Proof. intro H. injection H as H. exact H. Qed.

Lemma Some_inj {A : Type} (a b : A) : Some a = Some b -> a = b.
Proof. intro H. injection H as H. exact H. Qed.

Ltac fcases :=
  repeat (fsimpl; unfold inject_Z;
          match goal with
          | |- context [Qltb ?a ?b] => destruct (Qltb a b) eqn:?
          | |- context [Qleb ?a ?b] => destruct (Qleb a b) eqn:?
          end).

(** X5: with a positive ATR and an entry above one cent the validated
    stop-loss is strictly below the entry, whatever stop was proposed. *)
Theorem validate_stop_loss_below (sl r : pyfloat) (p a : Q) :
  1 # 100 < p -> 0 < a ->
  validate_stop_loss sl (Fin p) (Fin a) = Ok r ->
  (r <? Fin p)%F = true.
Proof.
  intros Hp Ha. unfold validate_stop_loss.
  rewrite validate_price_float. cbn [bind]. rewrite validate_price_float.
  unfold default_min_price.
  destruct sl as [q | | |]; fcases; fsimpl;
    intro H; apply Ok_inj in H; subst r; fsimpl; apply Qltb_true; qsolve.
Qed.

Lemma validate_stop_loss_below_witness :
  exists r, validate_stop_loss (FZ 120) (FZ 100) (FZ 2) = Ok r
            /\ (r <? FZ 100)%F = true.
Proof.
  destruct (validate_stop_loss_returns (FZ 120) (FZ 100) (FZ 2)) as [r H].
  exists r. split; [exact H |].
  apply (validate_stop_loss_below (FZ 120) r 100 2); [lra | lra | exact H].
Defined.

(** X6: with a positive ATR the validated take-profit is strictly
    above the entry, whatever target was proposed. *)
Theorem validate_take_profit_above (tp r : pyfloat) (p a : Q) :
  0 < a ->
  validate_take_profit tp (Fin p) (Fin a) = Ok r ->
  (r >? Fin p)%F = true.
Proof.
  intros Ha. unfold validate_take_profit.
  rewrite validate_price_float. cbn [bind]. unfold default_min_price.
  destruct tp as [q | | |]; fcases; fsimpl;
    intro H; apply Ok_inj in H; subst r; fsimpl; try reflexivity;
    apply Qltb_true; qsolve.
Qed.

Lemma validate_take_profit_above_witness :
  exists r, validate_take_profit (FZ 90) (FZ 100) (FZ 2) = Ok r
            /\ (r >? FZ 100)%F = true.
Proof.
  destruct (validate_take_profit_returns (FZ 90) (FZ 100) (FZ 2)) as [r H].
  exists r. split; [exact H |].
  apply (validate_take_profit_above (FZ 90) r 100 2); [lra | exact H].
Defined.

(** With a zero ATR the recomputed take-profit is the entry itself: the
    guarantee above needs the positive ATR. *)
Lemma validate_take_profit_flat :
  validate_take_profit (FZ 100) (FZ 100) (FZ 0) = Ok (FZ 100).
Proof. reflexivity. Qed.

(** ** The entry optimizer: closest first, first acceptable wins *)

(** A pullback level becomes a candidate exactly when it is strictly
    below its fraction of the price. *)
Lemma candidate_spec (lv : Level) (e p factor : pyfloat) (cs : list Candidate) :
  candidate lv e p factor = Ok cs ->
  (e <? p * factor)%F = true /\ (exists d, cs = [mkCandidate lv e d])
  \/ (e <? p * factor)%F = false /\ cs = [].
Proof.
  unfold candidate. destruct (e <? p * factor)%F.
  - destruct (py_div _ _) as [q |]; [| discriminate].
    cbn [bind]. intro H. apply Ok_inj in H. subst cs.
    left. split; [reflexivity |]. eexists. reflexivity.
  - intro H. apply Ok_inj in H. subst cs. right. split; reflexivity.
Qed.

Lemma insert_by_distance_perm (c : Candidate) (l : list Candidate) :
  Permutation (c :: l) (insert_by_distance c l).
Proof.
  induction l as [| d r IH]; [apply Permutation_refl |].
  cbn [insert_by_distance].
  destruct (distance_percent d <? distance_percent c)%F.
  - eapply Permutation_trans; [apply perm_swap |].
    apply perm_skip. exact IH.
  - apply Permutation_refl.
Qed.

(** Sorting keeps the candidates. *)
Lemma sort_by_distance_perm (l : list Candidate) :
  Permutation l (sort_by_distance l).
Proof.
  induction l as [| c r IH]; [apply Permutation_refl |].
  cbn [sort_by_distance fold_right].
  eapply Permutation_trans; [| apply insert_by_distance_perm].
  apply perm_skip. exact IH.
Qed.

Lemma closer_total (c d : Candidate) :
  finite_distance c -> finite_distance d ->
  (distance_percent d <? distance_percent c)%F = false -> closer c d.
Proof.
  intros [x Hx] [y Hy]. unfold closer. rewrite Hx, Hy. fsimpl.
  intro H. apply Qleb_true. qsolve.
Qed.

Lemma closer_of_lt (c d : Candidate) :
  (distance_percent d <? distance_percent c)%F = true -> closer d c.
Proof.
  unfold closer.
  destruct (distance_percent d) as [x | | |],
           (distance_percent c) as [y | | |]; fsimpl;
    try discriminate; try reflexivity.
  intro H. apply Qleb_true. qsolve.
Qed.

Lemma insert_by_distance_sorted (c : Candidate) (l : list Candidate) :
  finite_distance c -> Forall finite_distance l ->
  Sorted closer l -> Sorted closer (insert_by_distance c l).
Proof.
  intros Hc Hl Hs. induction l as [| d r IH].
  - repeat constructor.
  - cbn [insert_by_distance].
    apply Forall_cons_iff in Hl. destruct Hl as [Hd Hr].
    apply Sorted_inv in Hs. destruct Hs as [Hs Hhd].
    destruct (distance_percent d <? distance_percent c)%F eqn:E.
    + constructor; [apply IH; assumption |].
      destruct r as [| e r']; cbn [insert_by_distance].
      * constructor. apply closer_of_lt. exact E.
      * destruct (distance_percent e <? distance_percent c)%F.
        -- constructor. apply HdRel_inv in Hhd. exact Hhd.
        -- constructor. apply closer_of_lt. exact E.
    + constructor; [constructor; assumption |].
      constructor. apply closer_total; assumption.
Qed.

(** X10: sorting puts the candidates closest to the price first. *)
Lemma sort_by_distance_sorted (l : list Candidate) :
  Forall finite_distance l -> Sorted closer (sort_by_distance l).
Proof.
  induction l as [| c r IH]; [constructor |].
  intro H. apply Forall_cons_iff in H. destruct H as [Hc Hr].
  cbn [sort_by_distance fold_right].
  apply insert_by_distance_sorted; [exact Hc | | apply IH; exact Hr].
  eapply Permutation_Forall; [apply sort_by_distance_perm | exact Hr].
Qed.

(** The loop returns the entry of the first candidate, in list order,
    that passes, and none when no candidate passes. *)
Lemma first_entry_some (t res atr : pyfloat) (l : list Candidate) (b : Best) :
  first_entry t res atr l = Ok (Some b) ->
  exists l1 c l2,
    l = l1 ++ c :: l2
    /\ Forall (fun c' => try_entry t res atr c' = Ok None) l1
    /\ try_entry t res atr c = Ok (Some b).
Proof.
  induction l as [| c r IH]; [discriminate |].
  cbn [first_entry].
  destruct (try_entry t res atr c) as [[b' |] |] eqn:E; cbn [bind];
    [| | discriminate].
  - intro H. apply Ok_inj in H. injection H as ->.
    exists [], c, r. repeat split; [constructor | exact E].
  - intro H. destruct (IH H) as [l1 [c' [l2 [-> [Hf Ht]]]]].
    exists (c :: l1), c', l2. repeat split; [constructor; assumption | exact Ht].
Qed.

Lemma first_entry_none (t res atr : pyfloat) (l : list Candidate) :
  first_entry t res atr l = Ok None ->
  Forall (fun c => try_entry t res atr c = Ok None) l.
Proof.
  induction l as [| c r IH]; [constructor |].
  cbn [first_entry].
  destruct (try_entry t res atr c) as [[b' |] |] eqn:E; cbn [bind];
    try discriminate.
  intro H. constructor; [exact E | apply IH; exact H].
Qed.

(** What passing the loop body means for finite numbers: the stop is
    1.5 ATR under the candidate, or 3% under it when that would be at or
    under one cent; the risk must be positive and the R/R to the
    resistance at least the target. *)
Lemma try_entry_finite (t res a e d : Q) (lv : Level) (b : Best) :
  try_entry (Fin t) (Fin res) (Fin a) (mkCandidate lv (Fin e) (Fin d))
  = Ok (Some b) ->
  exists sl rr,
    best_level b = lv /\ best_price b = Fin e
    /\ best_sl b = Fin sl /\ best_tp b = Fin res /\ best_rr b = Fin rr
    /\ (e - a * (3 # 2) <= 1 # 100 -> sl == e * (97 # 100))
    /\ (1 # 100 < e - a * (3 # 2) -> sl == e - a * (3 # 2))
    /\ 0 < e - sl
    /\ rr == (res - e) / (e - sl)
    /\ t <= rr.
Proof.
  unfold try_entry. cbn [price level distance_percent].
  fsimpl. unfold inject_Z.
  destruct (Qleb _ _) eqn:Esl; fsimpl; unfold inject_Z;
    (destruct (Qltb 0 _) eqn:Erisk; [| discriminate]);
    unfold py_div;
    (destruct (Qeqb _ 0) eqn:Ez; [discriminate |]);
    cbn [bind np_div]; rewrite Ez; fsimpl;
    (destruct (Qleb t _) eqn:Et; [| discriminate]);
    intro H; apply Ok_inj, Some_inj in H; subst b;
    eexists; eexists; cbn [best_level best_price best_sl best_tp best_rr];
    (split; [reflexivity |]); (split; [reflexivity |]);
    (split; [reflexivity |]); (split; [reflexivity |]);
    (split; [reflexivity |]); qprops; qnorm;
    (split; [intro; try reflexivity; lra |]);
    (split; [intro; try reflexivity; lra |]);
    (split; [lra |]); (split; [reflexivity | lra]).
Qed.

Lemma try_entry_fields (t res atr : pyfloat) (c : Candidate) (b : Best) :
  try_entry t res atr c = Ok (Some b) ->
  best_level b = level c /\ best_price b = price c /\ best_tp b = res
  /\ best_distance b = distance_percent c
  /\ (best_price b - best_sl b >? FZ 0)%F = true
  /\ (best_rr b >=? t)%F = true.
Proof.
  unfold try_entry. cbv zeta.
  destruct (_ >? FZ 0)%F eqn:Er; [| discriminate].
  destruct (py_div _ _) as [rr |]; [| discriminate]. cbn [bind].
  destruct (rr >=? t)%F eqn:Et; [| discriminate].
  intro H. apply Ok_inj, Some_inj in H. subst b. cbn.
  repeat split; assumption.
Qed.

(** X7: when [optimize_entry] reports success, the level it returns is
    one of the collected candidates; every candidate sorted before it, that
    is closer to the price, failed the R/R test, and it passed: its R/R
    to the resistance reaches the target. *)
Theorem optimize_entry_success
    (t p e20 e50 sup res atr rr : pyfloat) (r : EntryResult) :
  optimize_entry t p e20 e50 sup res atr rr = Ok r ->
  outcome r = Success ->
  exists es l1 c l2 b,
    potential_entries p e20 e50 sup = Ok es
    /\ sort_by_distance es = l1 ++ c :: l2
    /\ Forall (fun c' => try_entry t res atr c' = Ok None) l1
    /\ try_entry t res atr c = Ok (Some b)
    /\ entry_level r = Some (level c)
    /\ ideal_entry r = round2 (price c)
    /\ ideal_sl r = round2 (best_sl b)
    /\ ideal_tp r = round2 res
    /\ ideal_rr r = round2 (best_rr b)
    /\ (best_rr b >=? t)%F = true.
Proof.
  unfold optimize_entry.
  destruct (rr >=? t)%F.
  { intro H. apply Ok_inj in H. subst r. discriminate. }
  destruct (potential_entries p e20 e50 sup) as [es |]; [| discriminate].
  cbn [bind].
  destruct (sort_by_distance es) as [| closest rest] eqn:Es.
  { intro H. apply Ok_inj in H. subst r. discriminate. }
  destruct (first_entry t res atr (closest :: rest)) as [[b |] |] eqn:Ef;
    cbn [bind]; [| | discriminate].
  - intros H _. apply Ok_inj in H. subst r.
    destruct (first_entry_some _ _ _ _ _ Ef) as [l1 [c [l2 [El [Hfail Hpass]]]]].
    destruct (try_entry_fields _ _ _ _ _ Hpass) as [Hl [Hp [Ht [_ [_ Hrr]]]]].
    exists es, l1, c, l2, b.
    cbn [entry_level ideal_entry ideal_sl ideal_tp ideal_rr].
    rewrite Hl, Hp, Ht.
    repeat split; try reflexivity; try assumption. congruence.
  - match goal with
    | |- bind ?x _ = _ -> _ => destruct x; [| discriminate]
    end.
    cbn [bind]. intro H. apply Ok_inj in H. subst r. discriminate.
Qed.

(** The result of the worked example read through the theorem: the
    candidate returned is EMA 20 at 95 with R/R 5. *)
Lemma optimize_entry_success_witness :
  exists r c b,
    optimize_entry default_target_rr
      (FZ 100) (FZ 95) (FZ 94) (FZ 90) (FZ 110) (FZ 2) (FZ 1) = Ok r
    /\ entry_level r = Some (level c)
    /\ try_entry default_target_rr (FZ 110) (FZ 2) c = Ok (Some b)
    /\ ideal_rr r = round2 (best_rr b)
    /\ ideal_rr r = FZ 5.
Proof.
  destruct (optimize_entry default_target_rr
              (FZ 100) (FZ 95) (FZ 94) (FZ 90) (FZ 110) (FZ 2) (FZ 1))
    as [r |] eqn:E; [| vm_compute in E; discriminate E].
  assert (Ho : outcome r = Success)
    by (vm_compute in E; apply Ok_inj in E; subst r; reflexivity).
  destruct (optimize_entry_success _ _ _ _ _ _ _ _ r E Ho)
    as [es [l1 [c [l2 [b [_ [_ [_ [Hpass [Hl [_ [_ [_ [Hrr _]]]]]]]]]]]]]].
  exists r, c, b. split; [reflexivity |].
  split; [exact Hl |]. split; [exact Hpass |]. split; [exact Hrr |].
  vm_compute in E. apply Ok_inj in E. subst r. reflexivity.
Defined.

(** ** Rolling windows, element by element *)

Lemma finite_values_map (l : list pyfloat) (qs : list Q) :
  finite_values l = Some qs -> l = map Fin qs.
Proof.
  revert qs. induction l as [| x r IH]; intros qs H.
  - apply Some_inj in H. subst qs. reflexivity.
  - destruct x as [q | | |]; try discriminate H.
    cbn [finite_values] in H.
    destruct (finite_values r) as [qs' |]; [| discriminate H].
    apply Some_inj in H. subst qs. cbn [map]. rewrite (IH qs' eq_refl).
    reflexivity.
Qed.

Lemma In_firstn_skipn {A : Type} (n k : nat) (l : list A) (x : A) :
  In x (firstn n (skipn k l)) -> In x l.
Proof.
  intro H.
  rewrite <- (firstn_skipn k l). apply in_or_app. right.
  rewrite <- (firstn_skipn n (skipn k l)). apply in_or_app. left. exact H.
Qed.

Lemma window_numbers (w : nat) (s : Series) (i : nat) (qs : list Q) :
  window w s i = Some qs -> forall q, In q qs -> In (Fin q) s.
Proof.
  unfold window. destruct (w <=? i + 1)%nat; [| discriminate].
  intros H q Hq. apply finite_values_map in H.
  apply (In_firstn_skipn w (i + 1 - w)). rewrite H. apply in_map. exact Hq.
Qed.

(** A property of the aggregate of every list of numbers of the series
    holds for every rolling value. *)
Lemma rolling_Forall (P : Q -> Prop) (R : pyfloat -> Prop)
    (w : nat) (agg : list Q -> Q) (s : Series) :
  R NaN ->
  (forall qs, Forall P qs -> R (Fin (Qred (agg qs)))) ->
  numbers P s ->
  Forall R (rolling w agg s).
Proof.
  intros Hnan Hagg Hs. unfold rolling. apply Forall_forall.
  intros x Hx. apply in_map_iff in Hx. destruct Hx as [i [<- _]].
  destruct (window w s i) as [qs |] eqn:E; [| exact Hnan].
  apply Hagg. apply Forall_forall. intros q Hq.
  apply Hs. exact (window_numbers w s i qs E q Hq).
Qed.

Lemma zip_with_Forall (R1 R2 R3 : pyfloat -> Prop)
    (f : pyfloat -> pyfloat -> pyfloat) (a b : Series) :
  (forall x y, R1 x -> R2 y -> R3 (f x y)) ->
  Forall R1 a -> Forall R2 b -> Forall R3 (zip_with f a b).
Proof.
  intros Hf Ha. revert b. induction Ha as [| x a' Hx Ha' IH]; intros b Hb.
  - constructor.
  - destruct Hb as [| y b' Hy Hb']; cbn [zip_with]; constructor.
    + apply Hf; assumption.
    + apply IH. exact Hb'.
Qed.

Lemma Forall_numbers (P : Q -> Prop) (R : pyfloat -> Prop) (s : Series) :
  (forall q, R (Fin q) -> P q) -> Forall R s -> numbers P s.
Proof.
  intros H Hs q Hq. apply H. rewrite Forall_forall in Hs. apply Hs. exact Hq.
Qed.

(** ** Means of numbers in a range *)

Lemma Qsum_nonneg (qs : list Q) :
  Forall (fun q => 0 <= q) qs -> 0 <= Qsum qs.
Proof.
  induction 1 as [| q r Hq Hr IH]; cbn [Qsum fold_right]; [lra |].
  unfold Qsum in IH. lra.
Qed.

Lemma Qsum_upper (hi : Q) (qs : list Q) :
  Forall (fun q => q <= hi) qs ->
  Qsum qs <= hi * inject_Z (Z.of_nat (List.length qs)).
Proof.
  induction 1 as [| q r Hq Hr IH].
  - cbn [Qsum fold_right List.length Z.of_nat].
    change (inject_Z 0) with 0. lra.
  - cbn [Qsum fold_right List.length]. unfold Qsum in IH.
    rewrite Nat2Z.inj_succ, <- Z.add_1_r, inject_Z_plus.
    change (inject_Z 1) with 1. lra.
Qed.

Lemma Qmean_nonneg (qs : list Q) :
  Forall (fun q => 0 <= q) qs -> 0 <= Qmean qs.
Proof.
  intro H. unfold Qmean, Qdiv.
  apply Qmult_le_0_compat; [apply Qsum_nonneg; exact H |].
  apply Qinv_le_0_compat.
  change 0 with (inject_Z 0). rewrite <- Zle_Qle. lia.
Qed.

Lemma Qmean_percent (qs : list Q) :
  Forall (fun q => 0 <= q <= 100) qs -> 0 <= Qmean qs <= 100.
Proof.
  intro H. split.
  - apply Qmean_nonneg. eapply Forall_impl; [| exact H].
    intros q [Hq _]. exact Hq.
  - unfold Qmean. destruct qs as [| q r].
    + vm_compute. discriminate.
    + apply Qle_shift_div_r.
      * change 0 with (inject_Z 0). rewrite <- Zlt_Qlt.
        cbn [List.length]. lia.
      * apply Qsum_upper. eapply Forall_impl; [| exact H].
        intros x [_ Hx]. exact Hx.
Qed.

(** ** The classes of values and the float operations *)

Ltac classes :=
  repeat match goal with
  | H : nonneg_ext _ |- _ => destruct H as [-> | H]
  | H : nonneg_or_nan _ |- _ => destruct H as [-> | [? [-> ?]]]
  | H : percent_or_nan _ |- _ => destruct H as [-> | [? [-> ?]]]
  end.

Lemma nonneg_or_nan_Fin (q : Q) : 0 <= q -> nonneg_or_nan (Fin q).
Proof. intro H. right. exists q. split; [reflexivity | exact H]. Qed.

Lemma nonneg_ext_Fin (q : Q) : 0 <= q -> nonneg_ext (Fin q).
Proof. intro H. right. apply nonneg_or_nan_Fin. exact H. Qed.

Lemma percent_or_nan_Fin (q : Q) : 0 <= q <= 100 -> percent_or_nan (Fin q).
Proof. intro H. right. exists q. split; [reflexivity | exact H]. Qed.

Lemma nonneg_ext_Fin_inv (q : Q) : nonneg_ext (Fin q) -> 0 <= q.
Proof.
  intros [H | [H | [x [H Hx]]]]; try discriminate H.
  apply (f_equal (fun v => match v with Fin y => y | _ => q end)) in H.
  subst x. exact Hx.
Qed.

Lemma signed_inf_zero (a : Q) : a == 0 -> signed_inf a = NaN.
Proof. intro H. unfold signed_inf. apply Qeq_alt in H. rewrite H. reflexivity. Qed.

Lemma signed_inf_pos (a : Q) : 0 < a -> signed_inf a = PInf.
Proof. intro H. unfold signed_inf. apply Qgt_alt in H. rewrite H. reflexivity. Qed.

Lemma signed_inf_nonneg (a : Q) : 0 <= a -> nonneg_ext (signed_inf a).
Proof.
  intro H. destruct (Qeq_dec a 0) as [E | E].
  - rewrite (signed_inf_zero a E). right. left. reflexivity.
  - rewrite signed_inf_pos; [left; reflexivity |].
    apply Qle_lteq in H. destruct H as [H | H]; [exact H |].
    exfalso. apply E. symmetry. exact H.
Qed.

Lemma Qdiv_nonneg (a b : Q) : 0 <= a -> 0 <= b -> 0 <= a / b.
Proof.
  intros Ha Hb. unfold Qdiv.
  apply Qmult_le_0_compat; [exact Ha | apply Qinv_le_0_compat; exact Hb].
Qed.

(** A quotient of non-negative values is non-negative, infinite or
    missing. *)
Lemma np_div_nonneg_ext (x y : pyfloat) :
  nonneg_ext x -> nonneg_ext y -> nonneg_ext (np_div x y).
Proof.
  intros Hx Hy. classes; cbn [np_div];
    try (right; left; reflexivity); try (left; reflexivity).
  - apply nonneg_ext_Fin. lra.
  - destruct (Qltb _ 0) eqn:E; [qprops; lra | left; reflexivity].
  - destruct (Qeqb _ 0) eqn:E.
    + apply signed_inf_nonneg. assumption.
    + apply nonneg_ext_Fin. rewrite Qred_correct. apply Qdiv_nonneg; assumption.
Qed.

Lemma fadd_nonneg_ext (x y : pyfloat) :
  nonneg_ext x -> nonneg_ext y -> nonneg_ext (x + y)%F.
Proof.
  intros Hx Hy. classes; cbn [fadd];
    try (right; left; reflexivity); try (left; reflexivity).
  apply nonneg_ext_Fin. rewrite Qred_correct. lra.
Qed.

Lemma fabs_nonneg_ext (x : pyfloat) : nonneg_ext (fabs x).
Proof.
  destruct x as [q | | |]; cbn [fabs];
    try (left; reflexivity); try (right; left; reflexivity).
  apply nonneg_ext_Fin. rewrite Qred_correct. apply Qabs_nonneg.
Qed.

Lemma scale100_nonneg_ext (x : pyfloat) :
  nonneg_ext x -> nonneg_ext (FZ 100 * x)%F.
Proof.
  intro Hx. classes; try (left; reflexivity); try (right; left; reflexivity).
  cbn [fmul FZ]. apply nonneg_ext_Fin. rewrite Qred_correct.
  unfold inject_Z. lra.
Qed.

(** RSI from the relative strength: 100 - 100 / (1 + rs). *)
Lemma rsi_of_rs_percent (rs : pyfloat) :
  nonneg_ext rs -> percent_or_nan (FZ 100 - np_div (FZ 100) (FZ 1 + rs))%F.
Proof.
  intro H. classes.
  - apply percent_or_nan_Fin. vm_compute. split; discriminate.
  - left. reflexivity.
  - cbn [fadd FZ np_div].
    destruct (Qeqb _ 0) eqn:E; [qsolve |].
    cbn [fsub]. apply percent_or_nan_Fin. rewrite !Qred_correct.
    unfold inject_Z.
    assert (Hpos : 0 < 1 + x) by lra.
    assert (Hlo : 0 <= 100 / (1 + x)) by (apply Qdiv_nonneg; lra).
    assert (Hhi : 100 / (1 + x) <= 100) by (apply Qle_shift_div_r; lra).
    lra.
Qed.

(** ** RSI, ATR and ADX, value by value *)

Lemma Fin_inj (a b : Q) : Fin a = Fin b -> a = b.
Proof. intro H. injection H as H. exact H. Qed.

Lemma rolling_mean_nonneg (w : nat) (s : Series) :
  numbers (fun q => 0 <= q) s -> Forall nonneg_or_nan (rolling_mean w s).
Proof.
  intro H. unfold rolling_mean.
  apply (rolling_Forall (fun q => 0 <= q)); [left; reflexivity | | exact H].
  intros qs Hqs. apply nonneg_or_nan_Fin. rewrite Qred_correct.
  apply Qmean_nonneg. exact Hqs.
Qed.

Lemma rolling_mean_percent (w : nat) (s : Series) :
  numbers (fun q => 0 <= q <= 100) s -> Forall percent_or_nan (rolling_mean w s).
Proof.
  intro H. unfold rolling_mean.
  apply (rolling_Forall (fun q => 0 <= q <= 100)); [left; reflexivity | | exact H].
  intros qs Hqs. apply percent_or_nan_Fin. rewrite Qred_correct.
  apply Qmean_percent. exact Hqs.
Qed.

Lemma gains_nonneg (s : Series) :
  numbers (fun q => 0 <= q) (where_else0 (fun d => (d >? FZ 0)%F) s).
Proof.
  intros q Hq. unfold where_else0 in Hq. apply in_map_iff in Hq.
  destruct Hq as [x [Hx _]].
  destruct x as [a | | |]; fsimpl in Hx; try discriminate Hx;
    try (apply Fin_inj in Hx; subst q; vm_compute; discriminate).
  destruct (Qltb _ a) eqn:E; apply Fin_inj in Hx; subst q;
    [qprops; unfold inject_Z in E; lra | vm_compute; discriminate].
Qed.

Lemma losses_nonneg (s : Series) :
  numbers (fun q => 0 <= q)
    (smap fneg (where_else0 (fun d => (d <? FZ 0)%F) s)).
Proof.
  intros q Hq. unfold smap, where_else0 in Hq. rewrite map_map in Hq.
  apply in_map_iff in Hq. destruct Hq as [x [Hx _]].
  destruct x as [a | | |]; fsimpl in Hx; try discriminate Hx;
    try (apply Fin_inj in Hx; subst q; vm_compute; discriminate).
  destruct (Qltb a _) eqn:E; cbn [fneg] in Hx; apply Fin_inj in Hx; subst q;
    [qprops; unfold inject_Z in E; rewrite Qred_correct; lra
    | vm_compute; discriminate].
Qed.

Lemma nonneg_or_nan_ext (x : pyfloat) : nonneg_or_nan x -> nonneg_ext x.
Proof. intro H. right. exact H. Qed.

(** Every RSI value is missing or in [0, 100], on every frame and for
    every period. *)
Theorem rsi_values_percent (df : DataFrame) (period : nat) :
  Forall percent_or_nan (calculate_rsi df period).
Proof.
  unfold calculate_rsi. cbv zeta. unfold smap at 1.
  apply Forall_map.
  eapply Forall_impl; [exact rsi_of_rs_percent |].
  apply (zip_with_Forall nonneg_ext nonneg_ext).
  - exact np_div_nonneg_ext.
  - eapply Forall_impl; [exact nonneg_or_nan_ext |].
    apply rolling_mean_nonneg, gains_nonneg.
  - eapply Forall_impl; [exact nonneg_or_nan_ext |].
    apply rolling_mean_nonneg, losses_nonneg.
Qed.

(** The true range of well-formed bars holds no negative number. *)
Lemma nanmax_nonneg_ext_l (x y : pyfloat) :
  (exists q, x = Fin q /\ 0 <= q) ->
  y = NaN \/ nonneg_ext y ->
  exists v, nanmax x y = v /\ (v = PInf \/ exists q, v = Fin q /\ 0 <= q).
Proof.
  intros [a [-> Ha]] [-> | Hy].
  - eexists. split; [reflexivity |]. right. exists a. split; [reflexivity | exact Ha].
  - classes; cbn [nanmax]; fsimpl.
    + eexists. split; [reflexivity |]. left. reflexivity.
    + eexists. split; [reflexivity |]. right. exists a.
      split; [reflexivity | exact Ha].
    + destruct (Qltb a x) eqn:E; eexists; (split; [reflexivity |]); right;
        eexists; (split; [reflexivity |]); assumption.
Qed.

Lemma true_range_nonneg (df : DataFrame) :
  Forall well_formed_bar df ->
  numbers (fun q => 0 <= q) (true_range df).
Proof.
  intro Hwf. unfold true_range. cbv zeta.
  set (pc := shift (col bar_close df)). clearbody pc.
  revert pc. induction Hwf as [| b r Hb Hr IH]; intros pc q Hq.
  - destruct Hq.
  - destruct pc as [| c pc']; [destruct Hq |].
    cbn [col map smap zip_with] in Hq.
    destruct Hq as [Hq | Hq]; [| exact (IH pc' q Hq)].
    destruct Hb as [h [l [Hh [Hl Hle]]]]. rewrite Hh, Hl in Hq.
    destruct (nanmax_nonneg_ext_l (Fin h - Fin l)%F (fabs (Fin h - c)%F))
      as [v [Hv Hcl]].
    { eexists. split; [reflexivity |]. rewrite Qred_correct. lra. }
    { right. apply fabs_nonneg_ext. }
    rewrite Hv in Hq.
    assert (Hv' : exists x, v = Fin x /\ 0 <= x \/ v = PInf).
    { destruct Hcl as [-> | [x [-> Hx]]];
        [exists 0; right; reflexivity | exists x; left; split; [reflexivity | exact Hx]]. }
    destruct Hv' as [x [[-> Hx] | ->]].
    + destruct (nanmax_nonneg_ext_l (Fin x) (fabs (Fin l - c)%F))
        as [v2 [Hv2 Hcl2]].
      { exists x. split; [reflexivity | exact Hx]. }
      { right. apply fabs_nonneg_ext. }
      rewrite Hv2 in Hq. subst v2.
      destruct Hcl2 as [H | [y [H Hy]]]; [discriminate H |].
      apply Fin_inj in H. subst y. exact Hy.
    + pose proof (fabs_nonneg_ext (Fin l - c)%F) as Hf.
      destruct (fabs (Fin l - c)%F) as [y | | |]; cbn [nanmax] in Hq;
        fsimpl in Hq; try discriminate Hq.
Qed.

(** On well-formed bars every ATR value is missing or non-negative. *)
Theorem atr_values_nonneg (df : DataFrame) (period : nat) :
  Forall well_formed_bar df ->
  Forall nonneg_or_nan (calculate_atr df period).
Proof.
  intro H. unfold calculate_atr.
  apply rolling_mean_nonneg, true_range_nonneg. exact H.
Qed.

Lemma In_zip_with (f : pyfloat -> pyfloat -> pyfloat) (a b : Series)
    (v : pyfloat) :
  In v (zip_with f a b) -> exists x y, In x a /\ In y b /\ v = f x y.
Proof.
  revert b. induction a as [| x a' IH]; intros b H; [destruct H |].
  destruct b as [| y b']; [destruct H |].
  cbn [zip_with] in H. destruct H as [<- | H].
  - exists x, y. repeat split; left; reflexivity.
  - destruct (IH b' H) as [x' [y' [Hx [Hy ->]]]].
    exists x', y'. repeat split; right; assumption.
Qed.

Lemma directional_nonneg (a b : Series) :
  numbers (fun q => 0 <= q) (directional a b).
Proof.
  intros q Hq. unfold directional in Hq.
  apply In_zip_with in Hq. destruct Hq as [x [y [_ [_ Hq]]]].
  destruct (x >? y)%F; cbn [andb] in Hq;
    [| apply Fin_inj in Hq; subst q; vm_compute; discriminate].
  destruct x as [u | | |]; fsimpl in Hq; try discriminate Hq;
    try (apply Fin_inj in Hq; subst q; vm_compute; discriminate).
  destruct (Qltb _ u) eqn:E; apply Fin_inj in Hq; subst q;
    [qprops; unfold inject_Z in E; lra | vm_compute; discriminate].
Qed.

Lemma directional_index_nonneg_ext (dm atr : Series) (period : nat) :
  numbers (fun q => 0 <= q) dm ->
  Forall nonneg_or_nan atr ->
  Forall nonneg_ext
    (smap (fun x => (FZ 100 * x)%F)
          (zip_with np_div (rolling_mean period dm) atr)).
Proof.
  intros Hdm Hatr. unfold smap. apply Forall_map.
  eapply Forall_impl; [exact scale100_nonneg_ext |].
  apply (zip_with_Forall nonneg_ext nonneg_ext).
  - exact np_div_nonneg_ext.
  - eapply Forall_impl; [exact nonneg_or_nan_ext |].
    apply rolling_mean_nonneg. exact Hdm.
  - eapply Forall_impl; [exact nonneg_or_nan_ext | exact Hatr].
Qed.

(** On well-formed bars every ADX value is missing or non-negative. *)
Theorem adx_values_nonneg (df : DataFrame) (period : nat) :
  Forall well_formed_bar df ->
  Forall nonneg_or_nan (adx (calculate_adx df period)).
Proof.
  intro Hwf. unfold calculate_adx. cbv zeta. cbn [adx].
  apply rolling_mean_nonneg.
  apply (Forall_numbers _ nonneg_ext); [exact nonneg_ext_Fin_inv |].
  pose proof (rolling_mean_nonneg period _ (true_range_nonneg df Hwf)) as Hatr.
  apply (zip_with_Forall nonneg_ext nonneg_ext).
  - exact np_div_nonneg_ext.
  - unfold smap at 1. apply Forall_map. apply Forall_forall.
    intros x _. apply scale100_nonneg_ext, fabs_nonneg_ext.
  - apply (zip_with_Forall nonneg_ext nonneg_ext).
    + exact fadd_nonneg_ext.
    + apply directional_index_nonneg_ext; [apply directional_nonneg | exact Hatr].
    + apply directional_index_nonneg_ext; [apply directional_nonneg | exact Hatr].
Qed.

(** ** Stochastic RSI, value by value *)

Lemma series_as_map (s : Series) :
  s = map (fun i => nth i s NaN) (seq 0 (List.length s)).
Proof.
  induction s as [| x r IH]; [reflexivity |].
  cbn [List.length seq map nth]. f_equal.
  rewrite <- seq_shift, map_map. exact IH.
Qed.

Lemma zip_with_map {A : Type} (f : pyfloat -> pyfloat -> pyfloat)
    (g h : A -> pyfloat) (l : list A) :
  zip_with f (map g l) (map h l) = map (fun i => f (g i) (h i)) l.
Proof.
  induction l as [| x r IH]; [reflexivity |].
  cbn [map zip_with]. rewrite IH. reflexivity.
Qed.

Lemma finite_values_length (l : list pyfloat) (qs : list Q) :
  finite_values l = Some qs -> List.length qs = List.length l.
Proof.
  intro H. apply finite_values_map in H. subst l.
  rewrite length_map. reflexivity.
Qed.

(** A complete window ending at index [i] holds the value at [i]. *)
Lemma window_last (w : nat) (s : Series) (i : nat) (qs : list Q) :
  (0 < w)%nat -> (i < List.length s)%nat ->
  window w s i = Some qs ->
  exists r, nth i s NaN = Fin r /\ In r qs.
Proof.
  intros Hw Hi. unfold window.
  destruct (Nat.leb_spec w (i + 1)) as [Hle | _]; [| discriminate].
  intro H. pose proof (finite_values_length _ _ H) as Hlen.
  apply finite_values_map in H.
  rewrite length_firstn, length_skipn in Hlen.
  assert (Hq : List.length qs = w) by lia.
  exists (nth (w - 1) qs 0). split.
  - assert (E : nth (w - 1) (firstn w (skipn (i + 1 - w) s)) NaN = nth i s NaN).
    { rewrite nth_firstn.
      destruct (Nat.ltb_spec (w - 1) w) as [_ | Hc]; [| lia].
      rewrite nth_skipn. f_equal. lia. }
    rewrite <- E, H.
    rewrite (nth_indep _ NaN (Fin 0)) by (rewrite length_map; lia).
    apply (map_nth Fin).
  - apply nth_In. lia.
Qed.

Lemma fold_left_Qmin2_le (l : list Q) (x : Q) :
  fold_left Qmin2 l x <= x
  /\ forall r, In r l -> fold_left Qmin2 l x <= r.
Proof.
  revert x. induction l as [| y l' IH]; intro x; cbn [fold_left].
  - split; [lra | intros r []].
  - destruct (IH (Qmin2 x y)) as [H1 H2].
    assert (Hm : Qmin2 x y <= x /\ Qmin2 x y <= y).
    { unfold Qmin2. destruct (Qleb x y) eqn:E; qprops; split; lra. }
    split; [lra |].
    intros r [<- | Hr]; [lra | apply H2; exact Hr].
Qed.

Lemma fold_left_Qmax2_ge (l : list Q) (x : Q) :
  x <= fold_left Qmax2 l x
  /\ forall r, In r l -> r <= fold_left Qmax2 l x.
Proof.
  revert x. induction l as [| y l' IH]; intro x; cbn [fold_left].
  - split; [lra | intros r []].
  - destruct (IH (Qmax2 x y)) as [H1 H2].
    assert (Hm : x <= Qmax2 x y /\ y <= Qmax2 x y).
    { unfold Qmax2. destruct (Qleb x y) eqn:E; qprops; split; lra. }
    split; [lra |].
    intros r [<- | Hr]; [lra | apply H2; exact Hr].
Qed.

Lemma Qminimum_le (qs : list Q) (r : Q) : In r qs -> Qminimum qs <= r.
Proof.
  destruct qs as [| x l]; [intros [] |].
  cbn [Qminimum]. destruct (fold_left_Qmin2_le l x) as [H1 H2].
  intros [<- | Hr]; [exact H1 | apply H2; exact Hr].
Qed.

Lemma Qmaximum_ge (qs : list Q) (r : Q) : In r qs -> r <= Qmaximum qs.
Proof.
  destruct qs as [| x l]; [intros [] |].
  cbn [Qmaximum]. destruct (fold_left_Qmax2_ge l x) as [H1 H2].
  intros [<- | Hr]; [exact H1 | apply H2; exact Hr].
Qed.

(** The position of a value between the extremes of a window that holds
    it, as a percentage. *)
Lemma stochastic_percent (r lo hi : Q) :
  lo <= r <= hi ->
  percent_or_nan
    (np_div (Fin r - Fin (Qred lo)) (Fin (Qred hi) - Fin (Qred lo)) * FZ 100)%F.
Proof.
  intros [Hlo Hhi]. cbn [fsub np_div].
  destruct (Qeqb _ 0) eqn:E.
  - rewrite signed_inf_zero; [left; reflexivity |].
    qprops. rewrite !Qred_correct in *. lra.
  - cbn [fmul FZ]. apply percent_or_nan_Fin.
    qprops. rewrite !Qred_correct in *. unfold inject_Z.
    assert (Hd : 0 < hi - lo) by lra.
    assert (H0 : 0 <= (r - lo) / (hi - lo)) by (apply Qdiv_nonneg; lra).
    assert (H1 : (r - lo) / (hi - lo) <= 1) by (apply Qle_shift_div_r; lra).
    lra.
Qed.

Lemma percent_numbers (s : Series) :
  Forall percent_or_nan s -> numbers (fun q => 0 <= q <= 100) s.
Proof.
  apply Forall_numbers. intros q [H | [x [H Hx]]]; [discriminate H |].
  apply Fin_inj in H. subst x. exact Hx.
Qed.

(** Every value of the raw Stochastic RSI and of its K and D averages
    is missing or in [0, 100], for every positive period. *)
Theorem stoch_rsi_values_percent (df : DataFrame) (period smooth_k smooth_d : nat) :
  (0 < period)%nat ->
  let st := calculate_stoch_rsi df period smooth_k smooth_d in
  Forall percent_or_nan (stoch_rsi st)
  /\ Forall percent_or_nan (stoch_k st)
  /\ Forall percent_or_nan (stoch_d st).
Proof.
  intros Hp. cbv zeta. unfold calculate_stoch_rsi. cbv zeta.
  cbn [stoch_rsi stoch_k stoch_d].
  set (rsi := calculate_rsi df period).
  assert (Hst : Forall percent_or_nan
                  (smap (fun x => (x * FZ 100)%F)
                     (zip_with np_div
                        (zip_with fsub rsi (rolling_min period rsi))
                        (zip_with fsub (rolling_max period rsi)
                           (rolling_min period rsi))))).
  { unfold rolling_min, rolling_max, rolling.
    rewrite (series_as_map rsi) at 1.
    rewrite !zip_with_map. unfold smap. rewrite map_map.
    apply Forall_forall. intros v Hv. apply in_map_iff in Hv.
    destruct Hv as [i [<- Hi]]. apply in_seq in Hi.
    destruct (window period rsi i) as [qs |] eqn:Ew.
    - destruct (window_last period rsi i qs Hp (proj2 Hi) Ew) as [r [-> Hr]].
      apply stochastic_percent. split;
        [apply Qminimum_le | apply Qmaximum_ge]; exact Hr.
    - left. destruct (nth i rsi NaN); reflexivity. }
  split; [exact Hst |].
  assert (Hk : Forall percent_or_nan
                 (rolling_mean smooth_k
                    (smap (fun x => (x * FZ 100)%F)
                       (zip_with np_div
                          (zip_with fsub rsi (rolling_min period rsi))
                          (zip_with fsub (rolling_max period rsi)
                             (rolling_min period rsi))))))
    by (apply rolling_mean_percent, percent_numbers; exact Hst).
  split; [exact Hk |].
  apply rolling_mean_percent, percent_numbers. exact Hk.
Qed.

(** ** The snapshot: what holds of its ranges *)

Lemma round2_percent (x : pyfloat) :
  percent_or_nan x -> percent_or_nan (round2 x).
Proof.
  intro H. classes; [left; reflexivity |].
  unfold round2, py_round. apply percent_or_nan_Fin.
  match goal with H : _ <= _ <= _ |- _ => destruct H as [Hlo Hhi] end. split.
  - apply (Qle_trans _ (0 # 100)); [vm_compute; discriminate |].
    apply Qround_digits_lower.
    apply (Qle_trans _ 0); [vm_compute; discriminate | exact Hlo].
  - apply (Qle_trans _ (10000 # 100)); [| vm_compute; discriminate].
    apply Qround_digits_upper.
    apply (Qle_trans _ 100); [exact Hhi | vm_compute; discriminate].
Qed.

Lemma round2_nonneg (x : pyfloat) :
  nonneg_or_nan x -> nonneg_or_nan (round2 x).
Proof.
  intro H. classes; [left; reflexivity |].
  unfold round2, py_round. apply nonneg_or_nan_Fin.
  apply (Qle_trans _ (0 # 100)); [vm_compute; discriminate |].
  apply Qround_digits_lower.
  apply (Qle_trans _ 0); [vm_compute; discriminate | assumption].
Qed.

Lemma iloc_last_Forall (R : pyfloat -> Prop) (s : Series) (x : pyfloat) :
  Forall R s -> iloc_last s = Ok x -> R x.
Proof.
  intros H E. rewrite Forall_forall in H. apply H, iloc_last_In. exact E.
Qed.

(** Opens the next [x <- m ;; ...] of a monadic chain that returned. *)
Ltac open_bind name :=
  match goal with
  | |- bind ?m _ = Ok _ -> _ =>
      let E := fresh "E" name in
      destruct m as [name |] eqn:E; [cbn [bind] | discriminate]
  end.

(** X1: on every frame of well-formed bars for which
    [calculate_all_indicators] returns, RSI and Stochastic-RSI K and D
    are missing ([NaN]) or in [0, 100], ADX and ATR are missing or
    non-negative, and the Donchian lower bound is at least 0.01. *)
Theorem snapshot_ranges (df : DataFrame) (ind : Indicators) :
  Forall well_formed_bar df ->
  calculate_all_indicators df = Ok ind ->
  percent_or_nan (rsi_value ind)
  /\ percent_or_nan (stoch_rsi_k ind)
  /\ percent_or_nan (stoch_rsi_d ind)
  /\ nonneg_or_nan (adx_value ind)
  /\ nonneg_or_nan (atr_value ind)
  /\ (donchian_lower ind >=? FQ 1 100)%F = true.
Proof.
  intro Hwf. unfold calculate_all_indicators. cbv zeta.
  open_bind vr. open_bind pv. open_bind dc. open_bind cp. open_bind e50.
  open_bind rsi. open_bind k. open_bind d. open_bind ax. open_bind at_.
  open_bind ar. open_bind h.
  intro H. apply Ok_inj in H. subst ind.
  cbn [rsi_value stoch_rsi_k stoch_rsi_d adx_value atr_value donchian_lower].
  destruct (stoch_rsi_values_percent df 14 3 3 ltac:(lia)) as [_ [Hk Hd]].
  repeat split.
  - apply round2_percent.
    exact (iloc_last_Forall _ _ _ (rsi_values_percent df 14) Ersi).
  - apply round2_percent. exact (iloc_last_Forall _ _ _ Hk Ek).
  - apply round2_percent. exact (iloc_last_Forall _ _ _ Hd Ed).
  - apply round2_nonneg.
    exact (iloc_last_Forall _ _ _ (adx_values_nonneg df 14 Hwf) Eax).
  - apply round2_nonneg.
    exact (iloc_last_Forall _ _ _ (atr_values_nonneg df 14 Hwf) Eat_).
  - exact (donchian_channel_floor df 20 dc Edc).
Qed.

(** The snapshot of the rising market over forty bars: RSI 100, ADX 100. *)
Lemma snapshot_ranges_witness :
  exists ind,
    calculate_all_indicators (rising_bars 40) = Ok ind
    /\ percent_or_nan (rsi_value ind)
    /\ nonneg_or_nan (adx_value ind)
    /\ nonneg_or_nan (atr_value ind).
Proof.
  destruct (calculate_all_indicators (rising_bars 40)) as [ind |] eqn:E;
    [| vm_compute in E; discriminate E].
  exists ind. split; [reflexivity |].
  assert (Hwf : Forall well_formed_bar (rising_bars 40)).
  { unfold rising_bars. apply Forall_map, Forall_forall. intros i _.
    eexists. eexists. cbn [bar_high bar_low].
    split; [reflexivity |]. split; [reflexivity |].
    rewrite !Qred_correct. lra. }
  destruct (snapshot_ranges (rising_bars 40) ind Hwf E)
    as [Hr [_ [_ [Ha [Ht _]]]]].
  repeat split; assumption.
Defined.

(** ** Further properties of the snapshot and of the cascade *)

(** Without the condition on the bars: the Donchian lower bound of the
    snapshot is at least 0.01 on every frame for which [calculate_all_indicators] returns, also when
    the lows are negative or missing. *)
Theorem donchian_lower_floor (df : DataFrame) (ind : Indicators) :
  calculate_all_indicators df = Ok ind ->
  (donchian_lower ind >=? FQ 1 100)%F = true.
Proof.
  unfold calculate_all_indicators. cbv zeta.
  open_bind vr. open_bind pv. open_bind dc. open_bind cp. open_bind e50.
  open_bind rsi. open_bind k. open_bind d. open_bind ax. open_bind at_.
  open_bind ar. open_bind h.
  intro H. apply Ok_inj in H. subst ind. cbn [donchian_lower].
  exact (donchian_channel_floor df 20 dc Edc).
Qed.

(** On twenty bars with lows at -3 the returned lower bound is the
    floor. *)
Lemma donchian_lower_floor_witness :
  exists ind,
    calculate_all_indicators negative_low_bars = Ok ind
    /\ (donchian_lower ind >=? FQ 1 100)%F = true
    /\ donchian_lower ind = FQ 1 100.
Proof.
  destruct (calculate_all_indicators negative_low_bars) as [ind |] eqn:E;
    [| vm_compute in E; discriminate E].
  exists ind. split; [reflexivity |].
  split; [exact (donchian_lower_floor negative_low_bars ind E) |].
  vm_compute in E. apply Ok_inj in E. subst ind. reflexivity.
Defined.

(** A rise of 2% in place of no change at all: the same decision. *)
Lemma generate_signal_ignores_price_rise_witness :
  generate_signal
    (with_readings (FZ 50) NeutralZone (FZ 50) NeutralZone BullishCross (FQ 6 10))
    calm_market (risk_with_rr (FZ 2)) None None None (FZ 2)
  = generate_signal
      (with_readings (FZ 50) NeutralZone (FZ 50) NeutralZone BullishCross (FQ 6 10))
      calm_market (risk_with_rr (FZ 2)) None None None (FZ 0).
Proof.
  apply (generate_signal_ignores_price_rise
           (with_readings (FZ 50) NeutralZone (FZ 50) NeutralZone BullishCross
              (FQ 6 10))
           calm_market (risk_with_rr (FZ 2)) None None None (FZ 2)).
  reflexivity.
Defined.

(** The snapshot of a flat market at 100: the validated stop is 100. *)
Lemma stop_is_entry_when_atr_is_zero_witness :
  exists s,
    validated_stop_loss (snapshot (FZ 100) (FZ 0) (FZ 100) (FZ 100)) = Ok (Fin s)
    /\ s == 100.
Proof.
  apply (stop_is_entry_when_atr_is_zero
           (snapshot (FZ 100) (FZ 0) (FZ 100) (FZ 100)) 100 0);
    [reflexivity | reflexivity | reflexivity | lra].
Defined.

(** EMA 50 at 6% and EMA 20 at 5% under the price come out EMA 20
    first. *)
Lemma sort_by_distance_sorted_witness :
  Sorted closer
    (sort_by_distance
       [ mkCandidate EMA50 (FZ 94) (FZ 6); mkCandidate EMA20 (FZ 95) (FZ 5) ])
  /\ sort_by_distance
       [ mkCandidate EMA50 (FZ 94) (FZ 6); mkCandidate EMA20 (FZ 95) (FZ 5) ]
     = [ mkCandidate EMA20 (FZ 95) (FZ 5); mkCandidate EMA50 (FZ 94) (FZ 6) ].
Proof.
  split; [| reflexivity].
  apply (sort_by_distance_sorted
           [ mkCandidate EMA50 (FZ 94) (FZ 6); mkCandidate EMA20 (FZ 95) (FZ 5) ]).
  repeat constructor; eexists; reflexivity.
Defined.

(** ** Coverage beyond the claims: the cascade and the scoring *)


Lemma score_step_upper (z : Z) (a : Acc) (q : Q) :
  score a = Fin q ->
  exists q', score (sub_score (FZ z) a) = Fin q' /\ q' == q - inject_Z z.
Proof.
  intro H. cbn [score sub_score]. rewrite H. fsimpl.
  eexists. split; [reflexivity |]. rewrite Qred_correct. reflexivity.
Qed.

(** Each debt/equity check can only lower a finite score. *)
Lemma debt_equity_penalty_le (f : option Fundamentals) (a : Acc) (q : Q) :
  score a = Fin q ->
  exists q', score (debt_equity_penalty f a) = Fin q' /\ q' <= q.
Proof.
  intro H. unfold debt_equity_penalty.
  destruct (dte_of f) as [dte |]; [| exists q; split; [exact H | lra]].
  destruct (dte_ratio_of dte >? FZ 10)%F.
  { cbn [score add_warning add_block sub_score]. rewrite H. fsimpl.
    eexists. split; [reflexivity |]. qsolve. }
  destruct (dte_ratio_of dte >? FZ 3)%F.
  { cbn [score add_warning add_block sub_score]. rewrite H. fsimpl.
    eexists. split; [reflexivity |]. qsolve. }
  exists q. split; [exact H | lra].
Qed.

Lemma debt_equity_legacy_le (f : option Fundamentals) (a : Acc) (q : Q) :
  score a = Fin q ->
  exists q', score (debt_equity_legacy f a) = Fin q' /\ q' <= q.
Proof.
  intro H. unfold debt_equity_legacy.
  destruct (dte_of f) as [dte |]; [| exists q; split; [exact H | lra]].
  destruct (dte >? FZ 300)%F; [| exists q; split; [exact H | lra]].
  cbn [score add_warning add_block sub_score]. rewrite H. fsimpl.
  eexists. split; [reflexivity |]. qsolve.
Qed.

Lemma debt_equity_percent_le (f : option Fundamentals) (a : Acc) (q : Q) :
  score a = Fin q ->
  exists q', score (debt_equity_percent f a) = Fin q' /\ q' <= q.
Proof.
  intro H. unfold debt_equity_percent.
  destruct (dte_of f) as [dte |]; [| exists q; split; [exact H | lra]].
  destruct (dte >? FZ 300)%F; [| exists q; split; [exact H | lra]].
  cbn [score add_warning add_block sub_score]. rewrite H. fsimpl.
  eexists. split; [reflexivity |]. qsolve.
Qed.

(** A fall of more than 8% costs more than 40 points. *)
Lemma daily_drop_penalty_points (pcp : pyfloat) :
  (pcp <? FZ (-8))%F = true ->
  exists q, score (daily_drop_penalty pcp acc0) = Fin q /\ q < -40.
Proof.
  intro H. unfold daily_drop_penalty. rewrite H.
  cbn [score add_warning add_block sub_score acc0].
  destruct pcp as [p | | |]; try discriminate H.
  - fsimpl in H. unfold inject_Z in H. qprops.
    fsimpl. unfold inject_Z.
    destruct (Qltb 60 _) eqn:E; fsimpl; (eexists; split; [reflexivity |]);
      qprops; qnorm.
    + lra.
    + assert (Ha : Qabs p == - p) by (apply Qabs_neg; lra).
      rewrite Ha in *. lra.
  - eexists. split; [vm_compute; reflexivity |]. lra.
Qed.

(** The scoring pass adds 60 points at most: 20 for the trend, 15 for
    each oscillator and 10 for the MACD. *)
Lemma scoring_upper (ind : Indicators) (mc : MarketContext) (a : Acc) (q : Q) :
  score a = Fin q ->
  exists s, score (scoring ind mc a) = Fin s /\ s <= q + 60.
Proof.
  intro H. unfold scoring.
  assert (H1 : exists q1, score (score_regime ind a) = Fin q1 /\ q1 <= q).
  { unfold score_regime. destruct (adx_regime ind);
      cbn [score sub_score add_warning]; rewrite ?H; fsimpl;
      (eexists; split; [reflexivity |]); qsolve. }
  destruct H1 as [q1 [H1 L1]]. set (a1 := score_regime ind a) in *.
  assert (H2 : exists q2, score (score_trend ind a1) = Fin q2 /\ q2 <= q1 + 20).
  { unfold score_trend. destruct (trend_direction ind);
      cbn [score sub_score add_score add_reason]; rewrite ?H1; fsimpl;
      (eexists; split; [reflexivity |]); qsolve. }
  destruct H2 as [q2 [H2 L2]]. set (a2 := score_trend ind a1) in *.
  assert (H3 : exists q3, score (score_rsi ind a2) = Fin q3 /\ q3 <= q2 + 15).
  { unfold score_rsi. destruct (rsi_signal ind);
      cbn [score sub_score add_score add_reason add_warning]; rewrite ?H2; fsimpl;
      (eexists; split; [reflexivity |]); qsolve. }
  destruct H3 as [q3 [H3 L3]]. set (a3 := score_rsi ind a2) in *.
  assert (H4 : exists q4, score (score_stoch ind a3) = Fin q4 /\ q4 <= q3 + 15).
  { unfold score_stoch. destruct (stoch_rsi_k ind >? FZ 85)%F;
      [| destruct (stoch_rsi_signal ind)];
      cbn [score sub_score add_score add_reason add_warning]; rewrite ?H3; fsimpl;
      (eexists; split; [reflexivity |]); qsolve. }
  destruct H4 as [q4 [H4 L4]]. set (a4 := score_stoch ind a3) in *.
  assert (H5 : exists q5, score (score_macd ind a4) = Fin q5 /\ q5 <= q4 + 10).
  { unfold score_macd. destruct (macd_cross ind);
      cbn [score sub_score add_score add_reason add_warning]; rewrite ?H4; fsimpl;
      (eexists; split; [reflexivity |]); qsolve. }
  destruct H5 as [q5 [H5 L5]]. set (a5 := score_macd ind a4) in *.
  assert (H6 : exists q6, score (score_vix mc a5) = Fin q6 /\ q6 <= q5).
  { unfold score_vix. destruct (vix_high_volatility mc);
      cbn [score sub_score add_score add_reason add_warning]; rewrite ?H5; fsimpl;
      (eexists; split; [reflexivity |]); qsolve. }
  destruct H6 as [q6 [H6 L6]]. set (a6 := score_vix mc a5) in *.
  exists q6. split; [| lra].
  unfold level_warnings. cbv zeta.
  destruct (price_current ind >? _)%F; destruct (price_current ind <? _)%F;
    exact H6.
Qed.

(** No override is a BUY or a HOLD. *)
Lemma cascade_override_signal
    (ind : Indicators) (risk : RiskProfile) (ed : option Z)
    (f : option Fundamentals) (md : option MassiveDrop) (pcp : pyfloat)
    (d : Decision) :
  cascade ind risk ed f md pcp = inl d ->
  In (signal d) [WAIT; SELL; NEUTRAL; LIQUIDATE]
  /\ override_reason d <> None.
Proof.
  unfold cascade. destruct md; [intro H; injection H as <-; cbn; split; [auto | discriminate] |].
  destruct (check_sell_trigger _ _ _) as [st |] eqn:Es.
  { apply check_sell_trigger_alert in Es. subst st.
    intro H. injection H as <-. cbn. split; [auto | discriminate]. }
  rewrite no_divergence_without_price_change.
  destruct (check_financial_health_block f) as [fb |] eqn:Ef.
  { intro H. injection H as <-. cbn [signal override override_reason].
    split; [| discriminate].
    unfold check_financial_health_block in Ef.
    destruct f as [fu |]; [| discriminate].
    destruct (_ && _); [| discriminate]. injection Ef as <-.
    cbn [forced_signal]. destruct (_ <? _)%F; cbn; auto. }
  destruct (check_earnings_proximity ed) as [ea |] eqn:Ee.
  { apply check_earnings_proximity_alert in Ee. destruct Ee as [n ->].
    intro H. injection H as <-. cbn. split; [auto | discriminate]. }
  destruct (check_entry_block (risk_reward_ratio risk));
    destruct (risk_reward_ratio risk <? FZ 1)%F;
    destruct (volume_ratio ind <? FQ 1 2)%F; cbn [andb];
    intro H; try discriminate H; injection H as <-; cbn;
    (split; [auto | discriminate]).
Qed.

Lemma final_signal_buy (c : pyfloat) (regime : Regime) :
  final_signal c regime = BUY ->
  (c >=? FZ 70)%F = true /\ regime = TRENDING.
Proof.
  unfold final_signal.
  destruct (c >=? FZ 70)%F; destruct regime; cbn [andb];
    destruct (c <=? FZ 30)%F; destruct (c >=? FZ 50)%F; try discriminate;
    intros _; split; reflexivity.
Qed.

(** The score that reaches the scoring pass is at most the one left by
    the daily-drop penalty. *)
Lemma cascade_score_upper
    (ind : Indicators) (risk : RiskProfile) (ed : option Z)
    (f : option Fundamentals) (md : option MassiveDrop) (pcp : pyfloat)
    (a : Acc) (q0 : Q) :
  cascade ind risk ed f md pcp = inr a ->
  score (daily_drop_penalty pcp acc0) = Fin q0 ->
  exists q, score a = Fin q /\ q <= q0.
Proof.
  intros Hc H0. apply cascade_score in Hc. rewrite Hc. unfold penalties.
  destruct (debt_equity_penalty_le f _ q0 H0) as [q1 [H1 L1]].
  destruct (debt_equity_legacy_le f _ q1 H1) as [q2 [H2 L2]].
  destruct (debt_equity_percent_le f _ q2 H2) as [q3 [H3 L3]].
  exists q3. split; [exact H3 | lra].
Qed.

(** X11: after a daily fall of more than 8% [generate_signal] never
    answers BUY: an override answers WAIT, SELL, NEUTRAL or LIQUIDATE,
    and on the scoring pass the penalty of more than 40 points leaves
    the confidence below the 70 that a BUY needs. *)
Theorem daily_crash_never_buy
    (ind : Indicators) (mc : MarketContext) (risk : RiskProfile)
    (ed : option Z) (f : option Fundamentals) (md : option MassiveDrop)
    (pcp : pyfloat) (d : Decision) :
  (pcp <? FZ (-8))%F = true ->
  generate_signal ind mc risk ed f md pcp = Ok d ->
  signal d <> BUY.
Proof.
  intros Hp. unfold generate_signal.
  destruct (cascade ind risk ed f md pcp) as [o | a] eqn:Hc.
  - intro H. apply Ok_inj in H. subst o.
    destruct (cascade_override_signal _ _ _ _ _ _ _ Hc) as [Hs _].
    cbn in Hs. intro Hb. rewrite Hb in Hs.
    repeat (destruct Hs as [Hs | Hs]; [discriminate Hs |]). exact Hs.
  - destruct (daily_drop_penalty_points pcp Hp) as [q0 [H0 L0]].
    destruct (cascade_score_upper _ _ _ _ _ _ _ _ Hc H0) as [q [Hq Lq]].
    destruct (scoring_upper ind mc a q Hq) as [s [Hs Ls]].
    destruct (clamp_confidence_spec s) as [c [Hcl [[Hlo Hhi] [Hz [_ Hmid]]]]].
    cbv zeta. rewrite Hs, Hcl, (py_int_nonnegative c Hlo). cbn [bind].
    intro H. apply Ok_inj in H. subst d. cbn [signal].
    intro Hb. apply final_signal_buy in Hb. destruct Hb as [Hb _].
    fsimpl in Hb. unfold inject_Z in Hb. qprops.
    destruct (Qlt_le_dec (50 + s) 0) as [Hneg | Hpos].
    + assert (c == 0) by (apply Hz; lra). lra.
    + assert (c == 50 + s) by (apply Hmid; lra). lra.
Qed.

(** A fall of 9% on the most favourable readings (bullish trend, both
    oscillators oversold, bullish MACD, trending regime): HOLD. *)
Lemma daily_crash_never_buy_witness :
  exists d,
    generate_signal
      (mkIndicators (FZ 100) (FZ 25) Oversold (FZ 10) (FZ 10) Oversold
         (FZ 30) TRENDING (FZ 2) (FZ 2) BullishCross (FZ 1) (FZ 90) (FZ 120)
         (FZ 120) (FZ 90) BULLISH)
      calm_market (risk_with_rr (FZ 2)) None None None (FZ (-9)) = Ok d
    /\ signal d <> BUY /\ signal d = HOLD /\ confidence d = 65%Z.
Proof.
  eexists. split; [vm_compute; reflexivity |].
  split; [| split; reflexivity].
  apply (daily_crash_never_buy
           (mkIndicators (FZ 100) (FZ 25) Oversold (FZ 10) (FZ 10) Oversold
              (FZ 30) TRENDING (FZ 2) (FZ 2) BullishCross (FZ 1) (FZ 90) (FZ 120)
              (FZ 120) (FZ 90) BULLISH)
           calm_market (risk_with_rr (FZ 2)) None None None (FZ (-9)));
    [reflexivity | vm_compute; reflexivity].
Defined.

(** The entry block is [Some] exactly below a ratio of 1.0. *)
Lemma check_entry_block_spec (rr : pyfloat) :
  check_entry_block rr = if (rr <? FZ 1)%F then Some (ENTRY_BLOCK rr) else None.
Proof. reflexivity. Qed.

Ltac same_step :=
  intros [Hs [Hr Hw]]; unfold same_verdict;
  cbn [score acc_reasons acc_warnings add_score sub_score add_reason
       add_warning add_block add_alert];
  rewrite ?Hs, ?Hr, ?Hw; repeat split.

Lemma same_verdict_refl (a : Acc) : same_verdict a a.
Proof. repeat split. Qed.

Lemma same_verdict_entry_block (eb : Alert) (a : Acc) :
  same_verdict (add_alert eb (add_block (alert_message eb) a)) a.
Proof. repeat split. Qed.

Lemma same_verdict_percent (f : option Fundamentals) (a b : Acc) :
  same_verdict a b ->
  same_verdict (debt_equity_percent f a) (debt_equity_percent f b).
Proof.
  unfold debt_equity_percent. destruct (dte_of f) as [dte |]; [| tauto].
  destruct (dte >? FZ 300)%F; [| tauto]. same_step.
Qed.

Lemma same_verdict_scoring (ind : Indicators) (mc : MarketContext) (a b : Acc) :
  same_verdict a b -> same_verdict (scoring ind mc a) (scoring ind mc b).
Proof.
  intro H. unfold scoring.
  assert (H1 : same_verdict (score_regime ind a) (score_regime ind b)).
  { unfold score_regime. destruct (adx_regime ind); try exact H;
      revert H; same_step. }
  set (a1 := score_regime ind a) in *. set (b1 := score_regime ind b) in *.
  assert (H2 : same_verdict (score_trend ind a1) (score_trend ind b1)).
  { unfold score_trend. destruct (trend_direction ind); revert H1; same_step. }
  set (a2 := score_trend ind a1) in *. set (b2 := score_trend ind b1) in *.
  assert (H3 : same_verdict (score_rsi ind a2) (score_rsi ind b2)).
  { unfold score_rsi. destruct (rsi_signal ind); try exact H2;
      revert H2; same_step. }
  set (a3 := score_rsi ind a2) in *. set (b3 := score_rsi ind b2) in *.
  assert (H4 : same_verdict (score_stoch ind a3) (score_stoch ind b3)).
  { unfold score_stoch. destruct (stoch_rsi_k ind >? FZ 85)%F;
      [| destruct (stoch_rsi_signal ind)]; try exact H3; revert H3; same_step. }
  set (a4 := score_stoch ind a3) in *. set (b4 := score_stoch ind b3) in *.
  assert (H5 : same_verdict (score_macd ind a4) (score_macd ind b4)).
  { unfold score_macd. destruct (macd_cross ind); revert H4; same_step. }
  set (a5 := score_macd ind a4) in *. set (b5 := score_macd ind b4) in *.
  assert (H6 : same_verdict (score_vix mc a5) (score_vix mc b5)).
  { unfold score_vix. destruct (vix_high_volatility mc); try exact H5;
      revert H5; same_step. }
  set (a6 := score_vix mc a5) in *. set (b6 := score_vix mc b5) in *.
  unfold level_warnings. cbv zeta.
  destruct (price_current ind >? _)%F; destruct (price_current ind <? _)%F;
    try exact H6; revert H6; same_step.
Qed.

(** The accumulator after the entry-block check, whatever the ratio is. *)
Lemma same_verdict_after_entry_block (rr : pyfloat) (a : Acc) :
  same_verdict
    match (if (rr <? FZ 1)%F then Some (ENTRY_BLOCK rr) else None) with
    | Some eb => add_alert eb (add_block (alert_message eb) a)
    | None => a
    end a.
Proof. destruct (rr <? FZ 1)%F; repeat split. Qed.

Lemma same_verdict_trans (a b c : Acc) :
  same_verdict a b -> same_verdict b c -> same_verdict a c.
Proof.
  intros [H1 [H2 H3]] [H4 [H5 H6]]. repeat split; congruence.
Qed.

Lemma same_verdict_sym (a b : Acc) : same_verdict a b -> same_verdict b a.
Proof. intros [H1 [H2 H3]]. repeat split; congruence. Qed.

(** X12: the risk data reach the decision through the entry-block alert
    only: for two risk profiles, everything else equal,
    [generate_signal] returns the same signal, confidence, reasons and
    override reason; a risk/reward ratio below 1.0 adds the alert and
    blocks nothing, and the forced-NEUTRAL override on that ratio is
    never returned, since it asks for a ratio below 1.0 without the
    entry block that such a ratio always raises. *)
Theorem signal_independent_of_risk_data
    (ind : Indicators) (mc : MarketContext) (risk1 risk2 : RiskProfile)
    (ed : option Z) (f : option Fundamentals) (md : option MassiveDrop)
    (pcp : pyfloat) :
  exists d1 d2,
    generate_signal ind mc risk1 ed f md pcp = Ok d1
    /\ generate_signal ind mc risk2 ed f md pcp = Ok d2
    /\ signal d1 = signal d2
    /\ confidence d1 = confidence d2
    /\ reasons d1 = reasons d2
    /\ override_reason d1 = override_reason d2
    /\ override_reason d1 <> Some RRForcedNeutral.
Proof.
  unfold generate_signal, cascade.
  destruct md as [m |].
  { eexists. eexists. repeat split. discriminate. }
  destruct (check_sell_trigger _ _ _) as [st |] eqn:Es.
  { eexists. eexists. repeat split. discriminate. }
  rewrite no_divergence_without_price_change.
  destruct (check_financial_health_block f) as [fb |] eqn:Ef.
  { eexists. eexists. repeat split. discriminate. }
  destruct (check_earnings_proximity ed) as [ea |] eqn:Ee.
  { eexists. eexists. repeat split. discriminate. }
  rewrite !check_entry_block_spec.
  destruct (volume_ratio ind <? FQ 1 2)%F.
  { destruct (risk_reward_ratio risk1 <? FZ 1)%F;
      destruct (risk_reward_ratio risk2 <? FZ 1)%F; cbn [andb];
      eexists; eexists; repeat split; discriminate. }
  set (p := penalties f pcp).
  assert (Hsame : forall rr,
             same_verdict
               (scoring ind mc
                  (debt_equity_percent f
                     match (if (rr <? FZ 1)%F then Some (ENTRY_BLOCK rr) else None) with
                     | Some eb => add_alert eb (add_block (alert_message eb) p)
                     | None => p
                     end))
               (scoring ind mc (debt_equity_percent f p))).
  { intro rr. apply same_verdict_scoring, same_verdict_percent,
      same_verdict_after_entry_block. }
  assert (Hfin : finite_score (scoring ind mc (debt_equity_percent f p))).
  { apply scoring_finite, debt_equity_percent_finite, penalties_finite. }
  destruct Hfin as [s Hs].
  destruct (clamp_confidence_spec s) as [c [Hcl [[Hlo Hhi] _]]].
  pose proof (Hsame (risk_reward_ratio risk1)) as H1.
  pose proof (Hsame (risk_reward_ratio risk2)) as H2.
  destruct (risk_reward_ratio risk1 <? FZ 1)%F;
    destruct (risk_reward_ratio risk2 <? FZ 1)%F; cbn [andb];
    cbv beta iota zeta in H1, H2 |- *;
    destruct H1 as [S1 [R1 W1]]; destruct H2 as [S2 [R2 W2]];
    match goal with
    | |- exists d1 d2, bind (py_int (clamp_confidence (score ?x))) _ = _
                       /\ bind (py_int (clamp_confidence (score ?y))) _ = _ /\ _ =>
        replace (score x) with (Fin s) by congruence;
        replace (score y) with (Fin s) by congruence
    end;
    rewrite Hcl, (py_int_nonnegative c Hlo); cbn [bind];
    eexists; eexists; (split; [reflexivity |]); (split; [reflexivity |]);
    cbn [signal confidence reasons override_reason];
    repeat split; try congruence; discriminate.
Qed.

(** X13: what a BUY needs: a TRENDING regime, a confidence of at least
    70, and none of the overrides: no massive-drop alert, no sell
    trigger, no financial-health block, no earnings within the warning
    window, and a volume ratio that is not below 0.5. *)
Theorem buy_requires
    (ind : Indicators) (mc : MarketContext) (risk : RiskProfile)
    (ed : option Z) (f : option Fundamentals) (md : option MassiveDrop)
    (pcp : pyfloat) (d : Decision) :
  generate_signal ind mc risk ed f md pcp = Ok d ->
  signal d = BUY ->
  adx_regime ind = TRENDING
  /\ (70 <= confidence d)%Z
  /\ override_reason d = None
  /\ md = None
  /\ check_sell_trigger (rsi_value ind) (stoch_rsi_k ind) (volume_ratio ind) = None
  /\ check_financial_health_block f = None
  /\ check_earnings_proximity ed = None
  /\ (volume_ratio ind <? FQ 1 2)%F = false.
Proof.
  unfold generate_signal.
  destruct (cascade ind risk ed f md pcp) as [o | a] eqn:Hc.
  - intros H Hb. apply Ok_inj in H. subst o.
    destruct (cascade_override_signal _ _ _ _ _ _ _ Hc) as [Hs _].
    rewrite Hb in Hs. cbn in Hs.
    repeat (destruct Hs as [Hs | Hs]; [discriminate Hs |]). destruct Hs.
  - destruct (scoring_finite ind mc a (cascade_finite _ _ _ _ _ _ _ Hc)) as [s Hs].
    destruct (clamp_confidence_spec s) as [c [Hcl [[Hlo Hhi] _]]].
    cbv zeta. rewrite Hs, Hcl, (py_int_nonnegative c Hlo). cbn [bind].
    intros H Hb. apply Ok_inj in H. subst d.
    cbn [signal confidence override_reason] in *.
    apply final_signal_buy in Hb. destruct Hb as [Hb Hr].
    fsimpl in Hb. unfold inject_Z in Hb. qprops.
    split; [exact Hr |].
    split; [rewrite <- (Qfloor_Z 70); apply Qfloor_resp_le; exact Hb |].
    split; [reflexivity |].
    revert Hc. unfold cascade.
    destruct md; [discriminate |].
    destruct (check_sell_trigger _ _ _); [discriminate |].
    rewrite no_divergence_without_price_change.
    destruct (check_financial_health_block f); [discriminate |].
    destruct (check_earnings_proximity ed); [discriminate |].
    destruct (volume_ratio ind <? FQ 1 2)%F; [| repeat split].
    destruct (check_entry_block (risk_reward_ratio risk));
      destruct (risk_reward_ratio risk <? FZ 1)%F; cbn [andb]; discriminate.
Qed.

(** The favourable snapshot with a risk/reward ratio of 0.5: a BUY that
    carries the entry-block alert. *)
Lemma buy_requires_witness :
  exists d,
    generate_signal favourable_readings calm_market (risk_with_rr (FQ 1 2))
      None None None (FZ 0) = Ok d
    /\ signal d = BUY
    /\ adx_regime favourable_readings = TRENDING
    /\ (70 <= confidence d)%Z
    /\ advanced_alerts d = [ENTRY_BLOCK (FQ 1 2)].
Proof.
  eexists. split; [vm_compute; reflexivity |].
  split; [reflexivity |].
  destruct (buy_requires favourable_readings calm_market (risk_with_rr (FQ 1 2))
              None None None (FZ 0) _ ltac:(vm_compute; reflexivity) eq_refl)
    as [Hr [Hc _]].
  split; [exact Hr |]. split; [exact Hc | reflexivity].
Defined.

(** The daily-drop penalty never raises the score. *)
Lemma daily_drop_penalty_le (pcp : pyfloat) :
  exists q, score (daily_drop_penalty pcp acc0) = Fin q /\ q <= 0.
Proof.
  destruct (pcp <? FZ (-8))%F eqn:E.
  - destruct (daily_drop_penalty_points pcp E) as [q [H L]].
    exists q. split; [exact H | lra].
  - unfold daily_drop_penalty. rewrite E. exists 0. split; [reflexivity | lra].
Qed.

(** X14: with a raw debt/equity above 300 the three debt checks take
    at least 100 points, more than the 60 the scoring pass can add: the
    decision is never BUY or HOLD, and a scored decision is SELL with a
    confidence of 10 at most. *)
Theorem extreme_debt_never_buy_or_hold
    (ind : Indicators) (mc : MarketContext) (risk : RiskProfile)
    (ed : option Z) (f : Fundamentals) (dte : Q) (md : option MassiveDrop)
    (pcp : pyfloat) (d : Decision) :
  debt_to_equity f = Some (Fin dte) ->
  300 < dte ->
  generate_signal ind mc risk ed (Some f) md pcp = Ok d ->
  In (signal d) [WAIT; SELL; NEUTRAL; LIQUIDATE]
  /\ (override_reason d = None -> signal d = SELL /\ (confidence d <= 10)%Z).
Proof.
  intros Hf Hd. unfold generate_signal.
  destruct (cascade ind risk ed (Some f) md pcp) as [o | a] eqn:Hc.
  - intro H. apply Ok_inj in H. subst o.
    destruct (cascade_override_signal _ _ _ _ _ _ _ Hc) as [Hs Ho].
    split; [exact Hs |]. intro Hn. contradiction.
  - destruct (daily_drop_penalty_le pcp) as [q0 [H0 L0]].
    destruct (debt_equity_penalty_points f dte q0 _ Hf H0) as [q1 [H1 E1]].
    destruct (debt_equity_legacy_points f dte q1 _ Hf H1) as [q2 [H2 E2]].
    destruct (debt_equity_percent_points f dte q2 _ Hf H2) as [q3 [H3 E3]].
    assert (Hq : score a = Fin q3).
    { rewrite (cascade_score _ _ _ _ _ _ _ Hc). exact H3. }
    assert (L3 : q3 <= -100).
    { rewrite E3, E2, E1. unfold ratio_penalty, legacy_penalty, percent_penalty.
      destruct (Qltb 300 dte) eqn:E300; [| qprops; lra].
      destruct (Qltb 100 dte) eqn:E100; [| qprops; lra].
      qprops.
      destruct (Qltb 10 (dte / 100)) eqn:E10; [lra |].
      destruct (Qltb 3 (dte / 100)) eqn:E3'; [lra |].
      qprops. assert (dte / 100 == dte * (1 # 100)) by field. lra. }
    destruct (scoring_upper ind mc a q3 Hq) as [s [Hs Ls]].
    destruct (clamp_confidence_spec s) as [c [Hcl [[Hlo Hhi] [Hz [_ Hmid]]]]].
    cbv zeta. rewrite Hs, Hcl, (py_int_nonnegative c Hlo). cbn [bind].
    intro H. apply Ok_inj in H. subst d. cbn [signal confidence override_reason].
    assert (Hc10 : c <= 10).
    { destruct (Qlt_le_dec (50 + s) 0) as [Hneg | Hpos].
      - assert (c == 0) by (apply Hz; lra). lra.
      - assert (c == 50 + s) by (apply Hmid; lra). lra. }
    assert (Hsell : final_signal (Fin c) (adx_regime ind) = SELL).
    { apply final_signal_spec. lra. }
    rewrite Hsell. split; [cbn; auto |]. intros _. split; [reflexivity |].
    rewrite <- (Qfloor_Z 10). apply Qfloor_resp_le. exact Hc10.
Qed.

(** The favourable snapshot with a debt/equity of 301: SELL. *)
Lemma extreme_debt_never_buy_or_hold_witness :
  exists d,
    generate_signal favourable_readings calm_market (risk_with_rr (FZ 2))
      None (Some (leveraged (FZ 301))) None (FZ 0) = Ok d
    /\ signal d = SELL /\ (confidence d <= 10)%Z.
Proof.
  eexists. split; [vm_compute; reflexivity |].
  apply (extreme_debt_never_buy_or_hold favourable_readings calm_market
           (risk_with_rr (FZ 2)) None (leveraged (FZ 301)) 301 None (FZ 0));
    [reflexivity | reflexivity | vm_compute; reflexivity | reflexivity].
Defined.

(** ** Rounding is monotone *)

Lemma round_half_even_mono (x y : Q) :
  x <= y -> (round_half_even x <= round_half_even y)%Z.
Proof.
  intro H.
  assert (Hf : (Qfloor x <= Qfloor y)%Z) by (apply Qfloor_resp_le; exact H).
  pose proof (Qfloor_le x) as Hx1. pose proof (Qlt_floor x) as Hx2.
  pose proof (Qfloor_le y) as Hy1. pose proof (Qlt_floor y) as Hy2.
  destruct (Z.eq_dec (Qfloor x) (Qfloor y)) as [E | N].
  - unfold round_half_even. rewrite <- E in *.
    destruct (x - inject_Z (Qfloor x) ?= 1 # 2) eqn:Ex;
      [apply Qeq_alt in Ex | apply Qlt_alt in Ex | apply Qgt_alt in Ex];
      (destruct (y - inject_Z (Qfloor x) ?= 1 # 2) eqn:Ey;
       [apply Qeq_alt in Ey | apply Qlt_alt in Ey | apply Qgt_alt in Ey]);
      try (destruct (Z.even (Qfloor x))); try lia; exfalso; lra.
  - assert (Hlt : (Qfloor x + 1 <= Qfloor y)%Z) by lia.
    assert (Hux : (round_half_even x <= Qfloor x + 1)%Z).
    { unfold round_half_even.
      destruct (x - inject_Z (Qfloor x) ?= 1 # 2);
        try (destruct (Z.even (Qfloor x))); lia. }
    assert (Hly : (Qfloor y <= round_half_even y)%Z).
    { unfold round_half_even.
      destruct (y - inject_Z (Qfloor y) ?= 1 # 2);
        try (destruct (Z.even (Qfloor y))); lia. }
    lia.
Qed.

Lemma Qround_digits_mono (scale : positive) (x y : Q) :
  x <= y -> Qround_digits x scale <= Qround_digits y scale.
Proof.
  intro H. unfold Qround_digits. rewrite !Qred_correct.
  assert (Hs : x * inject_Z (Zpos scale) <= y * inject_Z (Zpos scale)).
  { apply Qmult_le_compat_r; [exact H |]. unfold Qle. cbn. lia. }
  apply round_half_even_mono in Hs.
  unfold Qle. cbn. nia.
Qed.

Lemma round2_mono (x y : Q) :
  x <= y -> (round2 (Fin x) <=? round2 (Fin y))%F = true.
Proof.
  intro H. unfold round2, py_round. fsimpl. apply Qleb_true.
  apply Qround_digits_mono. exact H.
Qed.

(** [round2] keeps a number inside bounds that are multiples of 0.01. *)
Lemma round2_in_range (lo hi : Z) (q : Q) :
  lo # 100 <= q <= hi # 100 ->
  in_range (lo # 100) (hi # 100) (round2 (Fin q)).
Proof.
  intros [H1 H2]. eexists. split; [reflexivity |]. split.
  - apply Qround_digits_lower. exact H1.
  - apply Qround_digits_upper. exact H2.
Qed.

(** ** The risk profile on a regular snapshot *)

Lemma validate_stop_loss_range (sl : pyfloat) (p a : Q) :
  1 # 100 < p -> 0 < a ->
  exists r, validate_stop_loss sl (Fin p) (Fin a) = Ok (Fin r)
            /\ 1 # 100 <= r /\ r < p.
Proof.
  intros Hp Ha. unfold validate_stop_loss.
  rewrite validate_price_float. cbn [bind]. rewrite validate_price_float.
  unfold default_min_price.
  destruct sl as [q | | |]; fcases; fsimpl;
    (eexists; split; [reflexivity |]); qsolve.
Qed.

(** The take-profit handed to the validator is a number or missing, never
    an infinity, whatever the resistance is. *)
Lemma take_profit_candidate_not_inf (res : pyfloat) (p a : Q) :
  is_inf (if (Fin p >=? res * FQ 98 100)%F
          then (Fin p + Fin a * FZ 3)%F
          else (res - res * FQ 2 1000)%F) = false.
Proof.
  destruct res as [r | | |]; try reflexivity.
  fsimpl. destruct (Qleb _ _); reflexivity.
Qed.

Lemma validate_take_profit_range (tp : pyfloat) (p a : Q) :
  is_inf tp = false -> 0 < a ->
  exists t, validate_take_profit tp (Fin p) (Fin a) = Ok (Fin t) /\ p < t.
Proof.
  intros Hi Ha. unfold validate_take_profit.
  rewrite validate_price_float. cbn [bind]. unfold default_min_price.
  destruct tp as [q | | |]; try discriminate Hi; fcases; fsimpl;
    (eexists; split; [reflexivity |]); qsolve.
Qed.

Lemma py_div_finite (x y : Q) :
  ~ y == 0 -> py_div (Fin x) (Fin y) = Ok (Fin (Qred (x / y))).
Proof.
  intro H. unfold py_div, np_div. apply Qeqb_false in H. rewrite H. reflexivity.
Qed.

Lemma risk_reward_anatomy (ind : Indicators) (p a : Q) :
  price_current ind = Fin p ->
  atr_value ind = Fin a ->
  1 # 100 < p -> 0 < a ->
  exists rp s slp t rr psp tr,
    calculate_risk_reward ind = Ok rp
    /\ entry_price rp = round2 (Fin p)
    /\ stop_loss rp = round2 (Fin s) /\ 1 # 100 <= s /\ s < p
    /\ stop_loss_percent rp = round2 (Fin slp) /\ 0 < slp <= 10
    /\ take_profit rp = round2 (Fin t) /\ p < t
    /\ risk_reward_ratio rp = PriceValidator.rr_ratio (cap_risk_reward_ratio (Fin rr) (FZ 10))
    /\ actual_rr_ratio rp = round2 (Fin rr) /\ 0 < rr
    /\ position_size_suggestion rp = round2 (py_min (Fin psp) (FZ 100))
    /\ 10 <= psp
    /\ trailing_stop rp = round2 (Fin tr) /\ 1 # 100 <= tr <= p
    /\ favorable rp = (Fin rr >=? FQ 3 2)%F
    /\ risk_assessment rp = _assess_risk (Fin rr) (Fin slp)
    /\ rr_capped rp = (Fin rr >? FZ 10)%F.
Proof.
  intros Hp Ha Lp La. unfold calculate_risk_reward. cbv zeta.
  rewrite Hp, Ha.
  match goal with
  | |- context [validate_stop_loss ?sl _ _] =>
      destruct (validate_stop_loss_range sl p a Lp La) as [r [Hr [Lr1 Lr2]]]
  end.
  rewrite Hr. cbn [bind].
  change (Fin p - Fin r)%F with (Fin (Qred (p - r))).
  rewrite py_div_finite by lra. cbn [bind].
  change (Fin (Qred (Qred (p - r) / p)) * FZ 100)%F
    with (Fin (Qred (Qred (Qred (p - r) / p) * inject_Z 100))).
  set (slp0 := Qred (Qred (Qred (p - r) / p) * inject_Z 100)).
  assert (Hd : exists d, slp0 == d * 100 /\ d * p == p - r).
  { exists ((p - r) / p). split.
    - unfold slp0. rewrite !Qred_correct. reflexivity.
    - field. lra. }
  destruct Hd as [d [Hslp0 Hd]].
  assert (Hpair : exists s slp,
             (if (Fin slp0 >? FZ 10)%F
              then ((Fin p * FQ 9 10)%F, FZ 10)
              else (Fin r, Fin slp0)) = (Fin s, Fin slp)
             /\ 1 # 100 <= s /\ s < p /\ 0 < slp <= 10).
  { fsimpl. unfold inject_Z. destruct (Qltb 10 slp0) eqn:E; qprops.
    - eexists. eexists. split; [reflexivity |].
      rewrite !Qred_correct. rewrite Hslp0 in E.
      repeat split; unfold inject_Z; nra.
    - exists r, slp0. split; [reflexivity |].
      rewrite Hslp0 in *. repeat split; nra. }
  clearbody slp0. clear d Hslp0 Hd.
  destruct Hpair as [s [slp [Hpair [Ls1 [Ls2 Lslp]]]]].
  rewrite Hpair. clear Hpair slp0 Hr Lr1 Lr2 r.
  match goal with
  | |- context [validate_take_profit ?tp _ _] =>
      destruct (validate_take_profit_range tp p a
                  (take_profit_candidate_not_inf _ p a) La) as [t [Ht Lt]]
  end.
  rewrite Ht. cbn [bind].
  change (Fin p - Fin s)%F with (Fin (Qred (p - s))).
  change (Fin t - Fin p)%F with (Fin (Qred (t - p))).
  assert (Hrisk : (Fin (Qred (p - s)) <=? FZ 0)%F = false).
  { fsimpl. apply Qleb_false. qsolve. }
  rewrite Hrisk.
  assert (Hrisk' : (Fin (Qred (p - s)) >? FZ 0)%F = true).
  { fsimpl. apply Qltb_true. qsolve. }
  rewrite Hrisk'.
  rewrite py_div_finite by (rewrite Qred_correct; lra). cbn [bind].
  change (py_div (FZ 1) (Fin slp)) with (py_div (Fin 1) (Fin slp)).
  rewrite py_div_finite by lra. cbn [bind].
  rewrite validate_price_float. cbn [bind].
  assert (Htr : exists tr,
             (if is_nan (Fin p - Fin a * FZ 2)
              then default_min_price
              else py_max default_min_price (Fin p - Fin a * FZ 2)%F) = Fin tr
             /\ 1 # 100 <= tr <= p).
  { unfold default_min_price. fsimpl. unfold inject_Z.
    destruct (Qltb _ _) eqn:E; (eexists; split; [reflexivity |]); qsolve. }
  destruct Htr as [tr [Htr Ltr]]. rewrite Htr.
  set (rr := Qred (Qred (t - p) / Qred (p - s))).
  assert (Lrr : 0 < rr).
  { unfold rr. rewrite !Qred_correct. apply Qlt_shift_div_l; lra. }
  assert (Hpsp : (Fin (Qred (1 / slp)) * FZ 100)%F
                 = Fin (Qred (Qred (1 / slp) * inject_Z 100))) by reflexivity.
  rewrite Hpsp.
  assert (Lpsp : 10 <= Qred (Qred (1 / slp) * inject_Z 100)).
  { rewrite !Qred_correct. unfold inject_Z.
    assert (Hq : 1 / slp * 100 == 100 / slp) by (field; lra).
    rewrite Hq. apply Qle_shift_div_l; lra. }
  eexists. exists s, slp, t, rr. eexists. exists tr.
  split; [reflexivity |].
  cbn [entry_price stop_loss take_profit stop_loss_percent risk_reward_ratio
       actual_rr_ratio position_size_suggestion trailing_stop favorable
       risk_assessment rr_capped].
  repeat (split; [first [reflexivity | assumption | lra] |]).
  split; [unfold cap_risk_reward_ratio; destruct (Fin rr >? FZ 10)%F; reflexivity |].
  split; [exact Lrr |]. split; [reflexivity |].
  split; [exact Lpsp |]. split; [reflexivity |]. split; [exact Ltr |].
  split; [reflexivity |]. split; [reflexivity |].
  unfold cap_risk_reward_ratio; destruct (Fin rr >? FZ 10)%F; reflexivity.
Qed.

Lemma fle_round2_cent (x : pyfloat) :
  (FQ 1 100 <=? x)%F = true -> (FQ 1 100 <=? round2 x)%F = true.
Proof. exact (round2_at_least_cent x). Qed.

(** X15: on a snapshot with a price above one cent and a positive ATR
    (support and resistance arbitrary, [NaN] and the infinities
    included) [calculate_risk_reward] returns a Risk Profile; in it
    0.01 <= stop-loss <= entry <= take-profit and
    0.01 <= trailing stop <= entry, the stop distance is between 0 and
    10 percent, the displayed risk/reward ratio between 0 and 10, and
    the suggested position size between 10 and 100 percent. *)
Theorem risk_profile_bounds (ind : Indicators) (p a : Q) :
  price_current ind = Fin p ->
  atr_value ind = Fin a ->
  1 # 100 < p -> 0 < a ->
  exists rp,
    calculate_risk_reward ind = Ok rp
    /\ (FQ 1 100 <=? stop_loss rp)%F = true
    /\ (stop_loss rp <=? entry_price rp)%F = true
    /\ (entry_price rp <=? take_profit rp)%F = true
    /\ (FQ 1 100 <=? trailing_stop rp)%F = true
    /\ (trailing_stop rp <=? entry_price rp)%F = true
    /\ in_range 0 10 (stop_loss_percent rp)
    /\ in_range 0 10 (risk_reward_ratio rp)
    /\ in_range 10 100 (position_size_suggestion rp).
Proof.
  intros Hp Ha Lp La.
  destruct (risk_reward_anatomy ind p a Hp Ha Lp La)
    as [rp [s [slp [t [rr [psp [tr H]]]]]]].
  destruct H as (Hrp & He & Hs & Ls1 & Ls2 & Hslp & Lslp & Ht & Lt & Hrr & Hact
               & Lrr & Hps & Lpsp & Htr & Ltr & Hfav & Hass & Hcap).
  exists rp. split; [exact Hrp |].
  rewrite He, Hs, Ht, Htr, Hslp, Hrr, Hps.
  split; [apply fle_round2_cent; apply Qleb_true; qsolve |].
  split; [apply round2_mono; lra |].
  split; [apply round2_mono; lra |].
  split; [apply fle_round2_cent; apply Qleb_true; qsolve |].
  split; [apply round2_mono; lra |].
  split.
  { destruct (round2_in_range 0 1000 slp) as [q [E L]]; [lra |].
    exists q. split; [exact E | lra]. }
  split.
  { unfold cap_risk_reward_ratio. fsimpl. unfold inject_Z.
    destruct (Qltb 10 rr) eqn:E; cbn [PriceValidator.rr_ratio]; qprops.
    - exists 10. split; [reflexivity | lra].
    - destruct (round2_in_range 0 1000 rr) as [q [E' L]]; [lra |].
      exists q. split; [exact E' | lra]. }
  fsimpl. unfold inject_Z. destruct (Qltb 100 psp) eqn:E; qprops.
  - destruct (round2_in_range 1000 10000 100) as [q [E' L]]; [lra |].
    exists q. split; [exact E' | lra].
  - destruct (round2_in_range 1000 10000 psp) as [q [E' L]]; [lra |].
    exists q. split; [exact E' | lra].
Qed.

(** Price 100, ATR 2, support 90, resistance 120: stop 97, target
    119.76, ratio 6.59, position 33.33. *)
Lemma risk_profile_bounds_witness :
  exists rp,
    calculate_risk_reward (snapshot (FZ 100) (FZ 2) (FZ 90) (FZ 120)) = Ok rp
    /\ (stop_loss rp <=? entry_price rp)%F = true
    /\ (entry_price rp <=? take_profit rp)%F = true
    /\ in_range 0 10 (stop_loss_percent rp)
    /\ in_range 0 10 (risk_reward_ratio rp)
    /\ in_range 10 100 (position_size_suggestion rp).
Proof.
  destruct (risk_profile_bounds (snapshot (FZ 100) (FZ 2) (FZ 90) (FZ 120)) 100 2
              eq_refl eq_refl ltac:(lra) ltac:(lra))
    as [rp [H [_ [H1 [H2 [_ [_ [H3 [H4 H5]]]]]]]]].
  exists rp. repeat split; assumption.
Defined.

(** ** The fields of the risk profile agree with each other *)

Lemma fge_weaken (x : pyfloat) (a b : Q) :
  b <= a -> (x >=? Fin a)%F = true -> (x >=? Fin b)%F = true.
Proof.
  intro H. destruct x as [q | | |]; try discriminate; try reflexivity.
  fsimpl. intro L. apply Qleb_true. qprops. lra.
Qed.

Lemma flt_not_fge (x y : pyfloat) : (x <? y)%F = true -> (x >=? y)%F = false.
Proof.
  destruct x as [a | | |], y as [b | | |]; try discriminate; try reflexivity.
  fsimpl. intro L. apply Qleb_false. qprops. exact L.
Qed.

Lemma fgt_fge (x : pyfloat) (a b : Q) :
  b <= a -> (x >? Fin a)%F = true -> (x >=? Fin b)%F = true.
Proof.
  intro H. destruct x as [q | | |]; try discriminate; try reflexivity.
  fsimpl. intro L. apply Qleb_true. qprops. lra.
Qed.

Lemma assess_risk_favorable (rr slp : pyfloat) :
  (_assess_risk rr slp = RiskLow \/ _assess_risk rr slp = RiskModerate ->
   (rr >=? FQ 3 2)%F = true)
  /\ (_assess_risk rr slp = RiskHighRR -> (rr >=? FQ 3 2)%F = false).
Proof.
  unfold _assess_risk.
  destruct (rr >=? FQ 5 2)%F eqn:E1; destruct (slp <=? FZ 5)%F; cbn [andb].
  1: { apply (fge_weaken rr (Qred (5 # 2)) (Qred (3 # 2))) in E1; [| rewrite !Qred_correct; lra].
       change (Fin (Qred (3 # 2))) with (FQ 3 2) in E1.
       split; [intros _; exact E1 | discriminate]. }
  all: destruct (rr >=? FQ 3 2)%F eqn:E2; destruct (slp <=? FZ 7)%F; cbn [andb];
    try (split; [reflexivity | discriminate]);
    destruct (rr <? FQ 3 2)%F eqn:E3;
    try (apply flt_not_fge in E3; rewrite E3 in E2; discriminate E2);
    (split; [intros [H | H]; discriminate H | intro H; try discriminate H; reflexivity]).
Qed.

(** X16: in every returned Risk Profile the flags agree: an assessment
    of low or moderate risk comes with [favorable], the assessment
    "unfavourable R/R" with [not favorable]; a capped ratio is displayed
    as 10, is favourable and carries the take-profit warning; an
    uncapped one is displayed as it is, without a warning. *)
Theorem risk_profile_consistent (ind : Indicators) (rp : RiskProfile) :
  calculate_risk_reward ind = Ok rp ->
  (risk_assessment rp = RiskLow \/ risk_assessment rp = RiskModerate ->
   favorable rp = true)
  /\ (risk_assessment rp = RiskHighRR -> favorable rp = false)
  /\ (rr_capped rp = true ->
      risk_reward_ratio rp = FZ 10 /\ favorable rp = true
      /\ rp_rr_warning rp = Some TakeProfitTooAggressive)
  /\ (rr_capped rp = false ->
      risk_reward_ratio rp = actual_rr_ratio rp /\ rp_rr_warning rp = None).
Proof.
  unfold calculate_risk_reward. cbv zeta.
  open_bind sl. open_bind q.
  match goal with
  | |- (let '(_, _) := if ?c then _ else _ in _) = _ -> _ => destruct c
  end.
  all: open_bind tp; open_bind rr; open_bind q2; open_bind ts;
    intro H; apply Ok_inj in H; subst rp;
    cbn [risk_assessment favorable rr_capped risk_reward_ratio actual_rr_ratio
         rp_rr_warning];
    (split; [apply assess_risk_favorable |]);
    (split; [apply assess_risk_favorable |]);
    unfold cap_risk_reward_ratio;
    destruct (rr >? FZ 10)%F eqn:E10;
    cbn [capped PriceValidator.rr_ratio actual_rr rr_warning];
    (split; intro H; try discriminate H; repeat split);
    apply (fgt_fge _ (inject_Z 10) (Qred (3 # 2))); [rewrite Qred_correct; unfold inject_Z; lra | exact E10].
Qed.

(** The quiet snapshot: a ratio of 6520 displayed as 10. *)
Lemma risk_profile_consistent_witness :
  exists rp,
    calculate_risk_reward quiet_snapshot = Ok rp
    /\ rr_capped rp = true
    /\ risk_reward_ratio rp = FZ 10
    /\ favorable rp = true.
Proof.
  destruct (calculate_risk_reward quiet_snapshot) as [rp |] eqn:E;
    [| vm_compute in E; discriminate E].
  exists rp. split; [reflexivity |].
  assert (Hc : rr_capped rp = true).
  { vm_compute in E. apply Ok_inj in E. subst rp. reflexivity. }
  split; [exact Hc |].
  destruct (risk_profile_consistent quiet_snapshot rp E) as [_ [_ [H _]]].
  destruct (H Hc) as [H1 [H2 _]]. split; assumption.
Defined.

(** ** Position sizing *)

(** X17: [calculate_position_sizing] reads the stop distance back from
    the Risk Profile, rounded to two decimals: when that is 0.00 the
    share count is a division by zero and the call raises, although the
    Risk Profile itself was returned. *)
Theorem position_sizing_zero_distance (ind : Indicators) (rp : RiskProfile)
    (p z : Q) (account_size risk_percent : pyfloat) :
  price_current ind = Fin p ->
  calculate_risk_reward ind = Ok rp ->
  stop_loss_percent rp = Fin z ->
  z == 0 ->
  calculate_position_sizing ind account_size risk_percent
  = Raise ZeroDivisionError.
Proof.
  intros Hp Hrp Hz Ez. unfold calculate_position_sizing. cbv zeta.
  rewrite Hrp. cbn [bind]. rewrite Hp, Hz.
  change (FZ 100) with (Fin 100).
  unfold py_div at 1. change (Qeqb 100 0) with false. cbn [bind].
  rewrite py_div_finite by lra. cbn [bind].
  change (Fin p * Fin (Qred (z / 100)))%F with (Fin (Qred (p * Qred (z / 100)))).
  rewrite py_div_zero_divisor; [reflexivity |].
  rewrite !Qred_correct, Ez. field.
Qed.

(** Price 1000 and ATR 0.01: the stop is 0.0015% away, 0.00 rounded. *)
Lemma position_sizing_zero_distance_witness :
  (exists rp, calculate_risk_reward quiet_snapshot = Ok rp
              /\ stop_loss_percent rp = Fin 0)
  /\ calculate_position_sizing quiet_snapshot (FZ 10000) (FZ 1)
     = Raise ZeroDivisionError.
Proof.
  destruct (calculate_risk_reward quiet_snapshot) as [rp |] eqn:E;
    [| vm_compute in E; discriminate E].
  assert (Hz : stop_loss_percent rp = Fin 0).
  { vm_compute in E. apply Ok_inj in E. subst rp. reflexivity. }
  split.
  - exists rp. split; [reflexivity | exact Hz].
  - apply (position_sizing_zero_distance quiet_snapshot rp 1000 0 (FZ 10000) (FZ 1));
      [reflexivity | exact E | exact Hz | reflexivity].
Defined.

(** X18: on a snapshot with a price above one cent and a positive ATR,
    for a non-negative account and risk percentage, a position sizing
    that is returned has a non-negative whole number of shares, and the
    loss of these shares at the stop distance of the profile is at most
    the risk amount: the truncation rounds the exposure down. *)
Theorem position_sizing_within_risk (ind : Indicators) (p a acc rk : Q)
    (ps : PositionSizing) :
  price_current ind = Fin p ->
  atr_value ind = Fin a ->
  1 # 100 < p -> 0 < a -> 0 <= acc -> 0 <= rk ->
  calculate_position_sizing ind (Fin acc) (Fin rk) = Ok ps ->
  exists rp slp,
    calculate_risk_reward ind = Ok rp
    /\ stop_loss_percent rp = Fin slp
    /\ 0 < slp
    /\ (0 <= shares ps)%Z
    /\ inject_Z (shares ps) * p * (slp / 100) <= acc * (rk / 100).
Proof.
  intros Hp Ha Lp La Lacc Lrk.
  destruct (risk_reward_anatomy ind p a Hp Ha Lp La)
    as [rp [s [slp [t [rr [psp [tr H]]]]]]].
  destruct H as (Hrp & He & Hs & Ls1 & Ls2 & Hslp & Lslp & _).
  unfold calculate_position_sizing. cbv zeta.
  rewrite Hrp. cbn [bind]. rewrite Hp, Hslp.
  change (round2 (Fin slp)) with (Fin (Qround_digits slp 100)).
  set (z := Qround_digits slp 100).
  assert (Lz : 0 <= z).
  { assert (H0 : 0 # 100 <= z) by (apply Qround_digits_lower; lra). lra. }
  change (FZ 100) with (Fin 100).
  rewrite !py_div_finite by lra. cbn [bind].
  change (Fin acc * Fin (Qred (rk / 100)))%F
    with (Fin (Qred (acc * Qred (rk / 100)))).
  change (Fin p * Fin (Qred (z / 100)))%F with (Fin (Qred (p * Qred (z / 100)))).
  set (x := Qred (acc * Qred (rk / 100))).
  set (y := Qred (p * Qred (z / 100))).
  assert (Hx : x == acc * (rk / 100)) by (unfold x; rewrite !Qred_correct; reflexivity).
  assert (Hx' : x == acc * rk * (1 # 100)) by (rewrite Hx; field).
  assert (Hy : y == p * (z / 100)) by (unfold y; rewrite !Qred_correct; reflexivity).
  assert (Hy' : y == p * z * (1 # 100)) by (rewrite Hy; field).
  unfold py_div. destruct (Qeqb y 0) eqn:Ey; [discriminate |]. cbn [bind].
  unfold np_div. rewrite Ey. qprops.
  assert (Lz' : 0 < z).
  { destruct (Qlt_le_dec 0 z) as [L | L]; [exact L |].
    exfalso. apply Ey. rewrite Hy. assert (Hz0 : z == 0) by lra.
    rewrite Hz0. field. }
  assert (Ly : 0 < y) by (rewrite Hy'; nra).
  assert (Lx : 0 <= x) by (rewrite Hx'; nra).
  set (q := Qred (x / y)).
  assert (Hq : q * y == x) by (unfold q; rewrite Qred_correct; field; lra).
  assert (Lq : 0 <= q) by nra.
  rewrite (py_int_nonnegative q Lq). cbn [bind].
  intro H. apply Ok_inj in H. subst ps. cbn [shares].
  exists rp, z. split; [reflexivity |]. split; [exact Hslp |].
  split; [exact Lz' |].
  pose proof (Qfloor_le q) as Hfl.
  split.
  - rewrite <- (Qfloor_Z 0). apply Qfloor_resp_le. exact Lq.
  - rewrite <- Hx, <- Hq.
    assert (Hy2 : inject_Z (Qfloor q) * p * (z / 100) == inject_Z (Qfloor q) * y).
    { rewrite Hy. ring. }
    rewrite Hy2. nra.
Qed.

(** An account of 10000 risking 1% at price 100 with a stop 3% away:
    33 shares. *)
Lemma position_sizing_within_risk_witness :
  exists ps,
    calculate_position_sizing (snapshot (FZ 100) (FZ 2) (FZ 90) (FZ 120))
      (FZ 10000) (FZ 1) = Ok ps
    /\ shares ps = 33%Z
    /\ exists slp, 0 < slp /\ inject_Z (shares ps) * 100 * (slp / 100)
                              <= 10000 * (1 / 100).
Proof.
  eexists. split; [vm_compute; reflexivity |]. split; [reflexivity |].
  destruct (position_sizing_within_risk
              (snapshot (FZ 100) (FZ 2) (FZ 90) (FZ 120)) 100 2 10000 1
              _ eq_refl eq_refl ltac:(lra) ltac:(lra) ltac:(lra) ltac:(lra)
              ltac:(vm_compute; reflexivity))
    as [rp [slp [_ [_ [L [_ B]]]]]].
  exists slp. split; [exact L | exact B].
Defined.

(** ** Positional access on frames that are long enough *)

Lemma iloc_last_returns (s : Series) :
  (1 <= List.length s)%nat -> exists x, iloc_last s = Ok x.
Proof.
  intro H. exists (last s NaN). apply iloc_last_last.
  destruct s; [cbn in H; lia | discriminate].
Qed.

Lemma iloc_last2_returns (s : Series) :
  (2 <= List.length s)%nat -> exists x, iloc_last2 s = Ok x.
Proof.
  intro H. unfold iloc_last2.
  assert (Hr : List.length (rev s) = List.length s) by apply length_rev.
  destruct (rev s) as [| a [| b r]]; cbn in Hr; try lia.
  exists b. reflexivity.
Qed.

Lemma col_length (f : Bar -> pyfloat) (df : DataFrame) :
  List.length (col f df) = List.length df.
Proof. apply length_map. Qed.

(** ** Rounding to two decimals keeps a value on its side of a threshold *)

Lemma round2_above (x : pyfloat) (b : Q) (z : Z) :
  b == z # 100 -> (x >? Fin b)%F = true -> (round2 x >=? Fin b)%F = true.
Proof.
  intro Hb. destruct x as [q | | |]; try discriminate; [| reflexivity].
  unfold round2, py_round. fsimpl. intro H. qprops. apply Qleb_true.
  rewrite Hb in *. apply Qround_digits_lower. lra.
Qed.

Lemma round2_below (x : pyfloat) (b : Q) (z : Z) :
  b == z # 100 -> (x <? Fin b)%F = true -> (round2 x <=? Fin b)%F = true.
Proof.
  intro Hb. destruct x as [q | | |]; try discriminate; [| reflexivity].
  unfold round2, py_round. fsimpl. intro H. qprops. apply Qleb_true.
  rewrite Hb in *. apply Qround_digits_upper. lra.
Qed.

(** X8: [detect_gap_reversal] never raises, and a reversal it reports
    comes from at least twenty bars (below that the volume ratio is
    taken as 1.0, which is not above 1.2), with a rounded gap of -3% or
    lower, a rounded recovery of 50% or more and a rounded volume ratio
    of 1.2 or more. *)
Theorem detect_gap_reversal_report (df : DataFrame) :
  exists r,
    detect_gap_reversal df = Ok r
    /\ forall g, r = Some g ->
         (20 <= List.length df)%nat
         /\ (gap_percent g <=? FZ (-3))%F = true
         /\ (recovery_percent g >=? FZ 50)%F = true
         /\ (gr_volume_ratio g >=? FQ 12 10)%F = true.
Proof.
  unfold detect_gap_reversal.
  destruct (Nat.ltb_spec (List.length df) 2) as [Hc | H2].
  { exists None. split; [reflexivity | discriminate]. }
  destruct (iloc_last2_returns (col bar_close df)) as [pc ->];
    [rewrite col_length; exact H2 |].
  destruct (iloc_last_returns (col bar_open df)) as [co ->];
    [rewrite col_length; lia |].
  destruct (iloc_last_returns (col bar_close df)) as [cc ->];
    [rewrite col_length; lia |].
  destruct (iloc_last_returns (col bar_high df)) as [ch ->];
    [rewrite col_length; lia |].
  destruct (iloc_last_returns (col bar_low df)) as [cl ->];
    [rewrite col_length; lia |].
  cbn [bind]. cbv zeta.
  destruct (_ <? FZ (-3))%F eqn:Egap;
    [| exists None; split; [reflexivity | discriminate]].
  destruct (Nat.leb_spec 20 (List.length df)) as [H20 | H20].
  - destruct (iloc_last_returns (col bar_volume df)) as [v ->];
      [rewrite col_length; lia |].
    destruct (iloc_last_returns (rolling_mean 20 (col bar_volume df))) as [m ->];
      [unfold rolling_mean; rewrite rolling_length, col_length; lia |].
    cbn [bind].
    match goal with
    | |- context [if ?a && ?b then _ else _] =>
        destruct a eqn:Erec; [destruct b eqn:Evol |]; cbn [andb]
    end; try (exists None; split; [reflexivity | discriminate]).
    eexists. split; [reflexivity |].
    intros g Hg. apply Some_inj in Hg. subst g.
    cbn [gap_percent recovery_percent gr_volume_ratio].
    split; [exact H20 |].
    split; [apply (round2_below _ _ (-300)); [reflexivity | exact Egap] |].
    split; [apply (round2_above _ _ 5000); [reflexivity | exact Erec] |].
    apply (round2_above _ _ 120); [reflexivity | exact Evol].
  - cbn [bind].
    replace (FZ 1 >? FQ 12 10)%F with false by reflexivity.
    rewrite andb_false_r.
    exists None. split; [reflexivity | discriminate].
Qed.

(** The gap-down frame on a last volume of 3000: a gap of 5%, 70% of the
    fall recovered. *)
Lemma detect_gap_reversal_report_witness :
  exists g,
    detect_gap_reversal (gap_down_bars (FZ 3000)) = Ok (Some g)
    /\ gap_percent g = FZ (-5)
    /\ (recovery_percent g >=? FZ 50)%F = true.
Proof.
  destruct (detect_gap_reversal_report (gap_down_bars (FZ 3000))) as [r [H Hr]].
  vm_compute in H. apply Ok_inj in H. subst r.
  eexists. split; [reflexivity |]. split; [reflexivity |].
  destruct (Hr _ eq_refl) as [_ [_ [H50 _]]]. exact H50.
Defined.

(** ** The exponential moving average is a convex combination *)

Section Ewm.

Variable P : Q -> Prop.
Hypothesis P_compat : forall a b, a == b -> P a -> P b.
Hypothesis P_convex :
  forall a b t, 0 <= t <= 1 -> P a -> P b -> P ((1 - t) * a + t * b).

Lemma ewm_step (alpha a x : Q) :
  0 <= alpha <= 1 -> P a -> P x ->
  number P (Fin (Qred (1 - alpha)) * Fin a + Fin (Qred alpha) * Fin x)%F.
Proof.
  intros Ht Ha Hx. eexists. split; [reflexivity |].
  apply (P_compat ((1 - alpha) * a + alpha * x)).
  - rewrite !Qred_correct. reflexivity.
  - apply P_convex; assumption.
Qed.

Lemma ewm_from_number (alpha : Q) (s : Series) :
  0 <= alpha <= 1 ->
  forall prev, number P prev -> Forall (number P) s ->
  Forall (number P) (ewm_from alpha prev s).
Proof.
  intro Ht. induction s as [| x r IH]; intros prev Hp Hs; [constructor |].
  inversion Hs as [| ? ? Hx Hr]; subst.
  destruct Hp as [a [-> Ha]]. destruct Hx as [q [-> Hq]].
  cbn [ewm_from]. constructor.
  - apply ewm_step; assumption.
  - apply IH; [apply ewm_step; assumption | exact Hr].
Qed.

Lemma smoothing_factor_range (span : positive) : 0 <= 2 # (span + 1) <= 1.
Proof. unfold Qle. cbn. split; lia. Qed.

Lemma ewm_mean_number (span : positive) (s : Series) :
  Forall (number P) s -> Forall (number P) (ewm_mean span s).
Proof.
  intro Hs. destruct s as [| x r]; [constructor |].
  inversion Hs as [| ? ? Hx Hr]; subst.
  cbn [ewm_mean]. constructor; [exact Hx |].
  apply ewm_from_number; [apply smoothing_factor_range | exact Hx | exact Hr].
Qed.

End Ewm.

Lemma ewm_mean_length (span : positive) (s : Series) :
  List.length (ewm_mean span s) = List.length s.
Proof.
  destruct s as [| x r]; [reflexivity |]. cbn [ewm_mean List.length]. f_equal.
  generalize x. induction r as [| y r IH]; intro p; [reflexivity |].
  cbn [ewm_from List.length]. f_equal. apply IH.
Qed.

(** X19: the exponential moving average has one value per bar, and
    when every close is a number between [lo] and [hi] so is every value
    of the average, for every span. *)
Theorem calculate_ema_between (df : DataFrame) (period : positive) (lo hi : Q) :
  Forall (fun b => in_range lo hi (bar_close b)) df ->
  List.length (calculate_ema df period) = List.length df
  /\ Forall (in_range lo hi) (calculate_ema df period).
Proof.
  intro H. unfold calculate_ema. split.
  - rewrite ewm_mean_length. apply col_length.
  - apply (ewm_mean_number (fun q => lo <= q <= hi)).
    + intros a b E [H1 H2]. rewrite <- E. split; assumption.
    + intros a b t [Ht0 Ht1] [Ha1 Ha2] [Hb1 Hb2].
      assert (0 <= (1 - t) * (a - lo)) by (apply Qmult_le_0_compat; lra).
      assert (0 <= t * (b - lo)) by (apply Qmult_le_0_compat; lra).
      assert (0 <= (1 - t) * (hi - a)) by (apply Qmult_le_0_compat; lra).
      assert (0 <= t * (hi - b)) by (apply Qmult_le_0_compat; lra).
      split; nra.
    + unfold col. apply Forall_map. exact H.
Qed.

(** The thirty rising bars close between 100 and 129. *)
Lemma calculate_ema_between_witness :
  Forall (in_range 100 129) (calculate_ema (rising_bars 30) 20).
Proof.
  apply (calculate_ema_between (rising_bars 30) 20 100 129).
  unfold rising_bars. apply Forall_map, Forall_forall. intros i Hi.
  apply in_seq in Hi. cbn [bar_close]. eexists. split; [reflexivity |].
  change 100 with (inject_Z 100). change 129 with (inject_Z 129).
  rewrite <- !Zle_Qle. lia.
Defined.

(** ** The last value of the moving average after one more bar *)

Lemma last_cons {A : Type} (l : list A) (a d : A) : last (a :: l) d = last l a.
Proof.
  revert a d. induction l as [| b r IH]; intros a d; [reflexivity |].
  change (last (a :: b :: r) d) with (last (b :: r) d). rewrite !IH. reflexivity.
Qed.

Lemma ewm_from_app (alpha : Q) (s : Series) (x : pyfloat) :
  forall prev,
    ewm_from alpha prev (s ++ [x])
    = ewm_from alpha prev s
      ++ [(Fin (Qred (1 - alpha)) * last (ewm_from alpha prev s) prev
           + Fin (Qred alpha) * x)%F].
Proof.
  induction s as [| y r IH]; intro prev; [reflexivity |].
  cbn [app ewm_from]. rewrite IH. cbn [app]. rewrite last_cons. reflexivity.
Qed.

Lemma iloc_last_ewm_mean_app (span : positive) (s : Series) (x : pyfloat) :
  s <> [] ->
  iloc_last (ewm_mean span (s ++ [x]))
  = Ok (Fin (Qred (1 - (2 # (span + 1)))) * last (ewm_mean span s) NaN
        + Fin (Qred (2 # (span + 1))) * x)%F.
Proof.
  intro H. destruct s as [| y r]; [contradiction |].
  cbn [app ewm_mean]. rewrite ewm_from_app.
  change (y :: ?l ++ [?z]) with ((y :: l) ++ [z]).
  rewrite iloc_last_app, last_cons. reflexivity.
Qed.

Lemma last_Forall {A : Type} (R : A -> Prop) (l : list A) (d : A) :
  l <> [] -> Forall R l -> R (last l d).
Proof.
  intros H F. destruct (exists_last H) as [l' [x ->]].
  rewrite last_last. apply Forall_app in F. destruct F as [_ F].
  inversion F; assumption.
Qed.

(** The closes before a new high are at most [m], so is their moving
    average, and one more close [x > m] moves the average strictly below
    [x] for every span above 1. *)
Lemma ema_below_new_high (span : positive) (pre : DataFrame) (b : Bar) (m x : Q) :
  (1 < span)%positive ->
  pre <> [] ->
  Forall (fun b' => number (fun q => q <= m) (bar_close b')) pre ->
  bar_close b = Fin x -> m < x ->
  exists e, iloc_last (calculate_ema (pre ++ [b]) span) = Ok (Fin e) /\ e < x.
Proof.
  intros Hs Hne Hpre Hb Hx. unfold calculate_ema, col.
  rewrite map_app. cbn [map]. rewrite Hb.
  rewrite iloc_last_ewm_mean_app by (destruct pre; [contradiction | discriminate]).
  assert (Hl : number (fun q => q <= m) (last (ewm_mean span (map bar_close pre)) NaN)).
  { apply last_Forall.
    - destruct pre; [contradiction | discriminate].
    - apply (ewm_mean_number (fun q => q <= m)).
      + intros a c E L. rewrite <- E. exact L.
      + intros a c t [Ht0 Ht1] La Lc.
        assert (0 <= (1 - t) * (m - a)) by (apply Qmult_le_0_compat; lra).
        assert (0 <= t * (m - c)) by (apply Qmult_le_0_compat; lra).
        nra.
      + apply Forall_map. exact Hpre. }
  destruct Hl as [e [-> Le]].
  eexists. split; [reflexivity |].
  rewrite !Qred_correct.
  assert (Ha : 0 <= 2 # (span + 1) < 1).
  { unfold Qle, Qlt. cbn. split; lia. }
  set (t := 2 # (span + 1)) in *.
  assert (0 < (1 - t) * (x - e)) by (apply Qmult_lt_0_compat; lra).
  nra.
Qed.

Lemma ema_above_new_low (span : positive) (pre : DataFrame) (b : Bar) (m x : Q) :
  (1 < span)%positive ->
  pre <> [] ->
  Forall (fun b' => number (fun q => m <= q) (bar_close b')) pre ->
  bar_close b = Fin x -> x < m ->
  exists e, iloc_last (calculate_ema (pre ++ [b]) span) = Ok (Fin e) /\ x < e.
Proof.
  intros Hs Hne Hpre Hb Hx. unfold calculate_ema, col.
  rewrite map_app. cbn [map]. rewrite Hb.
  rewrite iloc_last_ewm_mean_app by (destruct pre; [contradiction | discriminate]).
  assert (Hl : number (fun q => m <= q) (last (ewm_mean span (map bar_close pre)) NaN)).
  { apply last_Forall.
    - destruct pre; [contradiction | discriminate].
    - apply (ewm_mean_number (fun q => m <= q)).
      + intros a c E L. rewrite <- E. exact L.
      + intros a c t [Ht0 Ht1] La Lc.
        assert (0 <= (1 - t) * (a - m)) by (apply Qmult_le_0_compat; lra).
        assert (0 <= t * (c - m)) by (apply Qmult_le_0_compat; lra).
        nra.
      + apply Forall_map. exact Hpre. }
  destruct Hl as [e [-> Le]].
  eexists. split; [reflexivity |].
  rewrite !Qred_correct.
  assert (Ha : 0 <= 2 # (span + 1) < 1).
  { unfold Qle, Qlt. cbn. split; lia. }
  set (t := 2 # (span + 1)) in *.
  assert (0 < (1 - t) * (e - x)) by (apply Qmult_lt_0_compat; lra).
  nra.
Qed.

(** X20: a close above every earlier close is above both moving
    averages: [calculate_trend_alignment] gives BULLISH on both
    horizons, aligned, strong_buy; a close below every earlier close
    gives BEARISH on both, aligned, strong_sell. *)
Theorem breakout_trend_alignment (pre : DataFrame) (b : Bar) (m x : Q) :
  pre <> [] ->
  bar_close b = Fin x ->
  (Forall (fun b' => number (fun q => q <= m) (bar_close b')) pre -> m < x ->
   exists ta,
     calculate_trend_alignment (pre ++ [b]) = Ok ta
     /\ daily_trend ta = BULLISH /\ weekly_trend ta = BULLISH
     /\ aligned ta = true /\ signal_strength ta = strong_buy)
  /\ (Forall (fun b' => number (fun q => m <= q) (bar_close b')) pre -> x < m ->
      exists ta,
        calculate_trend_alignment (pre ++ [b]) = Ok ta
        /\ daily_trend ta = BEARISH /\ weekly_trend ta = BEARISH
        /\ aligned ta = true /\ signal_strength ta = strong_sell).
Proof.
  intros Hne Hb.
  assert (Hc : iloc_last (col bar_close (pre ++ [b])) = Ok (Fin x)).
  { unfold col. rewrite map_app. cbn [map]. rewrite Hb. apply iloc_last_app. }
  split; intros Hpre Hx; unfold calculate_trend_alignment; cbv zeta; rewrite Hc;
    cbn [bind].
  - destruct (ema_below_new_high 20 pre b m x eq_refl Hne Hpre Hb Hx) as [e20 [-> L20]].
    destruct (ema_below_new_high 50 pre b m x eq_refl Hne Hpre Hb Hx) as [e50 [-> L50]].
    cbn [bind]. fsimpl.
    apply Qltb_true in L20, L50. rewrite L20, L50.
    eexists. split; [reflexivity |]. repeat split.
  - destruct (ema_above_new_low 20 pre b m x eq_refl Hne Hpre Hb Hx) as [e20 [-> L20]].
    destruct (ema_above_new_low 50 pre b m x eq_refl Hne Hpre Hb Hx) as [e50 [-> L50]].
    cbn [bind]. fsimpl.
    assert (N20 : Qltb e20 x = false) by (apply Qltb_false; lra).
    assert (N50 : Qltb e50 x = false) by (apply Qltb_false; lra).
    rewrite N20, N50.
    eexists. split; [reflexivity |]. repeat split.
Qed.

(** Three closes at 100, then 101. *)
Lemma breakout_trend_alignment_witness :
  exists ta,
    calculate_trend_alignment
      (repeat (bar_at (FZ 100) (FZ 1000)) 3 ++ [bar_at (FZ 101) (FZ 1000)]) = Ok ta
    /\ daily_trend ta = BULLISH /\ weekly_trend ta = BULLISH
    /\ aligned ta = true /\ signal_strength ta = strong_buy.
Proof.
  apply (breakout_trend_alignment (repeat (bar_at (FZ 100) (FZ 1000)) 3)
           (bar_at (FZ 101) (FZ 1000)) 100 101).
  - discriminate.
  - reflexivity.
  - cbn [repeat].
    repeat (apply Forall_cons; [exists 100; split; [reflexivity | lra] |]).
    apply Forall_nil.
  - lra.
Defined.

(** ** Extremes of a series of numbers *)

Lemma fold_nanmax_finite (s : Series) :
  Forall (number (fun _ => True)) s ->
  forall a, exists M,
    fold_left nanmax s (Fin a) = Fin M
    /\ a <= M /\ forall q, In (Fin q) s -> q <= M.
Proof.
  induction s as [| x r IH]; intros Hs a.
  - exists a. split; [reflexivity |]. split; [lra | intros q []].
  - inversion Hs as [| ? ? [q [-> _]] Hr]; subst.
    cbn [fold_left]. unfold nanmax at 2. fsimpl.
    destruct (Qltb a q) eqn:E; qprops.
    + destruct (IH Hr q) as [M [HM [L1 L2]]]. exists M.
      split; [exact HM |]. split; [lra |].
      intros q' [Hq | Hq]; [apply Fin_inj in Hq; subst; exact L1 | exact (L2 q' Hq)].
    + destruct (IH Hr a) as [M [HM [L1 L2]]]. exists M.
      split; [exact HM |]. split; [exact L1 |].
      intros q' [Hq | Hq]; [apply Fin_inj in Hq; subst; lra | exact (L2 q' Hq)].
Qed.

Lemma fold_nanmin_finite (s : Series) :
  Forall (number (fun _ => True)) s ->
  forall a, exists M,
    fold_left nanmin s (Fin a) = Fin M
    /\ M <= a /\ forall q, In (Fin q) s -> M <= q.
Proof.
  induction s as [| x r IH]; intros Hs a.
  - exists a. split; [reflexivity |]. split; [lra | intros q []].
  - inversion Hs as [| ? ? [q [-> _]] Hr]; subst.
    cbn [fold_left]. unfold nanmin at 2. fsimpl.
    destruct (Qltb q a) eqn:E; qprops.
    + destruct (IH Hr q) as [M [HM [L1 L2]]]. exists M.
      split; [exact HM |]. split; [lra |].
      intros q' [Hq | Hq]; [apply Fin_inj in Hq; subst; exact L1 | exact (L2 q' Hq)].
    + destruct (IH Hr a) as [M [HM [L1 L2]]]. exists M.
      split; [exact HM |]. split; [exact L1 |].
      intros q' [Hq | Hq]; [apply Fin_inj in Hq; subst; lra | exact (L2 q' Hq)].
Qed.

Lemma series_max_finite (s : Series) :
  s <> [] -> Forall (number (fun _ => True)) s ->
  exists M, series_max s = Fin M /\ forall q, In (Fin q) s -> q <= M.
Proof.
  intros Hne Hs. destruct s as [| x r]; [contradiction |].
  inversion Hs as [| ? ? [a [-> _]] Hr]; subst.
  unfold series_max. cbn [fold_left]. change (nanmax NaN (Fin a)) with (Fin a).
  destruct (fold_nanmax_finite r Hr a) as [M [HM [L1 L2]]].
  exists M. split; [exact HM |].
  intros q [Hq | Hq]; [apply Fin_inj in Hq; subst; exact L1 | exact (L2 q Hq)].
Qed.

Lemma series_min_finite (s : Series) :
  s <> [] -> Forall (number (fun _ => True)) s ->
  exists M, series_min s = Fin M /\ forall q, In (Fin q) s -> M <= q.
Proof.
  intros Hne Hs. destruct s as [| x r]; [contradiction |].
  inversion Hs as [| ? ? [a [-> _]] Hr]; subst.
  unfold series_min. cbn [fold_left]. change (nanmin NaN (Fin a)) with (Fin a).
  destruct (fold_nanmin_finite r Hr a) as [M [HM [L1 L2]]].
  exists M. split; [exact HM |].
  intros q [Hq | Hq]; [apply Fin_inj in Hq; subst; exact L1 | exact (L2 q Hq)].
Qed.

Lemma tail_nonempty {A : Type} (n : nat) (l : list A) :
  (0 < n)%nat -> l <> [] -> tail n l <> [].
Proof.
  intros Hn Hl E. unfold tail in E.
  assert (Hlen : List.length (skipn (List.length l - n) l) = 0%nat)
    by (rewrite E; reflexivity).
  rewrite length_skipn in Hlen.
  destruct l; [contradiction | cbn [List.length] in Hlen; lia].
Qed.

Lemma tail_Forall {A : Type} (R : A -> Prop) (n : nat) (l : list A) :
  Forall R l -> Forall R (tail n l).
Proof.
  intro H. unfold tail. rewrite <- (firstn_skipn (List.length l - n) l) in H.
  apply Forall_app in H. tauto.
Qed.

(** X2: on a non-empty frame of bars whose close lies between low
    and high, the pivot levels are returned in order:
    support2 <= support <= pivot <= resistance <= resistance2. *)
Theorem pivot_levels_ordered (df : DataFrame) (lookback : nat) :
  df <> [] -> (0 < lookback)%nat ->
  Forall consistent_bar df ->
  exists pv,
    calculate_pivot_points df lookback = Ok pv
    /\ (pv_support2 pv <=? pv_support pv)%F = true
    /\ (pv_support pv <=? pv_pivot pv)%F = true
    /\ (pv_pivot pv <=? pv_resistance pv)%F = true
    /\ (pv_resistance pv <=? pv_resistance2 pv)%F = true.
Proof.
  intros Hne Hlb Hbars. unfold calculate_pivot_points. cbv zeta.
  set (recent := tail lookback df).
  assert (Hrne : recent <> []) by (apply tail_nonempty; assumption).
  assert (Hrec : Forall consistent_bar recent) by (apply tail_Forall; exact Hbars).
  destruct (exists_last Hrne) as [init [bl Hsplit]].
  assert (Hbl : consistent_bar bl).
  { rewrite Hsplit in Hrec. apply Forall_app in Hrec. destruct Hrec as [_ Hrec].
    inversion Hrec; assumption. }
  destruct Hbl as [h [l [c [Hh [Hl [Hc [Llc Lch]]]]]]].
  destruct (series_max_finite (col bar_high recent)) as [H [HH LH]].
  { unfold col. destruct recent; [contradiction | discriminate]. }
  { unfold col. apply Forall_map. revert Hrec. apply Forall_impl.
    intros b [h' [l' [c' [E _]]]]. exists h'. split; [exact E | exact I]. }
  destruct (series_min_finite (col bar_low recent)) as [L [HL LL]].
  { unfold col. destruct recent; [contradiction | discriminate]. }
  { unfold col. apply Forall_map. revert Hrec. apply Forall_impl.
    intros b [h' [l' [c' [_ [E _]]]]]. exists l'. split; [exact E | exact I]. }
  assert (LhH : h <= H).
  { apply LH. unfold col. rewrite Hsplit, map_app. apply in_or_app. right.
    cbn [map]. rewrite Hh. left. reflexivity. }
  assert (LLl : L <= l).
  { apply LL. unfold col. rewrite Hsplit, map_app. apply in_or_app. right.
    cbn [map]. rewrite Hl. left. reflexivity. }
  assert (Hclose : iloc_last (col bar_close recent) = Ok (Fin c)).
  { unfold col. rewrite Hsplit, map_app. cbn [map]. rewrite Hc. apply iloc_last_app. }
  rewrite HH, HL, Hclose. cbn [bind].
  eexists. split; [reflexivity |].
  cbn [pv_support pv_support2 pv_resistance pv_resistance2 pv_pivot].
  change (np_div (Fin H + Fin L + Fin c) (FZ 3))
    with (Fin (Qred (Qred (Qred (H + L) + c) / inject_Z 3))).
  set (p := Qred (Qred (Qred (H + L) + c) / inject_Z 3)).
  assert (Hp : p == (H + L + c) / 3).
  { unfold p. rewrite !Qred_correct. reflexivity. }
  assert (Hp3 : 3 * p == H + L + c) by (rewrite Hp; field).
  fsimpl. unfold inject_Z.
  repeat split; apply round2_mono; rewrite !Qred_correct; lra.
Qed.

(** The rising market over thirty bars. *)
Lemma pivot_levels_ordered_witness :
  exists pv,
    calculate_pivot_points (rising_bars 30) 20 = Ok pv
    /\ (pv_support pv <=? pv_pivot pv)%F = true
    /\ (pv_pivot pv <=? pv_resistance pv)%F = true.
Proof.
  destruct (pivot_levels_ordered (rising_bars 30) 20) as [pv [H [_ [H1 [H2 _]]]]].
  - discriminate.
  - lia.
  - unfold rising_bars. apply Forall_map, Forall_forall. intros i _.
    eexists. eexists. eexists. cbn [bar_high bar_low bar_close].
    split; [reflexivity |]. split; [reflexivity |]. split; [reflexivity |].
    rewrite !Qred_correct. lra.
  - exists pv. repeat split; assumption.
Defined.

(** ** The last rolling value *)

Lemma iloc_last_rolling_window (w : nat) (agg : list Q -> Q) (s : Series) :
  s <> [] ->
  iloc_last (rolling w agg s)
  = Ok (match window w s (List.length s - 1) with
        | Some qs => Fin (Qred (agg qs))
        | None => NaN
        end).
Proof.
  intro H. unfold rolling.
  destruct (List.length s) as [| n] eqn:En.
  { destruct s; [contradiction | discriminate]. }
  rewrite seq_S, map_app. cbn [map]. rewrite iloc_last_app.
  cbn [Nat.add]. replace (S n - 1)%nat with n by lia. reflexivity.
Qed.

Lemma In_le_Qsum (qs : list Q) (r : Q) :
  Forall (fun q => 0 <= q) qs -> In r qs -> r <= Qsum qs.
Proof.
  induction 1 as [| q l Hq Hl IH]; intros Hin; [destruct Hin |].
  cbn [Qsum fold_right]. pose proof (Qsum_nonneg l Hl) as Hs. unfold Qsum in *.
  destruct Hin as [-> | Hin]; [lra | specialize (IH Hin); lra].
Qed.

Lemma window_length (w : nat) (s : Series) (i : nat) (qs : list Q) :
  (i < List.length s)%nat -> window w s i = Some qs -> List.length qs = w.
Proof.
  intros Hi. unfold window.
  destruct (Nat.leb_spec w (i + 1)) as [Hle | _]; [| discriminate].
  intro H. apply finite_values_length in H.
  rewrite length_firstn, length_skipn in H. lia.
Qed.

(** The last volume over the mean of a window that holds it is at most
    the length of the window. *)
Lemma volume_ratio_bounds (w : nat) (s : Series) :
  (0 < w)%nat -> s <> [] ->
  Forall (number (fun v => 0 <= v)) s ->
  exists vl avg,
    iloc_last s = Ok (Fin vl) /\ 0 <= vl
    /\ iloc_last (rolling_mean w s) = Ok avg
    /\ exists r,
         (if (avg >? FZ 0)%F then np_div (Fin vl) avg else FZ 1) = Fin r
         /\ 0 <= r <= inject_Z (Z.of_nat w).
Proof.
  intros Hw Hne Hs.
  assert (Hnum : numbers (fun v => 0 <= v) s).
  { intros q Hq. rewrite Forall_forall in Hs. destruct (Hs _ Hq) as [q' [E L]].
    apply Fin_inj in E. subst. exact L. }
  assert (Hlen : (0 < List.length s)%nat).
  { destruct s; [contradiction | cbn; lia]. }
  assert (Hlast : exists vl, nth (List.length s - 1) s NaN = Fin vl /\ 0 <= vl).
  { assert (Hin : In (nth (List.length s - 1) s NaN) s) by (apply nth_In; lia).
    rewrite Forall_forall in Hs. destruct (Hs _ Hin) as [vl [E L]].
    exists vl. split; assumption. }
  destruct Hlast as [vl [Evl Lvl]].
  assert (Hil : iloc_last s = Ok (Fin vl)).
  { rewrite (iloc_last_last s Hne). f_equal. rewrite <- Evl.
    destruct (exists_last Hne) as [l' [x ->]].
    rewrite last_last, length_app. cbn [List.length].
    rewrite app_nth2 by lia.
    replace (List.length l' + 1 - 1 - List.length l')%nat with 0%nat by lia.
    reflexivity. }
  assert (Hw1 : 1 <= inject_Z (Z.of_nat w)).
  { change 1 with (inject_Z 1). rewrite <- Zle_Qle. lia. }
  exists vl. eexists. split; [exact Hil |]. split; [exact Lvl |].
  split; [unfold rolling_mean; apply iloc_last_rolling_window; exact Hne |].
  destruct (window w s (List.length s - 1)) as [qs |] eqn:Ewin.
  - assert (Hq : List.length qs = w) by (apply (window_length w s (List.length s - 1) qs); [lia | exact Ewin]).
    destruct (window_last w s (List.length s - 1) qs Hw ltac:(lia) Ewin) as [r [Er Hin]].
    rewrite Evl in Er. apply Fin_inj in Er. subst r.
    assert (Hqs : Forall (fun q => 0 <= q) qs).
    { apply Forall_forall. intros q Hq'. apply Hnum.
      exact (window_numbers w s (List.length s - 1) qs Ewin q Hq'). }
    pose proof (In_le_Qsum qs vl Hqs Hin) as Hsum.
    fsimpl. unfold inject_Z at 1.
    destruct (Qltb 0 (Qred (Qmean qs))) eqn:E; qprops.
    + rewrite Qred_correct in E.
      unfold np_div.
      destruct (Qeqb (Qred (Qmean qs)) 0) eqn:E0; qprops;
        [rewrite Qred_correct in E0; lra |].
      eexists. split; [reflexivity |]. rewrite !Qred_correct.
      split; [apply Qdiv_nonneg; lra |].
      apply Qle_shift_div_r; [exact E |].
      unfold Qmean in *. rewrite Hq in *.
      set (n := inject_Z (Z.of_nat w)) in *.
      assert (Hn : Qsum qs / n * n == Qsum qs) by (field; lra).
      lra.
    + exists 1. split; [reflexivity | lra].
  - exists 1. split; [reflexivity | lra].
Qed.

(** X21: on a non-empty frame with non-negative volumes
    [analyze_volume] returns; its ratio, the one the snapshot carries,
    is a number between 0 and 20 (the last volume is one of the twenty
    that are averaged; 1.0 when the average is zero or not yet
    defined), and the exhaustion flag is set only with a rounded ratio
    of 0.7 or less. *)
Theorem volume_ratio_range (df : DataFrame) :
  df <> [] ->
  Forall (fun b => number (fun v => 0 <= v) (bar_volume b)) df ->
  exists v,
    analyze_volume df = Ok v
    /\ analyze_volume_ratio df = Ok (vol_ratio v)
    /\ in_range 0 20 (vol_ratio v)
    /\ (vol_exhaustion v = true -> (vol_ratio v <=? FQ 7 10)%F = true).
Proof.
  intros Hne Hvol.
  destruct (volume_ratio_bounds 20 (col bar_volume df)) as [vl [avg H]].
  - lia.
  - unfold col. destruct df; [contradiction | discriminate].
  - unfold col. apply Forall_map. exact Hvol.
  - destruct H as [Hl [Lvl [Ha [r [Hr Lr]]]]].
    unfold analyze_volume, analyze_volume_ratio. cbv zeta.
    rewrite Hl, Ha. cbn [bind]. rewrite Hr.
    eexists. split; [reflexivity |]. cbn [vol_ratio vol_exhaustion].
    split; [reflexivity |]. split.
    + destruct (round2_in_range 0 2000 r) as [q [E L]].
      { change (inject_Z (Z.of_nat 20)) with 20 in Lr. lra. }
      exists q. split; [exact E | lra].
    + apply (round2_below _ _ 70). reflexivity.
Qed.

(** The gap-down frame on a last volume of 3000. *)
Lemma volume_ratio_range_witness :
  exists v,
    analyze_volume (gap_down_bars (FZ 3000)) = Ok v
    /\ in_range 0 20 (vol_ratio v).
Proof.
  destruct (volume_ratio_range (gap_down_bars (FZ 3000))) as [v [H [_ [R _]]]].
  - discriminate.
  - unfold gap_down_bars. apply Forall_app. split.
    + apply Forall_forall. intros b Hb. apply repeat_spec in Hb. subst b.
      exists 1000. split; [reflexivity | lra].
    + constructor; [| constructor]. exists 3000. split; [reflexivity | lra].
  - exists v. split; assumption.
Defined.

(** ** The last entries of a list *)

Lemma tail_In {A : Type} (n : nat) (l : list A) (x : A) :
  In x (tail n l) -> In x l.
Proof.
  unfold tail. intro H. rewrite <- (firstn_skipn (List.length l - n) l).
  apply in_or_app. right. exact H.
Qed.

Lemma tail_length {A : Type} (n : nat) (l : list A) :
  (List.length (tail n l) <= n)%nat.
Proof. unfold tail. rewrite length_skipn. lia. Qed.

Lemma last_entries_In {A : Type} (n : nat) (l : list A) (x : A) :
  In x (if (n <? List.length l)%nat then tail n l else l) -> In x l.
Proof. destruct (n <? List.length l)%nat; [apply tail_In | exact (fun H => H)]. Qed.

Lemma last_entries_length {A : Type} (n : nat) (l : list A) :
  (List.length (if (n <? List.length l)%nat then tail n l else l) <= n)%nat.
Proof.
  destruct (Nat.ltb_spec n (List.length l)); [apply tail_length | assumption].
Qed.

(** ** Gaps *)

Lemma gap_direction (x : pyfloat) :
  (fabs x >? FZ 2)%F = true ->
  if (x >? FZ 0)%F then (round2 x >=? FZ 2)%F = true
  else (round2 x <=? FZ (-2))%F = true.
Proof.
  destruct x as [q | | |]; try discriminate; try reflexivity.
  fsimpl. unfold inject_Z. intro H. qprops. rewrite Qred_correct in H.
  destruct (Qltb 0 q) eqn:E; qprops; unfold round2, py_round; fsimpl;
    apply Qleb_true.
  - assert (Ha : Qabs q == q) by (apply Qabs_pos; lra). rewrite Ha in H.
    assert (200 # 100 <= Qround_digits q 100) by (apply Qround_digits_lower; lra).
    unfold inject_Z. lra.
  - assert (Ha : Qabs q == - q) by (apply Qabs_neg; lra). rewrite Ha in H.
    assert (Qround_digits q 100 <= -200 # 100) by (apply Qround_digits_upper; lra).
    unfold inject_Z. lra.
Qed.

Lemma gaps_from_spec (rows : DataFrame) :
  forall i prev g,
    In g (gaps_from i prev rows) ->
    (i <= gap_index g < i + List.length rows)%nat
    /\ match gap_type g with
       | GapUp => (gap_size g >=? FZ 2)%F = true
       | GapDown => (gap_size g <=? FZ (-2))%F = true
       end.
Proof.
  induction rows as [| b r IH]; intros i prev g H; [destruct H |].
  cbn [gaps_from] in H. cbv zeta in H. apply in_app_or in H.
  destruct H as [H | H].
  - destruct (fabs _ >? FZ 2)%F eqn:E; [| destruct H].
    destruct H as [<- | []]. cbn [gap_index gap_size gap_type List.length].
    split; [lia |].
    apply gap_direction in E. destruct (_ >? FZ 0)%F; exact E.
  - destruct (IH _ _ _ H) as [Hi Hg]. cbn [List.length]. split; [lia | exact Hg].
Qed.

(** X22: [detect_gaps] reports five gaps at most, each at a row after
    the first, an up gap with a rounded size of 2% or more and a down
    gap with a rounded size of -2% or less. *)
Theorem detect_gaps_report (df : DataFrame) :
  (List.length (detect_gaps df) <= 5)%nat
  /\ forall g, In g (detect_gaps df) ->
       (1 <= gap_index g < List.length df)%nat
       /\ match gap_type g with
          | GapUp => (gap_size g >=? FZ 2)%F = true
          | GapDown => (gap_size g <=? FZ (-2))%F = true
          end.
Proof.
  unfold detect_gaps. cbv zeta. split; [apply last_entries_length |].
  intros g H. apply last_entries_In in H.
  destruct df as [| b r]; [destruct H |].
  destruct (gaps_from_spec r 1 b g H) as [Hi Hg].
  cbn [List.length]. split; [lia | exact Hg].
Qed.

(** The gap-down frame: one down gap of 5% at the last row. *)
Lemma detect_gaps_report_witness :
  exists g,
    detect_gaps (gap_down_bars (FZ 3000)) = [g]
    /\ gap_index g = 19%nat
    /\ gap_type g = GapDown
    /\ (gap_size g <=? FZ (-2))%F = true.
Proof.
  eexists. split; [vm_compute; reflexivity |].
  split; [reflexivity |]. split; [reflexivity |].
  destruct (proj2 (detect_gaps_report (gap_down_bars (FZ 3000)))
              (mkGap 19 (FZ (-5)) (FZ 100) GapDown)) as [_ H].
  - vm_compute. left. reflexivity.
  - exact H.
Defined.

(** ** Williams fractals *)

Lemma fractal_at_spec (df : DataFrame) (half i : nat) (f : Fractal) :
  In f (fractal_at df half i) ->
  fractal_index f = i
  /\ match fractal_type f with
     | BullishFractal =>
         fractal_price f = round2 (at_row (col bar_low df) i)
         /\ forall j, (i - half <= j <= i + half)%nat -> j <> i ->
              (at_row (col bar_low df) j <=? at_row (col bar_low df) i)%F = false
     | BearishFractal =>
         fractal_price f = round2 (at_row (col bar_high df) i)
         /\ forall j, (i - half <= j <= i + half)%nat -> j <> i ->
              (at_row (col bar_high df) j >=? at_row (col bar_high df) i)%F = false
     end.
Proof.
  unfold fractal_at. cbv zeta.
  destruct (lowest_in_window _ half i) eqn:El;
    [| destruct (highest_in_window _ half i) eqn:Eh]; cbn [orb];
    intro H; try destruct H as [<- | []]; try destruct H;
    cbn [fractal_index fractal_type fractal_price];
    (split; [reflexivity |]); (split; [reflexivity |]);
    intros j Hj Hne.
  - unfold lowest_in_window in El. rewrite forallb_forall in El.
    specialize (El j). rewrite in_seq in El.
    assert (Hin : (i - half <= j < i - half + (half + half + 1))%nat) by lia.
    specialize (El Hin). apply orb_true_iff in El.
    destruct El as [El | El]; [apply Nat.eqb_eq in El; contradiction |].
    apply negb_true_iff in El. exact El.
  - unfold highest_in_window in Eh. rewrite forallb_forall in Eh.
    specialize (Eh j). rewrite in_seq in Eh.
    assert (Hin : (i - half <= j < i - half + (half + half + 1))%nat) by lia.
    specialize (Eh Hin). apply orb_true_iff in Eh.
    destruct Eh as [Eh | Eh]; [apply Nat.eqb_eq in Eh; contradiction |].
    apply negb_true_iff in Eh. exact Eh.
Qed.

(** X23: [calculate_williams_fractals] reports twenty fractals at
    most, each at a row with [period // 2] rows on either side (none on
    a shorter frame); at a bullish one no other row of the window has a
    low at or below its low, at a bearish one no other row has a high at
    or above its high. *)
Theorem williams_fractals_report (df : DataFrame) (period half : nat) :
  half = (period / 2)%nat ->
  (List.length (calculate_williams_fractals df period) <= 20)%nat
  /\ forall f, In f (calculate_williams_fractals df period) ->
       (half <= fractal_index f)%nat
       /\ (fractal_index f + half < List.length df)%nat
       /\ match fractal_type f with
          | BullishFractal =>
              forall j, (fractal_index f - half <= j <= fractal_index f + half)%nat ->
                j <> fractal_index f ->
                (at_row (col bar_low df) j
                 <=? at_row (col bar_low df) (fractal_index f))%F = false
          | BearishFractal =>
              forall j, (fractal_index f - half <= j <= fractal_index f + half)%nat ->
                j <> fractal_index f ->
                (at_row (col bar_high df) j
                 >=? at_row (col bar_high df) (fractal_index f))%F = false
          end.
Proof.
  intros ->. unfold calculate_williams_fractals. cbv zeta.
  split; [apply last_entries_length |].
  intros f H. apply last_entries_In in H.
  apply in_flat_map in H. destruct H as [i [Hi Hf]].
  apply in_seq in Hi. apply fractal_at_spec in Hf.
  destruct Hf as [-> Hf].
  split; [lia |]. split; [lia |].
  destruct (fractal_type f); destruct Hf as [_ Hf]; exact Hf.
Qed.

(** The zigzag frame: row 2 is a bullish fractal, its low strictly below
    the low of row 1. *)
Lemma williams_fractals_report_witness :
  In (mkFractal 2 BullishFractal (FZ 3)) (calculate_williams_fractals zigzag_bars 5)
  /\ (at_row (col bar_low zigzag_bars) 1 <=? at_row (col bar_low zigzag_bars) 2)%F
     = false.
Proof.
  assert (Hin : In (mkFractal 2 BullishFractal (FZ 3))
                   (calculate_williams_fractals zigzag_bars 5))
    by (vm_compute; left; reflexivity).
  split; [exact Hin |].
  destruct (proj2 (williams_fractals_report zigzag_bars 5 2 eq_refl) _ Hin)
    as [_ [_ H]].
  cbn [fractal_type fractal_index] in H. apply (H 1%nat); lia.
Defined.

(** ** Heikin-Ashi candles *)

Lemma ha_close_in_bar (b : Bar) :
  regular_bar b ->
  exists o h l c m,
    bar_open b = Fin o /\ bar_high b = Fin h /\ bar_low b = Fin l
    /\ bar_close b = Fin c /\ l <= o <= h /\ l <= c <= h
    /\ np_div (bar_open b + bar_high b + bar_low b + bar_close b)%F (FZ 4) = Fin m
    /\ l <= m <= h.
Proof.
  intros [o [h [l [c [Ho [Hh [Hl [Hc [Lo Lc]]]]]]]]].
  exists o, h, l, c. rewrite Ho, Hh, Hl, Hc.
  eexists. repeat (split; [first [reflexivity | assumption] |]).
  rewrite !Qred_correct. unfold inject_Z.
  assert (Hq : (o + h + l + c) / 4 == (o + h + l + c) * (1 # 4)) by field.
  rewrite Hq. lra.
Qed.

Lemma ha_open_from_in_range (lo hi : Q) (closes : Series) :
  Forall (in_range lo hi) closes ->
  forall po pc, in_range lo hi po -> in_range lo hi pc ->
    Forall (in_range lo hi) (ha_open_from po pc closes).
Proof.
  induction 1 as [| c r Hc Hr IH]; intros po pc Hpo Hpc; [constructor |].
  cbn [ha_open_from]. cbv zeta.
  assert (Ho : in_range lo hi (np_div (po + pc)%F (FZ 2))).
  { destruct Hpo as [a [-> La]]. destruct Hpc as [b [-> Lb]].
    eexists. split; [reflexivity |]. rewrite !Qred_correct. unfold inject_Z.
    assert (Hq : (a + b) / 2 == (a + b) * (1 # 2)) by field.
    rewrite Hq. lra. }
  constructor; [exact Ho |]. apply IH; assumption.
Qed.

Lemma ha_open_from_length (closes : Series) :
  forall po pc, List.length (ha_open_from po pc closes) = List.length closes.
Proof.
  induction closes as [| c r IH]; intros po pc; [reflexivity |].
  cbn [ha_open_from List.length]. f_equal. apply IH.
Qed.

Lemma nanmax_keep (a b : Q) : b <= a -> nanmax (Fin a) (Fin b) = Fin a.
Proof.
  intro H. unfold nanmax. fsimpl.
  replace (Qltb a b) with false by (symmetry; apply Qltb_false; exact H).
  reflexivity.
Qed.

Lemma nanmin_keep (a b : Q) : a <= b -> nanmin (Fin a) (Fin b) = Fin a.
Proof.
  intro H. unfold nanmin. fsimpl.
  replace (Qltb b a) with false by (symmetry; apply Qltb_false; exact H).
  reflexivity.
Qed.

(** X24: on bars whose open and close lie between low and high, the
    Heikin-Ashi high and low columns are the bars' own high and low, the
    Heikin-Ashi close of each bar lies between them, there is one open
    per bar, and every Heikin-Ashi open lies within a band that holds
    all the bars. *)
Theorem heikin_ashi_within_bars (df : DataFrame) (lo hi : Q) :
  Forall regular_bar df ->
  Forall (within_band lo hi) df ->
  let ha := calculate_heikin_ashi df in
  ha_high ha = col bar_high df
  /\ ha_low ha = col bar_low df
  /\ List.length (ha_open ha) = List.length df
  /\ Forall2 (fun b c => (bar_low b <=? c)%F = true /\ (c <=? bar_high b)%F = true)
       df (ha_close ha)
  /\ Forall (in_range lo hi) (ha_open ha).
Proof.
  intros Hreg Hband. cbv zeta. unfold calculate_heikin_ashi. cbv zeta.
  cbn [ha_high ha_low ha_open ha_close].
  assert (Hclose : Forall (in_range lo hi)
            (map (fun b => np_div (bar_open b + bar_high b + bar_low b + bar_close b)%F
                                  (FZ 4)) df)).
  { apply Forall_map. rewrite Forall_forall in *. intros b Hb.
    destruct (ha_close_in_bar b (Hreg b Hb))
      as [o [h [l [c [m [Ho [Hh [Hl [Hc [Lo [Lc [Hm Lm]]]]]]]]]]]].
    destruct (Hband b Hb) as [h' [l' [Hh' [Hl' [L1 L2]]]]].
    rewrite Hh in Hh'. rewrite Hl in Hl'.
    apply Fin_inj in Hh', Hl'. subst h' l'.
    exists m. split; [exact Hm | lra]. }
  split.
  { unfold col. apply map_ext_in. intros b Hb.
    rewrite Forall_forall in Hreg.
    destruct (Hreg b Hb) as [o [h [l [c [Ho [Hh [Hl [Hc [Lo Lc]]]]]]]]].
    rewrite Ho, Hh, Hc. rewrite !nanmax_keep by lra. reflexivity. }
  split.
  { unfold col. apply map_ext_in. intros b Hb.
    rewrite Forall_forall in Hreg.
    destruct (Hreg b Hb) as [o [h [l [c [Ho [Hh [Hl [Hc [Lo Lc]]]]]]]]].
    rewrite Ho, Hl, Hc. rewrite !nanmin_keep by lra. reflexivity. }
  split.
  { destruct df as [| b r]; [reflexivity |]. cbn [map List.length]. f_equal.
    rewrite ha_open_from_length. apply length_map. }
  split.
  { clear Hband Hclose. induction Hreg as [| b r Hb Hr IH]; [constructor |].
    cbn [map]. constructor; [| exact IH].
    destruct (ha_close_in_bar b Hb)
      as [o [h [l [c [m [Ho [Hh [Hl [Hc [Lo [Lc [Hm Lm]]]]]]]]]]]].
    rewrite Hm, Hl, Hh. fsimpl. split; apply Qleb_true; lra. }
  destruct df as [| b r]; [constructor |].
  cbn [map] in *. inversion Hclose as [| ? ? Hc0 Hcr]; subst.
  inversion Hreg as [| ? ? Hb _]; subst.
  inversion Hband as [| ? ? Hbb _]; subst.
  assert (Ho0 : in_range lo hi (np_div (bar_open b + bar_close b)%F (FZ 2))).
  { destruct Hb as [o [h [l [c [Ho [Hh [Hl [Hc [Lo Lc]]]]]]]]].
    destruct Hbb as [h' [l' [Hh' [Hl' [L1 L2]]]]].
    rewrite Hh in Hh'. rewrite Hl in Hl'.
    apply Fin_inj in Hh', Hl'. subst h' l'.
    rewrite Ho, Hc. eexists. split; [reflexivity |].
    rewrite !Qred_correct. unfold inject_Z.
    assert (Hq : (o + c) / 2 == (o + c) * (1 # 2)) by field.
    rewrite Hq. lra. }
  constructor; [exact Ho0 |].
  apply ha_open_from_in_range; assumption.
Qed.

(** Three bars of the rising market, between 99 and 103. *)
Lemma heikin_ashi_within_bars_witness :
  ha_high (calculate_heikin_ashi (rising_bars 3)) = col bar_high (rising_bars 3)
  /\ Forall (in_range 99 103) (ha_open (calculate_heikin_ashi (rising_bars 3))).
Proof.
  destruct (heikin_ashi_within_bars (rising_bars 3) 99 103) as [H1 [_ [_ [_ H2]]]].
  - unfold rising_bars. apply Forall_map, Forall_forall. intros i _.
    eexists. eexists. eexists. eexists. cbn [bar_open bar_high bar_low bar_close].
    repeat (split; [reflexivity |]). rewrite !Qred_correct. split; split; lra.
  - unfold rising_bars. apply Forall_map, Forall_forall. intros i Hi.
    apply in_seq in Hi. eexists. eexists. cbn [bar_high bar_low].
    split; [reflexivity |]. split; [reflexivity |]. rewrite !Qred_correct.
    assert (H : 0 <= inject_Z (Z.of_nat i) <= 2).
    { change 0 with (inject_Z 0). change 2 with (inject_Z 2).
      rewrite <- !Zle_Qle. lia. }
    rewrite inject_Z_plus. change (inject_Z 100) with 100. lra.
  - split; assumption.
Defined.

(** ** The high-risk optimizer and the overbought protector *)

(** X25: for a non-negative support, the stop that
    [calculate_atr_based_stop_loss] returns is never above the support
    and never above the ATR stop (price less 1.5 ATR): either the ATR
    stop is at or below the support, or 98% of the support is taken. *)
Theorem atr_stop_loss_below_support (p a s : Q) :
  0 <= s ->
  exists r,
    asl_stop_loss (calculate_atr_based_stop_loss (Fin p) (Fin a) (Fin s)) = Fin r
    /\ r <= s
    /\ r <= p - (3 # 2) * a.
Proof.
  intro Hs. unfold calculate_atr_based_stop_loss. cbv zeta. fsimpl.
  destruct (Qltb s _) eqn:E; cbn [asl_stop_loss slw_recommended_sl]; fsimpl;
    (eexists; split; [reflexivity |]); qsolve.
Qed.

(** Price 100, ATR 2, support 90: the stop is 88.2. *)
Lemma atr_stop_loss_below_support_witness :
  exists r,
    asl_stop_loss (calculate_atr_based_stop_loss (FZ 100) (FZ 2) (FZ 90)) = Fin r
    /\ r <= 90 /\ r <= 100 - (3 # 2) * 2.
Proof.
  apply (atr_stop_loss_below_support 100 2 90). lra.
Defined.

(** X26: [calculate_smart_exit] never raises (the guard on the entry
    price covers the division), and a verdict it returns comes with a
    positive entry, a confidence below 30 and an unrealized profit above
    80%, that is a current price above 1.8 times the entry; the sell
    price is the current price. *)
Theorem smart_exit_threshold (entry current : pyfloat) (confidence : Z) :
  exists r,
    calculate_smart_exit entry current confidence = Ok r
    /\ forall v, r = Some v ->
         (confidence < 30)%Z
         /\ (entry >? FZ 0)%F = true
         /\ (se_profit_percent v >? FZ 80)%F = true
         /\ se_sell_price v = current
         /\ forall e x, entry = Fin e -> current = Fin x -> (18 # 10) * e < x.
Proof.
  unfold calculate_smart_exit.
  destruct (entry <=? FZ 0)%F eqn:E0;
    [exists None; split; [reflexivity | discriminate] |].
  assert (Hdiv : exists q, py_div (current - entry)%F entry = Ok q).
  { unfold py_div. destruct entry as [e | | |]; try (eexists; reflexivity).
    fsimpl in E0. unfold inject_Z in E0.
    destruct (Qeqb e 0) eqn:Ee; [| eexists; reflexivity].
    qprops. lra. }
  destruct Hdiv as [q Hq]. rewrite Hq. cbn [bind]. cbv zeta.
  destruct (q * FZ 100 >? FZ 80)%F eqn:E80;
    [| exists None; split; [reflexivity | discriminate]].
  destruct (Z.ltb_spec confidence 30) as [Hc | Hc]; cbn [andb];
    [| exists None; split; [reflexivity | discriminate]].
  eexists. split; [reflexivity |].
  intros v Hv. apply Some_inj in Hv. subst v.
  cbn [se_profit_percent se_sell_price].
  split; [exact Hc |].
  split.
  { destruct entry as [e | | |]; try reflexivity.
    - fsimpl. fsimpl in E0. unfold inject_Z in *. apply Qltb_true. qprops. exact E0.
    - discriminate E0.
    - unfold py_div in Hq. apply Ok_inj in Hq. subst q.
      destruct current; discriminate E80. }
  split; [exact E80 |]. split; [reflexivity |].
  intros e x -> ->. fsimpl in E0. unfold inject_Z in E0. qprops.
  change (Fin x - Fin e)%F with (Fin (Qred (x - e))) in Hq.
  rewrite py_div_finite in Hq by lra. apply Ok_inj in Hq. subst q.
  fsimpl in E80. unfold inject_Z in E80. qprops.
  rewrite !Qred_correct in E80.
  assert (Hd : (x - e) / e * e == x - e) by (field; lra).
  set (d := (x - e) / e) in *. nra.
Qed.

(** Entry 100, price 190, confidence 20. *)
Lemma smart_exit_threshold_witness :
  exists v,
    calculate_smart_exit (FZ 100) (FZ 190) 20 = Ok (Some v)
    /\ (se_profit_percent v >? FZ 80)%F = true.
Proof.
  destruct (smart_exit_threshold (FZ 100) (FZ 190) 20) as [r [H Hv]].
  vm_compute in H. apply Ok_inj in H. subst r.
  eexists. split; [reflexivity |].
  destruct (Hv _ eq_refl) as [_ [_ [H80 _]]]. exact H80.
Defined.

(** X27: whenever the sell trigger fires, [assess_final_risk] on the
    same readings gives the extreme level, with the overbought and the
    low-volume factors; the extreme level needs RSI above 70 and
    Stochastic-RSI K above 90; and without that overbought reading the
    volume ratio does not enter the assessment at all. *)
Theorem sell_trigger_is_extreme_risk (rsi k vr : pyfloat) (days : option Z) :
  (check_sell_trigger rsi k vr <> None ->
   fr_level (assess_final_risk rsi k vr days) = EXTREM_DE_RIDICAT
   /\ In OverboughtExtrem (fr_factors (assess_final_risk rsi k vr days))
   /\ In VolumScazut (fr_factors (assess_final_risk rsi k vr days)))
  /\ (fr_level (assess_final_risk rsi k vr days) = EXTREM_DE_RIDICAT ->
      (rsi >? FZ 70)%F = true /\ (k >? FZ 90)%F = true)
  /\ ((rsi >? FZ 70)%F && (k >? FZ 90)%F = false ->
      forall vr', assess_final_risk rsi k vr' days = assess_final_risk rsi k vr days).
Proof.
  unfold check_sell_trigger, assess_final_risk, rsi_threshold,
    stoch_rsi_threshold, volume_ratio_min. cbv zeta.
  destruct (rsi >? FZ 70)%F; destruct (k >? FZ 90)%F; cbn [andb].
  2-4: (split; [intro H; contradiction H; reflexivity |]);
       (split; [destruct days as [d |]; [destruct (d <=? 7)%Z |]; cbn;
                discriminate |]);
       intros _ vr'; reflexivity.
  split.
  - destruct (vr <? FQ 1 2)%F; [| intro H; contradiction H; reflexivity].
    intros _. rewrite orb_true_r. cbn [fr_level fr_factors].
    split; [reflexivity |]. split; [left; reflexivity |].
    apply in_or_app. right. apply in_or_app. right. left. reflexivity.
  - split; [intros _; split; reflexivity | discriminate].
Qed.

(** RSI 80, Stochastic-RSI K 95, volume ratio 0.3. *)
Lemma sell_trigger_is_extreme_risk_witness :
  fr_level (assess_final_risk (FZ 80) (FZ 95) (FQ 3 10) None) = EXTREM_DE_RIDICAT.
Proof.
  apply (proj1 (sell_trigger_is_extreme_risk (FZ 80) (FZ 95) (FQ 3 10) None)).
  intro H. vm_compute in H. discriminate H.
Defined.

(** X28: for an entry price other than zero
    [earnings_auto_protect] returns, and a protection it returns moves
    the stop to the entry price, strictly below the current price, with
    a positive profit for a positive entry; for an entry price of zero,
    a positive price and earnings within five days it raises the
    [ZeroDivisionError] of the profit percentage. *)
Theorem earnings_auto_protect_breakeven (days : option Z) (entry current : pyfloat) :
  (forall e, entry = Fin e -> ~ e == 0 ->
     exists r,
       earnings_auto_protect days entry current = Ok r
       /\ forall p, r = Some p ->
            ep_new_stop_loss p = entry
            /\ (ep_new_stop_loss p <? current)%F = true
            /\ (0 < e -> (ep_current_profit_percent p >? FZ 0)%F = true))
  /\ (forall d, days = Some d -> (d <= 5)%Z -> entry = FZ 0 ->
        (current >? FZ 0)%F = true ->
        earnings_auto_protect days entry current = Raise ZeroDivisionError).
Proof.
  split.
  - intros e -> He. unfold earnings_auto_protect.
    destruct days as [d |]; [| exists None; split; [reflexivity | discriminate]].
    destruct (d >? earnings_protect_days)%Z;
      [exists None; split; [reflexivity | discriminate] |].
    cbv zeta.
    destruct (current >? Fin e)%F eqn:Ep; cbn [negb];
      [| exists None; split; [reflexivity | discriminate]].
    destruct current as [x | | |]; try discriminate Ep.
    + change (Fin x - Fin e)%F with (Fin (Qred (x - e))).
      rewrite py_div_finite by exact He. cbn [bind].
      eexists. split; [reflexivity |].
      intros p Hp. apply Some_inj in Hp. subst p.
      cbn [ep_new_stop_loss ep_current_profit_percent].
      split; [reflexivity |]. split; [exact Ep |].
      intro Le. fsimpl. fsimpl in Ep. unfold inject_Z. apply Qltb_true.
      qprops. rewrite !Qred_correct.
      assert (0 < (x - e) / e) by (apply Qlt_shift_div_l; lra). lra.
    + cbn [fsub]. unfold py_div. apply Qeqb_false in He. rewrite He. cbn [bind].
      eexists. split; [reflexivity |].
      intros p Hp. apply Some_inj in Hp. subst p.
      cbn [ep_new_stop_loss ep_current_profit_percent].
      split; [reflexivity |]. split; [reflexivity |].
      intro Le. cbn [np_div]. destruct (Qltb e 0) eqn:El; [qprops; lra |].
      reflexivity.
  - intros d -> Hd -> Hc. unfold earnings_auto_protect.
    destruct (Z.gtb_spec d earnings_protect_days) as [Hg | _];
      [unfold earnings_protect_days in Hg; lia |].
    cbv zeta. rewrite Hc. cbn [negb]. change (FZ 0) with (Fin 0).
    rewrite py_div_zero_divisor; [reflexivity | reflexivity].
Qed.

(** Earnings in three days, price 110: breakeven at the entry 100; with
    an entry of 0 the call raises. *)
Lemma earnings_auto_protect_breakeven_witness :
  (exists r,
      earnings_auto_protect (Some 3%Z) (FZ 100) (FZ 110) = Ok r
      /\ forall p, r = Some p -> ep_new_stop_loss p = FZ 100)
  /\ earnings_auto_protect (Some 3%Z) (FZ 0) (FZ 110) = Raise ZeroDivisionError.
Proof.
  split.
  - destruct (proj1 (earnings_auto_protect_breakeven (Some 3%Z) (FZ 100) (FZ 110))
                100 eq_refl) as [r [H Hr]].
    + intro E. vm_compute in E. discriminate E.
    + exists r. split; [exact H |]. intros p Hp. exact (proj1 (Hr p Hp)).
  - apply (proj2 (earnings_auto_protect_breakeven (Some 3%Z) (FZ 0) (FZ 110)) 3%Z);
      [reflexivity | lia | reflexivity | reflexivity].
Defined.

(** ** The analysis endpoint *)

Import Server.

Lemma py_div_returns (x y r : pyfloat) : py_div x y = Ok r -> r = np_div x y.
Proof.
  unfold py_div. destruct y as [b | | |]; try (intro H; apply Ok_inj in H; congruence).
  destruct (Qeqb b 0); [discriminate |]. intro H. apply Ok_inj in H. congruence.
Qed.

(** Without a massive-drop alert passed in, none comes out. *)
Lemma generate_signal_no_alert_in_none_out
    (ind : Indicators) (mc : MarketContext) (risk : RiskProfile)
    (ed : option Z) (f : option Fundamentals) (pcp : pyfloat) (d : Decision) :
  generate_signal ind mc risk ed f None pcp = Ok d -> massive_drop d = None.
Proof.
  unfold generate_signal.
  destruct (cascade ind risk ed f None pcp) as [o | a] eqn:Hc.
  - intro H. apply Ok_inj in H. subst o. revert Hc. unfold cascade.
    destruct (check_sell_trigger _ _ _); [intro H; injection H as <-; reflexivity |].
    rewrite no_divergence_without_price_change.
    destruct (check_financial_health_block f);
      [intro H; injection H as <-; reflexivity |].
    destruct (check_earnings_proximity ed);
      [intro H; injection H as <-; reflexivity |].
    destruct (check_entry_block (risk_reward_ratio risk));
      destruct (risk_reward_ratio risk <? FZ 1)%F;
      destruct (volume_ratio ind <? FQ 1 2)%F; cbn [andb];
      intro H; try discriminate H; injection H as <-; reflexivity.
  - cbv zeta. destruct (py_int _); [| discriminate]. cbn [bind].
    intro H. apply Ok_inj in H. subst d. reflexivity.
Qed.

(** X29: [analyze_symbol] answers with an analysis only on twenty bars
    or more; the decision in it is the one [generate_signal] gives
    without a massive-drop alert and without an earnings distance, so it
    carries no massive-drop alert; a drop that [detect_massive_drop]
    found on the same bars shows as a price change below -8%, equal to
    its drop once rounded, which is what the daily-drop penalty reads. *)
Theorem analyze_symbol_massive_drop_unused
    (data : DataFrame) (context_data : MarketContext)
    (fundamentals : option Fundamentals) (a : Analysis) :
  analyze_symbol data context_data fundamentals = inr a ->
  (20 <= List.length data)%nat
  /\ generate_signal (an_indicators a) context_data (an_risk_data a) None
       fundamentals None (an_price_change a) = Ok (an_signal_data a)
  /\ massive_drop (an_signal_data a) = None
  /\ forall md, an_massive_drop a = Some md ->
       (an_price_change a <? FZ (-8))%F = true
       /\ drop_percent md = round2 (an_price_change a).
Proof.
  unfold analyze_symbol.
  destruct (Nat.ltb_spec (List.length data) 20) as [Hc | H20]; [discriminate |].
  destruct (analysis_steps data context_data fundamentals) as [a' |] eqn:E;
    [| discriminate].
  intro H. injection H as ->. split; [exact H20 |].
  revert E. unfold analysis_steps.
  open_bind ind. open_bind md. open_bind gr. open_bind risk.
  open_bind cp. open_bind pp. open_bind q. cbv zeta. open_bind sd.
  intro H. apply Ok_inj in H. subst a.
  cbn [an_indicators an_risk_data an_price_change an_signal_data an_massive_drop].
  split; [exact Esd |].
  split; [exact (generate_signal_no_alert_in_none_out _ _ _ _ _ _ _ Esd) |].
  intros m ->. revert Emd. unfold detect_massive_drop.
  destruct (Nat.ltb_spec (List.length data) 2) as [Hc | _]; [lia |].
  rewrite Epp, Ecp. cbn [bind]. cbv zeta.
  apply py_div_returns in Eq. subst q.
  change (fneg (FZ 8)) with (FZ (-8)).
  destruct (_ <? FZ (-8))%F eqn:Edrop; [| discriminate].
  match goal with
  | |- bind ?m _ = _ -> _ => destruct m as [vr |]; [cbn [bind] | discriminate]
  end.
  intro H. apply Ok_inj, Some_inj in H. subst m. cbn [drop_percent].
  split; reflexivity.
Qed.

(** Forty bars ending on a fall of 10%: the drop is detected, the
    decision is the scored SELL. *)
Lemma analyze_symbol_massive_drop_unused_witness :
  exists a md,
    analyze_symbol crash_bars calm_market None = inr a
    /\ an_massive_drop a = Some md
    /\ drop_percent md = FZ (-10)
    /\ (an_price_change a <? FZ (-8))%F = true
    /\ massive_drop (an_signal_data a) = None
    /\ signal (an_signal_data a) = SELL.
Proof.
  destruct (analyze_symbol crash_bars calm_market None) as [e | a] eqn:E;
    [vm_compute in E; discriminate E |].
  destruct (analyze_symbol_massive_drop_unused _ _ _ _ E) as [_ [_ [Hn Hd]]].
  vm_compute in E. injection E as <-.
  eexists. eexists. split; [reflexivity |]. split; [reflexivity |].
  split; [reflexivity |].
  split; [exact (proj1 (Hd _ eq_refl)) |].
  split; [exact Hn | reflexivity].
Defined.

(** ** Formatting a price *)






